(** * TP_Dashboard: the rule compiler and its deadline resolution

    A shallow embedding of the two rule compilers of the repository,
    [Backup_10_31_25/compile_rules.py] (free-text schema, module [Legacy])
    and [Backup_10_31_25/compile_rules2.py] (structured schema with CIT
    anchoring, module [Rules2]), followed by the properties of the
    specification that are stated about them (C1, C2, ...) and by further
    properties of the code (X1, X2, ...).

    Conventions of the embedding:
    - a Python [str] is a [string] of 8-bit characters read as ASCII;
      [lower], [upper], [strip], [\s], [\d], [\b] have their ASCII meaning;
    - a Python exception is a [Raised] outcome; a function that cannot
      raise is a total function; [int] of a string of digits raises
      ValueError past the interpreter's default limit of 4300 digits;
    - a row record (a Python dict built by a packer) is an association
      list from keys to values, in insertion order;
    - the country registry (a dict from lowercased names to country dicts)
      is an association list in insertion order; a reference to a country
      dict is the key it is stored under;
    - what the interpreter and third-party libraries supply (float parsing
      and printing, [datetime.fromisoformat], dateutil's [relativedelta],
      the clock) is gathered in the class [PyEnv]; debug printing is not
      modelled. *)

From Stdlib Require Import ZArith List Bool Lia String Ascii Sorted Permutation QArith.
From Stdlib Require Import Numbers.DecimalString.
Import ListNotations.

Open Scope string_scope.
Open Scope Z_scope.

(* ------------------------------------------------------------------ *)
(** ** Exceptions *)

Inductive exn : Type := ValueError | OverflowError | KeyError.

Inductive outcome (A : Type) : Type :=
| Done (a : A)
| Raised (e : exn).

Arguments Done {A} a.
Arguments Raised {A} e.

Definition bind {A B : Type} (m : outcome A) (f : A -> outcome B) : outcome B :=
  match m with
  | Done a => f a
  | Raised e => Raised e
  end.

Notation "x <- m ;; k" := (bind m (fun x => k))
  (at level 61, m at next level, right associativity).

(** [try: ... except ValueError: pass] around a computation whose result is
    wanted only when it succeeds. *)
Definition except_ValueError {A : Type} (m : outcome A) : outcome (option A) :=
  match m with
  | Done a => Done (Some a)
  | Raised ValueError => Done None
  | Raised e => Raised e
  end.

(** [for x in xs: acc = f(acc, x)] where [f] may raise. *)
Fixpoint mapM {A B : Type} (f : A -> outcome B) (l : list A) : outcome (list B) :=
  match l with
  | [] => Done []
  | x :: l' => y <- f x ;; ys <- mapM f l' ;; Done (y :: ys)
  end.

(* ------------------------------------------------------------------ *)
(** ** Python [str] operations on ASCII strings *)

Definition code (c : ascii) : Z := Z.of_N (N_of_ascii c).

Definition in_range (lo hi : Z) (c : ascii) : bool :=
  (lo <=? code c) && (code c <=? hi).

(** [str.isspace] on one character, which is also the class [\s]. *)
Definition is_space (c : ascii) : bool :=
  in_range 9 13 c || in_range 28 32 c.

Definition is_digit (c : ascii) : bool := in_range 48 57 c.
Definition is_upper (c : ascii) : bool := in_range 65 90 c.
Definition is_lower (c : ascii) : bool := in_range 97 122 c.

(** The class [\w]. *)
Definition is_word (c : ascii) : bool :=
  is_digit c || is_upper c || is_lower c || (code c =? 95).

Definition lower_ascii (c : ascii) : ascii :=
  if is_upper c then ascii_of_N (N_of_ascii c + 32) else c.

Definition upper_ascii (c : ascii) : ascii :=
  if is_lower c then ascii_of_N (N_of_ascii c - 32) else c.

Fixpoint smap (f : ascii -> ascii) (s : string) : string :=
  match s with
  | EmptyString => EmptyString
  | String c s' => String (f c) (smap f s')
  end.

Definition lower (s : string) : string := smap lower_ascii s.
Definition upper (s : string) : string := smap upper_ascii s.

Fixpoint lstrip (s : string) : string :=
  match s with
  | String c s' => if is_space c then lstrip s' else s
  | EmptyString => EmptyString
  end.

(** Drops the trailing whitespace: a character is kept when it is not a
    space or when something is kept after it. *)
Fixpoint rstrip (s : string) : string :=
  match s with
  | EmptyString => EmptyString
  | String c s' =>
      match rstrip s' with
      | EmptyString => if is_space c then EmptyString else String c EmptyString
      | t => String c t
      end
  end.

Definition strip (s : string) : string := rstrip (lstrip s).

(** [needle in hay]. *)
Fixpoint contains (needle hay : string) : bool :=
  prefix needle hay ||
  match hay with
  | EmptyString => false
  | String _ hay' => contains needle hay'
  end.

(** [s[:n]]. *)
Fixpoint take (n : nat) (s : string) : string :=
  match n, s with
  | S n', String c s' => String c (take n' s')
  | _, _ => EmptyString
  end.

(** [x in xs] for a list or tuple of strings. *)
Definition mem (x : string) (xs : list string) : bool :=
  existsb (String.eqb x) xs.

(** [str(z)] for an integer. *)
Definition str_of_Z (z : Z) : string := NilZero.string_of_int (Z.to_int z).

Definition digit_val (c : ascii) : Z := code c - 48.

(** [s.isdigit()] for a string that is not empty, true of the empty one. *)
Definition all_digits (s : string) : bool :=
  forallb is_digit (list_ascii_of_string s).

(** The value of a string of ASCII digits. *)
Definition int_of_digits (s : string) : Z :=
  fold_left (fun acc c => 10 * acc + digit_val c) (list_ascii_of_string s) 0.

(** The most digits [int] reads from a string: sys.int_info's
    default_max_str_digits, the limit of the interpreter as installed. *)
Definition max_str_digits : nat := 4300.

(** [int(s)] for a string of ASCII digits: its value, and ValueError for
    a string of more digits than the limit, leading zeros counted. *)
Definition int_of_str (s : string) : outcome Z :=
  if (max_str_digits <? String.length s)%nat then Raised ValueError
  else Done (int_of_digits s).

(** Zero-padded decimal of a natural number, at least [w] digits. *)
Fixpoint zeros (n : nat) : string :=
  match n with
  | O => EmptyString
  | S n' => String "0" (zeros n')
  end.

Definition pad (w : nat) (z : Z) : string :=
  let s := str_of_Z z in
  zeros (w - String.length s) ++ s.

(** Python's ordering of strings (by code point) and of pairs. *)
Definition str_le (a b : string) : bool := String.leb a b.

(* ------------------------------------------------------------------ *)
(** ** Regular expressions ([re]): a backtracking matcher

    The fragment the compilers use: literals and classes, concatenation,
    ordered alternation, greedy [?], greedy [*] over a character class,
    [\b] and capturing groups. Matching follows [re]'s priorities: the
    leftmost start, the first alternative that lets the rest match, the
    longest repetition that lets the rest match. *)

Inductive regex : Type :=
| Eps
| Chr (p : ascii -> bool)
| Cat (r1 r2 : regex)
| Alt (r1 r2 : regex)
| Opt (r : regex)
| Star (p : ascii -> bool)
| WordB
| Grp (n : nat) (r : regex).

(** The groups captured so far, the latest first. *)
Definition caps : Type := list (nat * string).

Fixpoint group (n : nat) (cs : caps) : option string :=
  match cs with
  | [] => None
  | (m, s) :: cs' => if Nat.eqb n m then Some s else group n cs'
  end.

Definition is_word_opt (c : option ascii) : bool :=
  match c with Some x => is_word x | None => false end.

Definition is_word_head (s : string) : bool :=
  match s with String c _ => is_word c | EmptyString => false end.

Section Matcher.
Context {R : Type}.

Fixpoint star (p : ascii -> bool) (prev : option ascii) (s : string)
         (k : option ascii -> string -> option R) : option R :=
  match s with
  | String c s' =>
      if p c then
        match star p (Some c) s' k with
        | Some r => Some r
        | None => k prev s
        end
      else k prev s
  | EmptyString => k prev s
  end.

Fixpoint rmatch (r : regex) (prev : option ascii) (s : string) (cs : caps)
         (k : option ascii -> string -> caps -> option R) : option R :=
  match r with
  | Eps => k prev s cs
  | Chr p =>
      match s with
      | String c s' => if p c then k (Some c) s' cs else None
      | EmptyString => None
      end
  | Cat r1 r2 =>
      rmatch r1 prev s cs (fun prev' s' cs' => rmatch r2 prev' s' cs' k)
  | Alt r1 r2 =>
      match rmatch r1 prev s cs k with
      | Some x => Some x
      | None => rmatch r2 prev s cs k
      end
  | Opt r1 =>
      match rmatch r1 prev s cs k with
      | Some x => Some x
      | None => k prev s cs
      end
  | Star p => star p prev s (fun prev' s' => k prev' s' cs)
  | WordB =>
      if xorb (is_word_opt prev) (is_word_head s) then k prev s cs else None
  | Grp n r1 =>
      rmatch r1 prev s cs
        (fun prev' s' cs' =>
           k prev' s' ((n, take (String.length s - String.length s') s) :: cs'))
  end.
End Matcher.

(** [pattern.match(s)]: the groups and the unread rest. *)
Definition re_match (r : regex) (s : string) : option (caps * string) :=
  rmatch r None s [] (fun _ rest cs => Some (cs, rest)).

Fixpoint search_from (r : regex) (prev : option ascii) (s : string) : option caps :=
  match rmatch r prev s [] (fun _ _ cs => Some cs) with
  | Some cs => Some cs
  | None =>
      match s with
      | String c s' => search_from r (Some c) s'
      | EmptyString => None
      end
  end.

(** [pattern.search(s)]: the groups of the leftmost match. *)
Definition re_search (r : regex) (s : string) : option caps :=
  search_from r None s.

Definition found {A : Type} (o : option A) : bool :=
  match o with Some _ => true | None => false end.

(** Pattern syntax. [lit] is a literal; [liti] a literal under
    [re.IGNORECASE]. *)
Fixpoint lit (s : string) : regex :=
  match s with
  | EmptyString => Eps
  | String c EmptyString => Chr (Ascii.eqb c)
  | String c s' => Cat (Chr (Ascii.eqb c)) (lit s')
  end.

Fixpoint liti (s : string) : regex :=
  match s with
  | EmptyString => Eps
  | String c EmptyString => Chr (fun x => Ascii.eqb (lower_ascii x) (lower_ascii c))
  | String c s' =>
      Cat (Chr (fun x => Ascii.eqb (lower_ascii x) (lower_ascii c))) (liti s')
  end.

Fixpoint cats (rs : list regex) : regex :=
  match rs with
  | [] => Eps
  | [r] => r
  | r :: rs' => Cat r (cats rs')
  end.

Fixpoint alts (rs : list regex) : regex :=
  match rs with
  | [] => Chr (fun _ => false)
  | [r] => r
  | r :: rs' => Alt r (alts rs')
  end.

Definition one_of (s : string) : regex :=
  Chr (fun x => existsb (Ascii.eqb x) (list_ascii_of_string s)).

Definition plus (p : ascii -> bool) : regex := Cat (Chr p) (Star p).

Definition sp_plus : regex := plus is_space.   (* \s+ *)
Definition sp_star : regex := Star is_space.   (* \s* *)
Definition digits : regex := plus is_digit.    (* \d+ *)
Definition digit : regex := Chr is_digit.      (* \d *)


(* ------------------------------------------------------------------ *)
(** ** Dates ([datetime], date part) *)

Record date : Type := mkdate { year : Z; month : Z; day : Z }.

Definition is_leap (y : Z) : bool :=
  (y mod 4 =? 0) && (negb (y mod 100 =? 0) || (y mod 400 =? 0)).

Definition days_in_month (y m : Z) : Z :=
  if m =? 2 then (if is_leap y then 29 else 28)
  else if (m =? 4) || (m =? 6) || (m =? 9) || (m =? 11) then 30
  else 31.

Definition valid_date (y m d : Z) : bool :=
  (1 <=? y) && (y <=? 9999) && (1 <=? m) && (m <=? 12) &&
  (1 <=? d) && (d <=? days_in_month y m).

(** The constructor's arguments are read as C [int]s. *)
Definition fits_c_int (z : Z) : bool := (- 2 ^ 31 <=? z) && (z <? 2 ^ 31).

(** [datetime(y, m, d)]. *)
Definition datetime (y m d : Z) : outcome date :=
  if fits_c_int y && fits_c_int m && fits_c_int d then
    if valid_date y m d then Done (mkdate y m d) else Raised ValueError
  else Raised OverflowError.

Definition names_abbr : list string :=
  ["Jan"; "Feb"; "Mar"; "Apr"; "May"; "Jun"; "Jul"; "Aug"; "Sep"; "Oct"; "Nov"; "Dec"].

Definition names_full : list string :=
  ["January"; "February"; "March"; "April"; "May"; "June"; "July"; "August";
   "September"; "October"; "November"; "December"].

(** [calendar.month_abbr[m]] for [1 <= m <= 12]. *)
Definition month_abbr (m : Z) : string := nth (Z.to_nat (m - 1)) names_abbr "".

(** [d.strftime("%Y-%m-%d")], the year on four digits (how a year below
    1000 is padded depends on the platform's C library). *)
Definition strftime_ymd (d : date) : string :=
  pad 4 (year d) ++ "-" ++ pad 2 (month d) ++ "-" ++ pad 2 (day d).

(** [d.strftime("%B %d, %Y")]. *)
Definition strftime_long (d : date) : string :=
  nth (Z.to_nat (month d - 1)) names_full "" ++ " " ++ pad 2 (day d) ++ ", "
  ++ pad 4 (year d).

Definition nonzero_digit : regex := Chr (in_range 49 57).

(** The pattern [strptime] builds for ["%Y-%m-%d"]. *)
Definition ymd_regex : regex :=
  cats [ Grp 1 (cats [digit; digit; digit; digit]); lit "-";
         Grp 2 (alts [ Cat (lit "1") (one_of "012");
                       Cat (lit "0") nonzero_digit;
                       nonzero_digit ]); lit "-";
         Grp 3 (alts [ Cat (lit "3") (one_of "01");
                       Cat (one_of "12") digit;
                       Cat (lit "0") nonzero_digit;
                       nonzero_digit;
                       Cat (lit " ") nonzero_digit ]) ].

(** [datetime.strptime(s, "%Y-%m-%d")]: the whole string must match and
    name a date of the calendar. *)
Definition strptime_ymd (s : string) : outcome date :=
  match re_match ymd_regex s with
  | Some (cs, EmptyString) =>
      match group 1 cs, group 2 cs, group 3 cs with
      | Some y, Some m, Some d =>
          let y := int_of_digits y in
          let m := int_of_digits m in
          let d := int_of_digits (lstrip d) in
          if valid_date y m d then Done (mkdate y m d) else Raised ValueError
      | _, _, _ => Raised ValueError
      end
  | _ => Raised ValueError
  end.

(* ------------------------------------------------------------------ *)
(** ** Numbers: Python [float] and [int] conversions *)

(** A binary64 value: a finite one is the rational it denotes. *)
Inductive pyfloat : Type :=
| FFinite (q : Q)
| FInf (negative : bool)
| FNaN.

(** The double nearest to an integer (round half to even), as that
    integer; [None] when it exceeds the range of doubles. *)
Definition round_to_double (z : Z) : option Z :=
  let a := Z.abs z in
  if a <? 2 ^ 53 then Some z
  else
    let e := Z.log2 a - 52 in
    let q := Z.shiftr a e in
    let r := a - Z.shiftl q e in
    let half := Z.shiftl 1 (e - 1) in
    let q' := if (half <? r) || ((r =? half) && Z.odd q) then q + 1 else q in
    let v := Z.shiftl q' e in
    if 2 ^ 1024 <=? v then None else Some (Z.sgn z * v).

(** [float(z)]; [None] for [OverflowError]. *)
Definition float_of_int (z : Z) : option pyfloat :=
  option_map (fun v => FFinite (inject_Z v)) (round_to_double z).

(** [int(f)]: truncation toward zero; [None] when it raises (inf, nan). *)
Definition int_of_float (f : pyfloat) : option Z :=
  match f with
  | FFinite q => Some (Z.quot (Qnum q) (Zpos (Qden q)))
  | _ => None
  end.

Definition float_truthy (f : pyfloat) : bool :=
  match f with
  | FFinite q => negb (Qnum q =? 0)
  | _ => true
  end.

(* ------------------------------------------------------------------ *)
(** ** Spreadsheet data ([pandas])

    A cell of a frame read by [read_excel] is text, an integer or a float
    (the blank cell is the float NaN). A frame has its column names and
    its rows of cells; a row seen through [iterrows] pairs each column
    name with its cell, and [r.get(name)] is [None] for a column the frame
    does not have. Column names are taken to be distinct once stripped. *)

Inductive cell : Type :=
| CStr (s : string)
| CInt (z : Z)
| CFloat (f : pyfloat).

Definition NaN : cell := CFloat FNaN.

Definition row : Type := list (string * cell).

Record frame : Type := mkframe { columns : list string; rows : list (list cell) }.

Definition workbook : Type := list (string * frame).

Fixpoint assoc {A : Type} (k : string) (l : list (string * A)) : option A :=
  match l with
  | [] => None
  | (k', v) :: l' => if String.eqb k k' then Some v else assoc k l'
  end.

(** [r.get(name)]. *)
Definition row_get (r : row) (name : string) : option cell := assoc name r.

(** [r.get(col)] where [col] is a column found by [find_col], or [None]. *)
Definition row_get_opt (r : row) (col : option string) : option cell :=
  match col with Some c => row_get r c | None => None end.

(** [[r for _, r in df.iterrows()]]. *)
Definition iterrows (df : frame) : list row :=
  map (fun cells => combine (columns df) cells) (rows df).

(** [df.empty]: no row or no column. *)
Definition empty (df : frame) : bool :=
  match columns df, rows df with
  | [], _ => true
  | _, [] => true
  | _, _ => false
  end.

(** [pd.isna(x)] for a cell or [None]. *)
Definition isna (x : option cell) : bool :=
  match x with
  | None => true
  | Some (CFloat FNaN) => true
  | _ => false
  end.

(** The truth value of a cell or [None] (as in [x or y]). *)
Definition cell_truthy (x : option cell) : bool :=
  match x with
  | None => false
  | Some (CStr s) => negb (String.eqb s "")
  | Some (CInt z) => negb (z =? 0)
  | Some (CFloat f) => float_truthy f
  end.

(** [x or y]. *)
Definition cell_or (x y : option cell) : option cell :=
  if cell_truthy x then x else y.

(** ** Row records (the dicts the packers build) *)

Inductive val : Type :=
| VNone
| VStr (s : string)
| VInt (z : Z)
| VFloat (f : pyfloat)
| VBool (b : bool).

Definition dict : Type := list (string * val).

(** [key in d]. *)
Definition has_key (d : dict) (k : string) : bool := found (assoc k d).

(** [d.get(k)]. *)
Definition dget (d : dict) (k : string) : val :=
  match assoc k d with Some v => v | None => VNone end.

(** [d[k] = v]: in place when the key is there, appended otherwise. *)
Fixpoint dset (d : dict) (k : string) (v : val) : dict :=
  match d with
  | [] => [(k, v)]
  | (k', v') :: d' =>
      if String.eqb k k' then (k, v) :: d' else (k', v') :: dset d' k v
  end.

Definition truthy (v : val) : bool :=
  match v with
  | VNone => false
  | VStr s => negb (String.eqb s "")
  | VInt z => negb (z =? 0)
  | VFloat f => float_truthy f
  | VBool b => b
  end.

(** [(v or "")] read as a string. *)
Definition str_or_empty (v : val) : string :=
  match v with VStr s => s | _ => "" end.

(** [(v or 0)] read as an integer; [d.get(k, 0) or 0] is this on [dget]. *)
Definition int_or_zero (v : val) : Z :=
  match v with VInt z => z | _ => 0 end.

Definition of_opt_int (o : option Z) : val :=
  match o with Some z => VInt z | None => VNone end.

Definition of_opt_float (o : option pyfloat) : val :=
  match o with Some f => VFloat f | None => VNone end.

(* ------------------------------------------------------------------ *)
(** ** What the interpreter and the libraries supply *)

Class PyEnv : Type := {
  (** [float(s)] for a string; [None] when it raises. *)
  float_of_str : string -> option pyfloat;
  (** [str(f)] for a float. *)
  str_of_float : pyfloat -> string;
  (** [datetime.fromisoformat(s)]; [None] when it raises. *)
  fromisoformat : string -> option date;
  (** dateutil's [dt + relativedelta(months=m, days=d)]; [None] when the
      import of dateutil failed and the name is bound to [None]. *)
  relativedelta : option (date -> Z -> Z -> outcome date);
  (** [datetime.now()]: the date, and the hour and minute. *)
  now : date;
  now_hm : Z * Z
}.

(* ------------------------------------------------------------------ *)
(** ** Helpers that both compilers define alike *)

Section Helpers.
Context {E : PyEnv}.

(** [str(x)] for a cell or [None]. *)
Definition py_str (x : option cell) : string :=
  match x with
  | None => "None"
  | Some (CStr s) => s
  | Some (CInt z) => str_of_Z z
  | Some (CFloat f) => str_of_float f
  end.

(** [clean(x)]. *)
Definition clean (x : option cell) : string :=
  if isna x then "" else strip (py_str x).

End Helpers.

(** [norm_cols(df)]. *)
Definition norm_cols (df : frame) : frame :=
  mkframe (map strip (columns df)) (rows df).

(** [lc[key]] for [lc = {c.lower(): c for c in cols}]: the last column
    with that lowercased name. *)
Definition lc_lookup (cols : list string) (key : string) : option string :=
  find (fun c => String.eqb (lower c) key) (rev cols).

Fixpoint first_some {A B : Type} (f : A -> option B) (l : list A) : option B :=
  match l with
  | [] => None
  | x :: l' => match f x with Some y => Some y | None => first_some f l' end
  end.

(** [find_col(cols, *candidates)]. *)
Definition find_col (cols candidates : list string) : option string :=
  match first_some (fun cand => lc_lookup cols (lower cand)) candidates with
  | Some c => Some c
  | None =>
      find (fun c => existsb (fun cand => contains (lower cand) (lower c)) candidates)
           cols
  end.

(** ** Dicts keyed by strings that the compilers mutate

    [upsert] is [d[k] = v]; [modify] is a mutation of the object stored
    under [k], reached through a reference to it. *)

Fixpoint upsert {A : Type} (k : string) (v : A) (l : list (string * A)) : list (string * A) :=
  match l with
  | [] => [(k, v)]
  | (k', v') :: l' =>
      if String.eqb k k' then (k, v) :: l' else (k', v') :: upsert k v l'
  end.

Fixpoint modify {A : Type} (k : string) (f : A -> A) (l : list (string * A)) : list (string * A) :=
  match l with
  | [] => []
  | (k', v') :: l' =>
      if String.eqb k k' then (k', f v') :: l' else (k', v') :: modify k f l'
  end.

(** [s.add(x)] for a set of strings. *)
Definition set_add (x : string) (s : list string) : list string :=
  if mem x s then s else (s ++ [x])%list.

(** [sorted(items, key=...)]: a stable sort, by insertion. [le] compares
    the keys of two items. *)
Section Sorting.
Context {A : Type} (le : A -> A -> bool).

Fixpoint insert_sorted (x : A) (l : list A) : list A :=
  match l with
  | [] => [x]
  | y :: l' => if le x y then x :: l else y :: insert_sorted x l'
  end.

Definition sorted (l : list A) : list A := fold_right insert_sorted [] l.

End Sorting.

(* ------------------------------------------------------------------ *)
(** * compile_rules.py *)

Module Legacy.

Definition HARD_PAT : regex :=
  Grp 1 (alts
    [ liti "submit"; liti "file"; liti "due"; liti "deadline"; liti "lodge";
      liti "lodgment"; liti "upload"; liti "deliver"; liti "sign"; liti "attest";
      liti "statutory";
      cats [liti "by"; sp_plus; digit];
      cats [liti "by"; sp_plus; liti "end"; sp_plus; liti "of"];
      cats [liti "last"; sp_plus; liti "day"; sp_plus; liti "of"];
      cats [ liti "within"; sp_plus; digits; sp_plus;
             Grp 2 (alts [liti "day"; liti "days"; liti "month"; liti "months"]);
             sp_plus; Grp 3 (alts [liti "after"; liti "of"]); sp_plus;
             Grp 4 (alts [liti "fye"; liti "year"; liti "year-end"]) ] ]).

Definition SOFT_PAT : regex :=
  Grp 1 (alts
    [ liti "prepare"; liti "maintain";
      cats [liti "upon"; sp_plus; liti "request"];
      cats [ liti "within"; sp_plus; digits; sp_plus;
             Grp 2 (alts [liti "day"; liti "days"]); sp_plus; liti "of"; sp_plus;
             Grp 3 (alts [liti "audit"; liti "request"; liti "notice"]) ];
      cats [liti "on"; sp_plus; liti "demand"];
      cats [liti "keep"; sp_plus; liti "on"; sp_plus; liti "file"];
      cats [liti "produce"; sp_plus; liti "upon"; sp_plus; liti "request"] ]).

Definition MONTH_MAP : list (string * Z) :=
  [ ("jan", 1); ("feb", 2); ("mar", 3); ("apr", 4); ("may", 5); ("jun", 6);
    ("jul", 7); ("aug", 8); ("sep", 9); ("oct", 10); ("nov", 11); ("dec", 12) ].

Definition MONTH_RE : regex :=
  cats [ WordB;
         Grp 1 (alts
           [ Cat (liti "jan") (Opt (liti "uary"));
             Cat (liti "feb") (Opt (liti "ruary"));
             Cat (liti "mar") (Opt (liti "ch"));
             Cat (liti "apr") (Opt (liti "il"));
             liti "may";
             Cat (liti "jun") (Opt (liti "e"));
             Cat (liti "jul") (Opt (liti "y"));
             Cat (liti "aug") (Opt (liti "ust"));
             Cat (liti "sep") (Opt (Cat (liti "t") (Opt (liti "ember"))));
             Cat (liti "oct") (Opt (liti "ober"));
             Cat (liti "nov") (Opt (liti "ember"));
             Cat (liti "dec") (Opt (liti "ember")) ]);
         WordB ].

(** The patterns written inline in [_month_from_text]. *)

(** [\b([0-3]?\d)\s*[/\-.]\s*(0?[1-9]|1[0-2])\b] *)
Definition NUMERIC_DATE_RE : regex :=
  cats [ WordB; Grp 1 (Cat (Opt (one_of "0123")) digit); sp_star; one_of "/-.";
         sp_star;
         Grp 2 (alts [ Cat (Opt (lit "0")) nonzero_digit;
                       Cat (lit "1") (one_of "012") ]);
         WordB ].

(** [(\d+)\s*(?:month|months)\s+after\s+(?:fye|fy-?end|year[-\s]?end)] *)
Definition REL_MONTHS_RE : regex :=
  cats [ Grp 1 digits; sp_star; alts [lit "month"; lit "months"]; sp_plus;
         lit "after"; sp_plus;
         alts [ lit "fye";
                cats [lit "fy"; Opt (lit "-"); lit "end"];
                cats [ lit "year";
                       Opt (Chr (fun c => Ascii.eqb c "-" || is_space c));
                       lit "end" ] ] ].

(** [\b31\s*[/\-.]\s*12\b] *)
Definition DEC31_RE : regex :=
  cats [WordB; lit "31"; sp_star; one_of "/-."; sp_star; lit "12"; WordB].

Definition group_str (n : nat) (cs : caps) : string :=
  match group n cs with Some s => s | None => "" end.

Definition classify_deadline (text : string) : string :=
  if String.eqb text "" then ""
  else
    let is_hard := found (re_search HARD_PAT text) in
    let is_soft := found (re_search SOFT_PAT text) in
    if is_hard && negb is_soft then "HARD"
    else if is_soft && negb is_hard then "SOFT"
    else if is_hard && is_soft then "HARD"
    else "".

Definition _month_name (m : Z) : string :=
  if negb (m =? 0) && (1 <=? m) && (m <=? 12) then month_abbr m else "".

Section WithEnv.
Context {E : PyEnv}.

Definition _month_from_text (text fye_str : string) : outcome (option Z) :=
  if String.eqb text "" then Done None
  else
    let t := lower text in
    if contains "upon request" t || contains "not applicable" t then Done None
    else
      match re_search MONTH_RE t with
      | Some cs =>
          match assoc (lower (take 3 (group_str 1 cs))) MONTH_MAP with
          | Some m => Done (Some m)
          | None => Raised KeyError
          end
      | None =>
          match re_search NUMERIC_DATE_RE t with
          | Some cs => m <- int_of_str (group_str 2 cs) ;; Done (Some m)
          | None =>
              let rel := re_search REL_MONTHS_RE t in
              let fye :=
                if String.eqb fye_str "" then None else fromisoformat fye_str in
              match rel, fye with
              | Some cs, Some d =>
                  offset <- int_of_str (group_str 1 cs) ;;
                  let base := month d in
                  Done (Some (((base - 1 + offset) mod 12) + 1))
              | _, _ =>
                  match fye with
                  | Some d =>
                      if contains "year-end" t || contains "year end" t
                         || contains "fy-end" t || contains "fy end" t
                      then Done (Some (month d))
                      else if found (re_search DEC31_RE t) then Done (Some 12)
                      else Done None
                  | None =>
                      if found (re_search DEC31_RE t) then Done (Some 12)
                      else Done None
                  end
              end
          end
      end.

Definition _decorate_deadline (d : dict) (fye : string) : outcome dict :=
  let txt :=
    if truthy (dget d "text") then dget d "text"
    else match assoc "deadline" d with Some v => v | None => VStr "" end in
  m <- _month_from_text (str_or_empty txt) fye ;;
  match m with
  | Some m =>
      if negb (m =? 0)
      then Done (dset (dset d "month" (VInt m)) "month_name" (VStr (_month_name m)))
      else Done (dset (dset d "month" VNone) "month_name" (VStr ""))
  | None => Done (dset (dset d "month" VNone) "month_name" (VStr ""))
  end.

(** [load_iso_codes(df_iso)]: name to ISO-2 code, code to name, name to
    region. *)
Definition load_iso_codes (df_iso : frame)
  : list (string * string) * list (string * string) * list (string * string) :=
  let df_iso := norm_cols df_iso in
  let country_col := find_col (columns df_iso) ["Country"; "Jurisdiction"] in
  let iso_col :=
    find_col (columns df_iso) ["Code (ISO2)"; "ISO2"; "ISO-2"; "ISO 2"; "Code"] in
  let region_col := find_col (columns df_iso) ["Region"] in
  match country_col, iso_col with
  | Some _, Some _ =>
      fold_left
        (fun '(name_to_iso, iso_to_name, name_to_region) r =>
           let nm := clean (row_get_opt r country_col) in
           let iso := upper (clean (row_get_opt r iso_col)) in
           let reg :=
             match region_col with
             | Some _ => clean (row_get_opt r region_col)
             | None => ""
             end in
           if negb (String.eqb nm "") && negb (String.eqb iso "") then
             (upsert (lower nm) iso name_to_iso,
              upsert iso nm iso_to_name,
              upsert (lower nm) reg name_to_region)
           else (name_to_iso, iso_to_name, name_to_region))
        (iterrows df_iso) ([], [], [])
  | _, _ => ([], [], [])
  end.

End WithEnv.

Record country : Type := mkcountry {
  name : string;
  iso2 : string;
  region : string;
  lf_tpd_thresholds : list dict;
  lf_tpd_deadlines : list dict;
  mf_thresholds : list dict;
  mf_deadlines : list dict;
  tp_forms : list dict;
  cbcr : option dict
}.

Definition registry : Type := list (string * country).

(** [ensure_country(registry, name_to_iso, name_to_region, j_name)]: the
    registry afterwards and the reference returned ([None], or the key of
    the country dict). *)
Definition ensure_country (reg : registry) (name_to_iso name_to_region : list (string * string))
           (j_name : string) : registry * option string :=
  let key := lower (strip j_name) in
  if String.eqb key "" then (reg, None)
  else
    match assoc key name_to_iso with
    | None => (reg, None)
    | Some iso =>
        match assoc key reg with
        | Some _ => (reg, Some key)
        | None =>
            let nm := strip j_name in
            let rg := match assoc key name_to_region with Some r => r | None => "" end in
            ((reg ++ [(key, mkcountry nm iso rg [] [] [] [] [] None)])%list, Some key)
        end
    end.

Section WithEnv2.
Context {E : PyEnv}.

(** One turn of the loop over the TPD/LF threshold rows of
    [compile_rules]: the registry and the [unmatched] set afterwards. *)
Definition tpdlf_threshold_step (name_to_iso name_to_region : list (string * string))
           (jc at_ th mt nd : option string)
           (st : registry * list string) (r : row) : registry * list string :=
  let '(countries, unmatched) := st in
  let j := clean (row_get_opt r jc) in
  match ensure_country countries name_to_iso name_to_region j with
  | (countries, None) => (countries, set_add j unmatched)
  | (countries, Some c) =>
      let item :=
        [ ("type", VStr (clean (row_get_opt r at_)));
          ("thresholds", VStr (clean (row_get_opt r th)));
          ("metric", VStr (clean (row_get_opt r mt)));
          ("notes", VStr (clean (row_get_opt r nd))) ] in
      (modify c
         (fun x =>
            mkcountry (name x) (iso2 x) (region x) (lf_tpd_thresholds x ++ [item])%list
                      (lf_tpd_deadlines x) (mf_thresholds x) (mf_deadlines x)
                      (tp_forms x) (cbcr x))
         countries, unmatched)
  end.

(** The loop over the TPD/LF threshold sheet. *)
Definition ingest_tpdlf_thresholds (name_to_iso name_to_region : list (string * string))
           (df : frame) (st : registry * list string) : registry * list string :=
  if empty df then st
  else
    let jc := find_col (columns df) ["Jurisdiction"; "Country"] in
    let at_ := find_col (columns df) ["Applicable Documentation Type"] in
    let th := find_col (columns df) ["Financial Threshold(s)"] in
    let mt := find_col (columns df) ["Metric/Basis Used"] in
    let nd := find_col (columns df) ["Additional Threshold Details"] in
    fold_left (tpdlf_threshold_step name_to_iso name_to_region jc at_ th mt nd)
              (iterrows df) st.

End WithEnv2.

End Legacy.

(* ------------------------------------------------------------------ *)
(** * compile_rules2.py *)

Module Rules2.

Module SheetNames.
Definition COUNTRY_REGIONS : string := "0. Iso Codes".
Definition LF_THRESHOLD : string := "1.LFR Threshold".
Definition LF_DEADLINES : string := "2. LFR Deadlines".
Definition MF_THRESHOLD : string := "3. MF_Thresholds".
Definition MF_DEADLINES : string := "4. MF_Deadlines".
Definition TP_FORMS : string := "5. TPForms_deadlines".
Definition CBCR : string := "6. CBCR Notifications".
Definition CIT_DEADLINES : string := "7. CIT Deadlines".
End SheetNames.

Module DocType.
Definition LF : string := "LF".
Definition MF : string := "MF".
Definition FM : string := "Fm".
End DocType.

Module RequirementStatus.
Definition YES_VALUES : list string := ["yes"; "y"; "true"; "1"].
Definition NO_VALUES : list string := ["no"; "n"; "false"; "0"].
End RequirementStatus.

Record country : Type := mkcountry {
  name : string;
  region : string;
  lf_tpd_thresholds : list dict;
  lf_tpd_deadlines : list dict;
  mf_thresholds : list dict;
  mf_deadlines : list dict;
  tp_forms : list dict;
  cbcr : option dict;
  cit_deadlines : list dict
}.

Definition registry : Type := list (string * country).

(** The mutations of a country dict that [compile_rules] performs. *)
Definition set_lf_tpd_thresholds (l : list dict) (c : country) : country :=
  mkcountry (name c) (region c) l (lf_tpd_deadlines c) (mf_thresholds c)
            (mf_deadlines c) (tp_forms c) (cbcr c) (cit_deadlines c).

Definition set_lf_tpd_deadlines (l : list dict) (c : country) : country :=
  mkcountry (name c) (region c) (lf_tpd_thresholds c) l (mf_thresholds c)
            (mf_deadlines c) (tp_forms c) (cbcr c) (cit_deadlines c).

Definition set_mf_thresholds (l : list dict) (c : country) : country :=
  mkcountry (name c) (region c) (lf_tpd_thresholds c) (lf_tpd_deadlines c) l
            (mf_deadlines c) (tp_forms c) (cbcr c) (cit_deadlines c).

Definition set_mf_deadlines (l : list dict) (c : country) : country :=
  mkcountry (name c) (region c) (lf_tpd_thresholds c) (lf_tpd_deadlines c)
            (mf_thresholds c) l (tp_forms c) (cbcr c) (cit_deadlines c).

Definition set_tp_forms (l : list dict) (c : country) : country :=
  mkcountry (name c) (region c) (lf_tpd_thresholds c) (lf_tpd_deadlines c)
            (mf_thresholds c) (mf_deadlines c) l (cbcr c) (cit_deadlines c).

Definition set_cbcr (o : option dict) (c : country) : country :=
  mkcountry (name c) (region c) (lf_tpd_thresholds c) (lf_tpd_deadlines c)
            (mf_thresholds c) (mf_deadlines c) (tp_forms c) o (cit_deadlines c).

Definition set_cit_deadlines (l : list dict) (c : country) : country :=
  mkcountry (name c) (region c) (lf_tpd_thresholds c) (lf_tpd_deadlines c)
            (mf_thresholds c) (mf_deadlines c) (tp_forms c) (cbcr c) l.

Record state : Type := mkstate {
  st_countries : registry;
  st_unmatched : list string
}.

Record compiled : Type := mkcompiled {
  generated_at : string;
  excel_source : string;
  fye : string;
  countries : list country
}.

(** [month_name(m)]. *)
Definition month_name (m : option Z) : string :=
  match m with
  | Some z => if negb (z =? 0) && (1 <=? z) && (z <=? 12) then month_abbr z else ""
  | None => ""
  end.

(** [month_name(m) if m else ""]. *)
Definition month_name_if (m : option Z) : string :=
  match m with
  | Some z => if negb (z =? 0) then month_name m else ""
  | None => ""
  end.

Definition or_zero (o : option Z) : Z :=
  match o with Some z => z | None => 0 end.

(** [ensure_country(registry, j_value, name_to_region, code_to_name)]: the
    registry afterwards and the reference returned ([None], or the key of
    the country dict). *)
Definition ensure_country (reg : registry) (j_value : string)
           (name_to_region code_to_name : list (string * string))
  : registry * option string :=
  if String.eqb j_value "" then (reg, None)
  else
    let nm := strip j_value in
    let full_name :=
      match assoc (upper nm) code_to_name with Some n => n | None => nm end in
    let key := lower full_name in
    match assoc key reg with
    | Some _ => (reg, Some key)
    | None =>
        let rg :=
          match assoc (lower nm) name_to_region with Some r => r | None => "" end in
        ((reg ++ [(key, mkcountry full_name rg [] [] [] [] [] None [])])%list, Some key)
    end.

(** [load_sheet(xls, name, required)]. *)
Definition load_sheet (xls : workbook) (name : string) (required : bool) : outcome frame :=
  match assoc name xls with
  | None => if required then Raised ValueError else Done (mkframe [] [])
  | Some df => Done (norm_cols df)
  end.

(** [validate_threshold_data(row)]. *)
Definition validate_threshold_data (row : dict) : bool :=
  if mem (lower (match assoc "requirement_applies" row with
                 | Some v => str_or_empty v
                 | None => ""
                 end)) RequirementStatus.YES_VALUES
  then
    if truthy (dget row "op") && negb (truthy (dget row "amount")) then false
    else true
  else true.

Definition tax_return_indicators : list string :=
  [ "RETURN_DUE_DATE"; "TAX_RETURN"; "CIT_RETURN"; "CORPORATE_TAX"; "WITH_RETURN";
    "FILING_DATE"; "TAX_FILING" ].

(** The test [is_tax_return_based] of [calculate_deadline_from_cit]. *)
Definition is_tax_return_based (deadline_info : dict) : bool :=
  let deadline_kind := upper (str_or_empty (dget deadline_info "deadline_kind")) in
  let event_anchor := upper (str_or_empty (dget deadline_info "event_anchor")) in
  mem deadline_kind tax_return_indicators
  || existsb (fun indicator => contains indicator event_anchor) tax_return_indicators
  || contains "tax return" (lower (str_or_empty (dget deadline_info "text"))).

(** The keys of [sort_group]: [(x.get("group_id", ""), x.get("seq", 0))],
    compared as Python compares pairs. *)
Definition group_key (x : dict) : string * Z :=
  (match assoc "group_id" x with Some v => str_or_empty v | None => "" end,
   match assoc "seq" x with Some v => int_or_zero v | None => 0 end).

Definition group_le (x y : dict) : bool :=
  match String.compare (fst (group_key x)) (fst (group_key y)) with
  | Lt => true
  | Eq => snd (group_key x) <=? snd (group_key y)
  | Gt => false
  end.

Definition sort_group (items : list dict) : list dict := sorted group_le items.

(** The key of the final sort, [(x["region"], x["name"].lower())]. *)
Definition country_key (x : country) : string * string :=
  (region x, lower (name x)).

Definition country_le (x y : country) : bool :=
  match String.compare (fst (country_key x)) (fst (country_key y)) with
  | Lt => true
  | Eq => str_le (snd (country_key x)) (snd (country_key y))
  | Gt => false
  end.

Section WithEnv.
Context {E : PyEnv}.

(** [as_int(x)]. *)
Definition as_int (x : option cell) : option Z :=
  match x with
  | None => None
  | Some (CStr s) =>
      if String.eqb s "" then None
      else match float_of_str s with Some f => int_of_float f | None => None end
  | Some (CInt z) =>
      match float_of_int z with Some f => int_of_float f | None => None end
  | Some (CFloat f) => int_of_float f
  end.

(** [as_float(x)]. *)
Definition as_float (x : option cell) : option pyfloat :=
  match x with
  | None => None
  | Some (CStr s) => if String.eqb s "" then None else float_of_str s
  | Some (CInt z) => float_of_int z
  | Some (CFloat FNaN) => None
  | Some (CFloat f) => Some f
  end.

(** [load_country_map(df_country)]: [name_to_region] and [code_to_name]. *)
Definition load_country_map (df_country : frame)
  : outcome (list (string * string) * list (string * string)) :=
  let df_country := norm_cols df_country in
  let country_col := find_col (columns df_country) ["Country"; "Jurisdiction"] in
  let code3_col :=
    find_col (columns df_country)
             ["Code_3"; "Code 3"; "Code3"; "ISO3"; "ISO_3"; "ISO-3"] in
  let region_col := find_col (columns df_country) ["Region"] in
  match country_col with
  | None => Raised ValueError
  | Some _ =>
      Done
        (fold_left
           (fun '(name_to_region, code_to_name) r =>
              let nm := clean (row_get_opt r country_col) in
              let code3 :=
                match code3_col with
                | Some _ => clean (row_get_opt r code3_col)
                | None => ""
                end in
              let reg := clean (row_get_opt r region_col) in
              if String.eqb reg "" then (name_to_region, code_to_name)
              else
                let name_to_region :=
                  if String.eqb nm "" then name_to_region
                  else upsert (lower nm) reg name_to_region in
                if String.eqb code3 "" then (name_to_region, code_to_name)
                else (upsert (lower code3) reg name_to_region,
                      upsert (upper code3) nm code_to_name))
           (iterrows df_country) ([], []))
  end.

(** [pack_threshold_row(r)]. *)
Definition pack_threshold_row (r : row) : dict :=
  let requirement_applies := clean (row_get r "RequirementApplies") in
  [ ("group_id", VStr (clean (row_get r "GroupID")));
    ("seq", VInt (or_zero (as_int (row_get r "Seq"))));
    ("requirement_applies", VStr requirement_applies);
    ("op", VStr (clean (row_get r "ThresholdOperator")));
    ("amount", of_opt_float (as_float (row_get r "ThresholdAmount")));
    ("currency", VStr (clean (row_get r "ThresholdCurrency")));
    ("metric", VStr (clean (row_get r "ThresholdMetric")));
    ("metric_basis", VStr (clean (row_get r "MetricBasisText")));
    ("note", VStr (clean (row_get r "DisplayNote")));
    ("is_applicable",
     VBool (if String.eqb requirement_applies "" then true
            else negb (mem (lower requirement_applies)
                           ["no"; "n"; "n/a"; "false"; "0"]))) ].

(** [pack_deadline_row(r)]. *)
Definition pack_deadline_row (r : row) : dict :=
  let m := as_int (row_get r "Month") in
  let d := as_int (row_get r "Day") in
  let offset_days := as_int (row_get r "OffsetDays") in
  let offset_months := as_int (row_get r "OffsetMonths") in
  [ ("group_id", VStr (clean (row_get r "GroupID")));
    ("seq", VInt (or_zero (as_int (row_get r "Seq"))));
    ("requirement_type", VStr (clean (row_get r "RequirementType")));
    ("deadline_kind", VStr (clean (row_get r "DeadlineKind")));
    ("month", of_opt_int m);
    ("day", of_opt_int d);
    ("month_name", VStr (month_name_if m));
    ("event_anchor", VStr (clean (row_get r "EventAnchor")));
    ("offset_days", of_opt_int offset_days);
    ("offset_months", of_opt_int offset_months);
    ("text", VStr (clean (row_get r "DisplayText"))) ].

(** [pack_form_row(r)]. *)
Definition pack_form_row (r : row) : dict :=
  let base := pack_deadline_row r in
  dset (dset base "name" (VStr (clean (row_get r "FormName"))))
       "included_in_return" (VStr (clean (row_get r "IncludedInReturn"))).

(** [pack_cbcr_row(r)]. *)
Definition pack_cbcr_row (r : row) : dict :=
  let m := as_int (row_get r "Month") in
  [ ("required", VStr (clean (row_get r "Required")));
    ("requirement_type", VStr (clean (row_get r "RequirementType")));
    ("included_in_cit", VStr (clean (row_get r "IncludedInCITReturn")));
    ("annual", VStr (clean (row_get r "AnnualNotification")));
    ("single_filer_ok", VStr (clean (row_get r "SingleFilerAllowed")));
    ("deadline_kind", VStr (clean (row_get r "DeadlineKind")));
    ("month", of_opt_int m);
    ("day", of_opt_int (as_int (row_get r "Day")));
    ("month_name", VStr (month_name_if m));
    ("event_anchor", VStr (clean (row_get r "EventAnchor")));
    ("offset_days", of_opt_int (as_int (row_get r "OffsetDays")));
    ("offset_months", of_opt_int (as_int (row_get r "OffsetMonths")));
    ("text", VStr (clean (row_get r "DisplayText"))) ].

(** [clean(str(x)).upper() != "N/A"]. *)
Definition not_na_text (x : option cell) : bool :=
  negb (String.eqb (upper (strip (py_str x))) "N/A").

(** [pack_cit_row(r)]. *)
Definition pack_cit_row (r : row) : dict :=
  let m := as_int (row_get r "Month") in
  let offset_months_val :=
    cell_or (cell_or (row_get r "OffsetMonths") (row_get r "Offset Months"))
            (row_get r "offset_months") in
  let offset_days_val :=
    cell_or (cell_or (row_get r "OffsetDays") (row_get r "Offset Days"))
            (row_get r "offset_days") in
  let offset_months :=
    if not_na_text offset_months_val then as_int offset_months_val else None in
  let offset_days :=
    if not_na_text offset_days_val then as_int offset_days_val else None in
  [ ("group_id",
     VStr (clean (cell_or (cell_or (row_get r "GroupID") (row_get r "Group ID"))
                          (row_get r "group_id"))));
    ("seq", VInt (or_zero (as_int (row_get r "Seq"))));
    ("taxpayer_type",
     VStr (clean (cell_or (cell_or (row_get r "TaxpayerType") (row_get r "Taxpayer Type"))
                          (row_get r "taxpayer_type"))));
    ("condition_metric",
     VStr (if not_na_text (row_get r "ConditionMetric")
           then clean (cell_or (row_get r "ConditionMetric") (row_get r "Condition Metric"))
           else ""));
    ("condition_op",
     VStr (if not_na_text (row_get r "ConditionOperator")
           then clean (cell_or (row_get r "ConditionOperator")
                               (row_get r "Condition Operator"))
           else ""));
    ("condition_value",
     if not_na_text (row_get r "ConditionValue")
     then of_opt_float (as_float (cell_or (row_get r "ConditionValue")
                                          (row_get r "Condition Value")))
     else VNone);
    ("deadline_kind",
     VStr (clean (cell_or (cell_or (row_get r "DeadlineKind") (row_get r "Deadline Kind"))
                          (row_get r "deadline_kind"))));
    ("month", of_opt_int m);
    ("day", of_opt_int (as_int (row_get r "Day")));
    ("month_name", VStr (month_name_if m));
    ("offset_months", of_opt_int offset_months);
    ("offset_days", of_opt_int offset_days);
    ("text",
     VStr (clean (cell_or (cell_or (row_get r "DisplayText") (row_get r "Display Text"))
                          (row_get r "display_text")))) ].

(** The date of the CIT deadline, [cit_date], as [calculate_deadline_from_cit]
    computes it from the first CIT record; [None] when it stays unset. *)
Definition cit_date_of (rd : date -> Z -> Z -> outcome date) (cit_deadline : dict)
           (fye : string) : outcome (option date) :=
  let cit_kind := upper (str_or_empty (dget cit_deadline "deadline_kind")) in
  if String.eqb cit_kind "FIXED_DATE" then
    let month := dget cit_deadline "month" in
    let day := dget cit_deadline "day" in
    if truthy month && truthy day then
      except_ValueError
        (year <- (if String.eqb fye "" then Done (year now + 1)
                  else fye_date <- strptime_ymd fye ;; Done (year fye_date + 1)) ;;
         datetime year (int_or_zero month) (int_or_zero day))
    else Done None
  else if String.eqb cit_kind "FYE_RELATIVE" && negb (String.eqb fye "") then
    except_ValueError
      (fye_date <- strptime_ymd fye ;;
       let offset_months := int_or_zero (dget cit_deadline "offset_months") in
       let offset_days := int_or_zero (dget cit_deadline "offset_days") in
       rd fye_date offset_months offset_days)
  else Done None.

(** The updates of [updated] once [calculated_date] is known. *)
Definition with_calculated (deadline_info : dict) (calculated_date : date)
           (default_text : string) : dict :=
  let updated := deadline_info in
  let updated := dset updated "calculated_date" (VStr (strftime_ymd calculated_date)) in
  let updated := dset updated "month" (VInt (month calculated_date)) in
  let updated := dset updated "day" (VInt (day calculated_date)) in
  let updated := dset updated "month_name" (VStr (month_abbr (month calculated_date))) in
  if truthy (dget updated "text") then updated
  else dset updated "text" (VStr default_text).

(** [calculate_deadline_from_cit(deadline_info, cit_deadlines, fye)]. *)
Definition calculate_deadline_from_cit (deadline_info : dict) (cit_deadlines : list dict)
           (fye : string) : outcome dict :=
  match deadline_info, cit_deadlines, relativedelta with
  | [], _, _ | _, [], _ | _, _, None => Done deadline_info
  | _, cit_deadline :: _, Some rd =>
      if negb (is_tax_return_based deadline_info) then Done deadline_info
      else
        match cit_deadline with
        | [] => Done deadline_info
        | _ =>
            cit_date <- cit_date_of rd cit_deadline fye ;;
            match cit_date with
            | None => Done deadline_info
            | Some cit_date =>
                let tp_offset_months := int_or_zero (dget deadline_info "offset_months") in
                let tp_offset_days := int_or_zero (dget deadline_info "offset_days") in
                if (tp_offset_months =? 0) && (tp_offset_days =? 0) then
                  Done (with_calculated deadline_info cit_date
                          ("Due with tax return (" ++ strftime_long cit_date ++ ")"))
                else
                  calculated_date <- rd cit_date tp_offset_months tp_offset_days ;;
                  Done (with_calculated deadline_info calculated_date
                          (str_of_Z tp_offset_months ++ "m " ++ str_of_Z tp_offset_days
                           ++ "d after tax return (" ++ strftime_long calculated_date
                           ++ ")"))
            end
        end
  end.

(** *** The ingestion loops of [compile_rules]

    Each of the six loops reads the row's jurisdiction, asks
    [ensure_country] for the country dict, records the token in
    [unmatched] and goes on to the next row when there is none, and
    otherwise mutates the country dict. [body r] is that mutation. *)

Definition ingest_step (name_to_region code_to_name : list (string * string))
           (body : row -> country -> country) (st : state) (r : row) : state :=
  let j := clean (row_get r "Jurisdiction") in
  match ensure_country (st_countries st) j name_to_region code_to_name with
  | (reg, None) => mkstate reg (set_add j (st_unmatched st))
  | (reg, Some c) => mkstate (modify c (body r) reg) (st_unmatched st)
  end.

Definition ingest (name_to_region code_to_name : list (string * string))
           (body : row -> country -> country) (df : frame) (st : state) : state :=
  if empty df then st
  else fold_left (ingest_step name_to_region code_to_name body) (iterrows df) st.

(** [row["doc_type"] = clean(r.get("DocTypeNormalized") or default)]. *)
Definition with_doc_type (default : string) (r : row) (packed : dict) : dict :=
  dset packed "doc_type"
       (VStr (clean (cell_or (row_get r "DocTypeNormalized") (Some (CStr default))))).

Definition lf_threshold_body (r : row) (c : country) : country :=
  let row := with_doc_type DocType.LF r (pack_threshold_row r) in
  if validate_threshold_data row
  then set_lf_tpd_thresholds (lf_tpd_thresholds c ++ [row])%list c
  else c.

Definition lf_deadline_body (r : row) (c : country) : country :=
  let row := with_doc_type DocType.LF r (pack_deadline_row r) in
  set_lf_tpd_deadlines (lf_tpd_deadlines c ++ [row])%list c.

Definition mf_threshold_body (r : row) (c : country) : country :=
  let row := with_doc_type DocType.MF r (pack_threshold_row r) in
  if validate_threshold_data row
  then set_mf_thresholds (mf_thresholds c ++ [row])%list c
  else c.

Definition mf_deadline_body (r : row) (c : country) : country :=
  let row := with_doc_type DocType.MF r (pack_deadline_row r) in
  set_mf_deadlines (mf_deadlines c ++ [row])%list c.

Definition form_body (r : row) (c : country) : country :=
  let row := with_doc_type DocType.FM r (pack_form_row r) in
  set_tp_forms (tp_forms c ++ [row])%list c.

(** A CbCR row is kept when it is required or included in the CIT return. *)
Definition cbcr_qualifies (row : dict) : bool :=
  let req := lower (match assoc "required" row with
                    | Some v => str_or_empty v | None => "" end) in
  let in_cit := lower (match assoc "included_in_cit" row with
                       | Some v => str_or_empty v | None => "" end) in
  let is_required := mem req RequirementStatus.YES_VALUES in
  let is_in_cit := mem in_cit RequirementStatus.YES_VALUES in
  is_required || is_in_cit.

Definition cbcr_body (r : row) (c : country) : country :=
  let row := pack_cbcr_row r in
  if negb (cbcr_qualifies row) then c
  else set_cbcr (Some row) c.

(** One turn of the loop over the CIT deadline rows. *)
Definition cit_step (code_to_name : list (string * string)) (reg : registry) (r : row)
  : registry :=
  let j := clean (row_get r "Jurisdiction (3-letter code)") in
  if String.eqb j "" then reg
  else
    let full_country_name :=
      match assoc (upper j) code_to_name with Some n => n | None => j end in
    let country_found :=
      match find (fun kc => String.eqb (name (snd kc)) full_country_name) reg with
      | Some kc => Some (fst kc)
      | None =>
          match find (fun kc => String.eqb (fst kc) (lower j)) reg with
          | Some kc => Some (fst kc)
          | None => None
          end
      end in
    match country_found with
    | None => reg
    | Some k =>
        let row := pack_cit_row r in
        modify k (fun c => set_cit_deadlines (cit_deadlines c ++ [row])%list c) reg
    end.

Definition ingest_cit (code_to_name : list (string * string)) (df : frame)
           (reg : registry) : registry :=
  if empty df then reg else fold_left (cit_step code_to_name) (iterrows df) reg.

(** The loop that sorts every group of every country. *)
Definition sort_country (c : country) : country :=
  mkcountry (name c) (region c)
            (sort_group (lf_tpd_thresholds c)) (sort_group (lf_tpd_deadlines c))
            (sort_group (mf_thresholds c)) (sort_group (mf_deadlines c))
            (sort_group (tp_forms c)) (cbcr c) (sort_group (cit_deadlines c)).

(** The CIT-based pass over one country. *)
Definition enhance_country (fye : string) (c : country) : outcome country :=
  let cit := cit_deadlines c in
  match cit with
  | [] => Done c
  | _ =>
      lf <- mapM (fun deadline => calculate_deadline_from_cit deadline cit fye)
                 (lf_tpd_deadlines c) ;;
      mf <- mapM (fun deadline => calculate_deadline_from_cit deadline cit fye)
                 (mf_deadlines c) ;;
      fm <- mapM (fun form => calculate_deadline_from_cit form cit fye)
                 (tp_forms c) ;;
      cb <- match cbcr c with
            | None => Done None
            | Some [] => Done (Some [])
            | Some d => d' <- calculate_deadline_from_cit d cit fye ;; Done (Some d')
            end ;;
      Done (mkcountry (name c) (region c) (lf_tpd_thresholds c) lf (mf_thresholds c)
                      mf fm cb cit)
  end.

Definition enhance (fye : string) (reg : registry) : outcome registry :=
  match relativedelta with
  | None => Done reg
  | Some _ =>
      if String.eqb fye "" then Done reg
      else mapM (fun kc => c <- enhance_country fye (snd kc) ;; Done (fst kc, c)) reg
  end.

(** The six ingestion loops of [compile_rules], in the order written. *)
Definition first_pass (name_to_region code_to_name : list (string * string))
           (df_lf_th df_lf_dl df_mf_th df_mf_dl df_forms df_cbcr : frame) : state :=
  let st := mkstate [] [] in
  let st := ingest name_to_region code_to_name lf_threshold_body df_lf_th st in
  let st := ingest name_to_region code_to_name lf_deadline_body df_lf_dl st in
  let st := ingest name_to_region code_to_name mf_threshold_body df_mf_th st in
  let st := ingest name_to_region code_to_name mf_deadline_body df_mf_dl st in
  let st := ingest name_to_region code_to_name form_body df_forms st in
  ingest name_to_region code_to_name cbcr_body df_cbcr st.

(** What follows them: the CIT rows, the sorting of the groups and the
    CIT-based pass. *)
Definition second_pass (code_to_name : list (string * string)) (df_cit : frame)
           (fye : string) (reg : registry) : outcome registry :=
  let reg := ingest_cit code_to_name df_cit reg in
  let reg := map (fun kc => (fst kc, sort_country (snd kc))) reg in
  enhance fye reg.

(** [compile_rules] up to the assembly of [compiled]: the registry and the
    [unmatched] set. *)
Definition compile_state (xls : workbook) (fye : string) : outcome state :=
  df_countries <- load_sheet xls SheetNames.COUNTRY_REGIONS true ;;
  df_lf_th <- load_sheet xls SheetNames.LF_THRESHOLD true ;;
  df_lf_dl <- load_sheet xls SheetNames.LF_DEADLINES true ;;
  df_mf_th <- load_sheet xls SheetNames.MF_THRESHOLD true ;;
  df_mf_dl <- load_sheet xls SheetNames.MF_DEADLINES true ;;
  df_forms <- load_sheet xls SheetNames.TP_FORMS true ;;
  df_cbcr <- load_sheet xls SheetNames.CBCR true ;;
  df_cit <- load_sheet xls SheetNames.CIT_DEADLINES false ;;
  maps <- load_country_map df_countries ;;
  let st := first_pass (fst maps) (snd maps)
                       df_lf_th df_lf_dl df_mf_th df_mf_dl df_forms df_cbcr in
  reg <- second_pass (snd maps) df_cit fye (st_countries st) ;;
  Done (mkstate reg (st_unmatched st)).

(** [datetime.now().strftime("%Y-%m-%d %H:%M")]. *)
Definition now_stamp : string :=
  strftime_ymd now ++ " " ++ pad 2 (fst now_hm) ++ ":" ++ pad 2 (snd now_hm).

(** [compile_rules(excel_path, fye)], on the workbook found at the path. *)
Definition compile_rules (xls : workbook) (excel_path : string) (fye : string)
  : outcome compiled :=
  st <- compile_state xls fye ;;
  Done (mkcompiled now_stamp excel_path fye
                   (sorted country_le (map snd (st_countries st)))).

End WithEnv.

End Rules2.

(* ------------------------------------------------------------------ *)
(** * A sample environment and sample workbooks

    Concrete runs of the compilers need an interpreter: [sample_env] reads
    plain decimal numerals, reads ISO dates of the form YYYY-MM-DD, has
    dateutil installed and a fixed clock. *)

Definition days_before_year (y : Z) : Z :=
  let y := y - 1 in y * 365 + y / 4 - y / 100 + y / 400.

Definition days_before_month (y m : Z) : Z :=
  nth (Z.to_nat (m - 1)) [0; 31; 59; 90; 120; 151; 181; 212; 243; 273; 304; 334] 0
  + (if (2 <? m) && is_leap y then 1 else 0).

(** [date.toordinal()]. *)
Definition ymd2ord (d : date) : Z :=
  days_before_year (year d) + days_before_month (year d) (month d) + day d.

(** [date.fromordinal(n)], as [datetime.py] computes it. *)
Definition ord2ymd (n : Z) : date :=
  let n := n - 1 in
  let n400 := n / 146097 in
  let n := n mod 146097 in
  let n100 := n / 36524 in
  let n := n mod 36524 in
  let n4 := n / 1461 in
  let n := n mod 1461 in
  let n1 := n / 365 in
  let n := n mod 365 in
  let y := n400 * 400 + 1 + n100 * 100 + n4 * 4 + n1 in
  if (n1 =? 4) || (n100 =? 4) then mkdate (y - 1) 12 31
  else
    let leapyear := (n1 =? 3) && (negb (n4 =? 24) || (n100 =? 3)) in
    let before (m : Z) :=
      nth (Z.to_nat (m - 1)) [0; 31; 59; 90; 120; 151; 181; 212; 243; 273; 304; 334] 0
      + (if (2 <? m) && leapyear then 1 else 0) in
    let m := Z.shiftr (n + 50) 5 in
    let m := if n <? before m then m - 1 else m in
    mkdate y m (n - before m + 1).

(** [dt + relativedelta(months=months, days=days)], after dateutil. *)
Definition sample_relativedelta (dt : date) (months days : Z) : outcome date :=
  let years := Z.quot months 12 in
  let months := Z.rem months 12 in
  let y := year dt + years in
  let m := month dt + months in
  let y := if 12 <? m then y + 1 else if m <? 1 then y - 1 else y in
  let m := if 12 <? m then m - 12 else if m <? 1 then m + 12 else m in
  let d := Z.min (days_in_month y m) (day dt) in
  replaced <- datetime y m d ;;
  if 999999999 <? Z.abs days then Raised OverflowError
  else
    let n := ymd2ord replaced + days in
    if (n <? 1) || (3652059 <? n) then Raised OverflowError
    else Done (ord2ymd n).

(** Numerals [[-]ddd[.ddd]]. *)
Definition sample_float_of_str (s : string) : option pyfloat :=
  let s := strip s in
  let '(neg, body) :=
    match s with
    | String "-" s' => (true, s')
    | _ => (false, s)
    end in
  let i := match index 0 "." body with Some i => i | None => String.length body end in
  let whole := substring 0 i body in
  let frac := substring (S i) (String.length body - S i) body in
  if all_digits whole && all_digits frac && negb (String.eqb whole "") then
    let num := int_of_digits (whole ++ frac) in
    let den := Pos.pow 10 (Pos.of_succ_nat (String.length frac)) in
    Some (FFinite (Qmake (if neg then - (10 * num) else 10 * num) den))
  else None.

Definition sample_str_of_float (f : pyfloat) : string :=
  match f with
  | FFinite q => str_of_Z (Z.quot (Qnum q) (Zpos (Qden q))) ++ ".0"
  | FInf true => "-inf"
  | FInf false => "inf"
  | FNaN => "nan"
  end.

Definition iso_regex : regex :=
  cats [ Grp 1 (cats [digit; digit; digit; digit]); lit "-";
         Grp 2 (cats [digit; digit]); lit "-"; Grp 3 (cats [digit; digit]) ].

Definition sample_fromisoformat (s : string) : option date :=
  match re_match iso_regex s with
  | Some (cs, EmptyString) =>
      match group 1 cs, group 2 cs, group 3 cs with
      | Some y, Some m, Some d =>
          let y := int_of_digits y in
          let m := int_of_digits m in
          let d := int_of_digits d in
          if valid_date y m d then Some (mkdate y m d) else None
      | _, _, _ => None
      end
  | _ => None
  end.

Definition sample_env : PyEnv :=
  {| float_of_str := sample_float_of_str;
     str_of_float := sample_str_of_float;
     fromisoformat := sample_fromisoformat;
     relativedelta := Some sample_relativedelta;
     now := mkdate 2025 10 31;
     now_hm := (9, 5) |}.

(** A whole number in a column that also has blanks: [read_excel] makes
    the column one of floats. *)
Definition num (z : Z) : cell := CFloat (FFinite (inject_Z z)).

Definition sample_countries : frame :=
  mkframe ["Country"; "Code_3"; "Region"]
    [ [CStr "Germany"; CStr "DEU"; CStr "Europe"];
      [CStr "Japan"; CStr "JPN"; CStr "asia"];
      [CStr "France"; CStr "FRA"; CStr "Europe"] ].

Definition sample_lf_thresholds : frame :=
  mkframe ["Jurisdiction"; "GroupID"; "Seq"; "RequirementApplies";
           "ThresholdOperator"; "ThresholdAmount"; "ThresholdCurrency"]
    [ [CStr "DEU"; CStr "G1"; CInt 1; CStr "Yes"; CStr ">="; num 6000000; CStr "EUR"];
      [CStr "Atlantis"; CStr "G1"; CInt 1; CStr "Yes"; CStr ">"; num 1; CStr "USD"];
      [CStr "Japan"; CStr "G1"; CInt 1; CStr "No"; NaN; NaN; NaN] ].

Definition deadline_columns : list string :=
  ["Jurisdiction"; "GroupID"; "Seq"; "RequirementType"; "DeadlineKind"; "Month";
   "Day"; "EventAnchor"; "OffsetDays"; "OffsetMonths"; "DisplayText"].

Definition sample_lf_deadlines : frame :=
  mkframe deadline_columns
    [ [CStr "Germany"; CStr "D1"; CInt 2; CStr "HARD"; CStr "RETURN_DUE_DATE"; NaN;
       NaN; NaN; NaN; NaN; NaN];
      [CStr "France"; CStr "D1"; CInt 1; CStr "HARD"; CStr "FIXED_DATE"; num 13;
       num 1; NaN; NaN; NaN; CStr "Due on the first day"];
      [CStr "Germany"; CStr "D1"; CInt 1; CStr "SOFT"; CStr "FIXED_DATE"; num 6;
       num 30; NaN; NaN; NaN; CStr "Prepare by June 30"] ].

Definition sample_mf_deadlines : frame :=
  mkframe deadline_columns
    [ [CStr " Germany "; CStr "M1"; CInt 1; CStr "HARD"; CStr "EVENT"; NaN; NaN;
       CStr "cit_return"; CInt 10; CInt 1; NaN] ].

Definition sample_cbcr : frame :=
  mkframe ["Jurisdiction"; "Required"; "IncludedInCITReturn"; "DeadlineKind";
           "DisplayText"]
    [ [CStr "Germany"; CStr "Yes"; NaN; CStr "FIXED_DATE"; CStr "Notify by year end"];
      [CStr "DEU"; CStr "no"; CStr "Y"; CStr "RETURN_DUE_DATE"; NaN];
      [CStr "Germany"; CStr "No"; NaN; NaN; CStr "Nothing to file"];
      [CStr "Japan"; CStr "No"; CStr ""; NaN; NaN] ].

Definition sample_cit : frame :=
  mkframe ["Jurisdiction (3-letter code)"; "GroupID"; "Seq"; "DeadlineKind"; "Month";
           "Day"]
    [ [CStr "DEU"; CStr "C1"; CInt 1; CStr "FIXED_DATE"; CInt 3; CInt 31] ].

Definition sample_xls : workbook :=
  [ (Rules2.SheetNames.COUNTRY_REGIONS, sample_countries);
    (Rules2.SheetNames.LF_THRESHOLD, sample_lf_thresholds);
    (Rules2.SheetNames.LF_DEADLINES, sample_lf_deadlines);
    (Rules2.SheetNames.MF_THRESHOLD, mkframe ["Jurisdiction"] []);
    (Rules2.SheetNames.MF_DEADLINES, sample_mf_deadlines);
    (Rules2.SheetNames.TP_FORMS, mkframe ["Jurisdiction"; "FormName"] []);
    (Rules2.SheetNames.CBCR, sample_cbcr);
    (Rules2.SheetNames.CIT_DEADLINES, sample_cit) ].

(* ------------------------------------------------------------------ *)
(** * Notions used to state the properties *)


(** The month field of a record as the specification wants it: null, or
    an integer from 1 to 12. *)
Definition month_in_range (v : val) : Prop :=
  v = VNone \/ exists z, v = VInt z /\ 1 <= z <= 12.

(** A cell that holds the integer [z]: as an integer small enough to be
    a float exactly, or as the float of that value. *)
Definition holds_integer (x : cell) (z : Z) : Prop :=
  (x = CInt z /\ Z.abs z < 2 ^ 53) \/ x = CFloat (FFinite (inject_Z z)).

(** A jurisdiction token is recognized by the structured compiler when it
    is a code of [code_to_name] or a name (or code) of [name_to_region]. *)
Definition recognized (name_to_region code_to_name : list (string * string))
           (tok : string) : bool :=
  found (assoc (upper (strip tok)) code_to_name)
  || found (assoc (lower (strip tok)) name_to_region).

(** The registry key [ensure_country] computes for a token. *)
Definition key_of (code_to_name : list (string * string)) (tok : string) : string :=
  lower (match assoc (upper (strip tok)) code_to_name with
         | Some n => n
         | None => strip tok
         end).

(** The rows a loop of [compile_rules] goes through. *)
Definition looped (df : frame) : list row :=
  if empty df then [] else iterrows df.

(** A sheet as [load_sheet] hands it over, the empty frame when the
    workbook does not have it. *)
Definition sheet (xls : workbook) (name : string) : frame :=
  match assoc name xls with
  | Some df => norm_cols df
  | None => mkframe [] []
  end.

(** Python's order on pairs of strings. *)
Definition pair_le (k1 k2 : string * string) : Prop :=
  String.compare (fst k1) (fst k2) = Lt
  \/ (fst k1 = fst k2 /\ String.leb (snd k1) (snd k2) = true).

(** The sort key of the countries as the specification words it, with
    both components compared without regard to case. *)
Definition caseless_key (c : Rules2.country) : string * string :=
  (lower (Rules2.region c), lower (Rules2.name c)).

(** A record without a calculated date, and a country none of whose
    deadline, form or notification records has one. *)
Definition no_calculated_date (d : dict) : Prop :=
  has_key d "calculated_date" = false.

Definition uncalculated (c : Rules2.country) : Prop :=
  Forall no_calculated_date (Rules2.lf_tpd_deadlines c)
  /\ Forall no_calculated_date (Rules2.mf_deadlines c)
  /\ Forall no_calculated_date (Rules2.tp_forms c)
  /\ (forall d, Rules2.cbcr c = Some d -> no_calculated_date d).

(** The country dict [ensure_country] creates for a token. *)
Definition fresh_country (name_to_region code_to_name : list (string * string))
           (tok : string) : Rules2.country :=
  Rules2.mkcountry
    (match assoc (upper (strip tok)) code_to_name with
     | Some n => n
     | None => strip tok
     end)
    (match assoc (lower (strip tok)) name_to_region with
     | Some r => r
     | None => ""
     end)
    [] [] [] [] [] None [].

Section Notions.
Context {E : PyEnv}.

(** The jurisdiction token of a row. *)
Definition token_of (r : row) : string := clean (row_get r "Jurisdiction").

(** The two maps [compile_rules] loads from the country sheet. *)
Definition country_maps (xls : workbook) : list (string * string) * list (string * string) :=
  match Rules2.load_country_map (sheet xls Rules2.SheetNames.COUNTRY_REGIONS) with
  | Done m => m
  | Raised _ => ([], [])
  end.

(** The state after the six ingestion loops over a workbook. *)
Definition first_pass_of (xls : workbook) : Rules2.state :=
  Rules2.first_pass (fst (country_maps xls)) (snd (country_maps xls))
    (sheet xls Rules2.SheetNames.LF_THRESHOLD)
    (sheet xls Rules2.SheetNames.LF_DEADLINES)
    (sheet xls Rules2.SheetNames.MF_THRESHOLD)
    (sheet xls Rules2.SheetNames.MF_DEADLINES)
    (sheet xls Rules2.SheetNames.TP_FORMS)
    (sheet xls Rules2.SheetNames.CBCR).

(** The rows the six ingestion loops go through, in order. *)
Definition ingested_rows (xls : workbook) : list row :=
  (looped (sheet xls Rules2.SheetNames.LF_THRESHOLD)
   ++ looped (sheet xls Rules2.SheetNames.LF_DEADLINES)
   ++ looped (sheet xls Rules2.SheetNames.MF_THRESHOLD)
   ++ looped (sheet xls Rules2.SheetNames.MF_DEADLINES)
   ++ looped (sheet xls Rules2.SheetNames.TP_FORMS)
   ++ looped (sheet xls Rules2.SheetNames.CBCR))%list.

(** A CbCR row counts for the country stored under key [k] when its
    token is not blank and resolves to [k], and the row qualifies. *)
Definition cbcr_selected (code_to_name : list (string * string)) (k : string)
           (r : row) : bool :=
  negb (String.eqb (token_of r) "")
  && String.eqb (key_of code_to_name (token_of r)) k
  && Rules2.cbcr_qualifies (Rules2.pack_cbcr_row r).

(** The last such row in source order. *)
Definition last_qualifying (code_to_name : list (string * string)) (k : string)
           (rows : list row) : option row :=
  find (cbcr_selected code_to_name k) (rev rows).

(** The CIT-based pass reaches a country when dateutil is installed, a
    fiscal-year-end is supplied and the country has CIT deadlines. *)
Definition enhancement_applies (fye : string) (c : Rules2.country) : bool :=
  found relativedelta && negb (String.eqb fye "")
  && match Rules2.cit_deadlines c with [] => false | _ => true end.

(** What the second pass of [compile_rules] (CIT rows, sorting, CIT-based
    pass) leaves of a country [c0] of the first pass: its name and region,
    and its notification record, recomputed from the CIT deadlines when
    the CIT-based pass reaches the country. *)
Definition passed (fye : string) (c0 c' : Rules2.country) : Prop :=
  Rules2.name c' = Rules2.name c0
  /\ Rules2.region c' = Rules2.region c0
  /\ if enhancement_applies fye c' then
       match Rules2.cbcr c0 with
       | None => Rules2.cbcr c' = None
       | Some d =>
           exists d',
             Rules2.calculate_deadline_from_cit d (Rules2.cit_deadlines c') fye = Done d'
             /\ Rules2.cbcr c' = Some d'
       end
     else Rules2.cbcr c' = Rules2.cbcr c0.

End Notions.

(** Two states of a country that differ at most in its record lists. *)
Definition kept (c0 c1 : Rules2.country) : Prop :=
  Rules2.name c1 = Rules2.name c0
  /\ Rules2.region c1 = Rules2.region c0
  /\ Rules2.cbcr c1 = Rules2.cbcr c0.

(** The notification record stored for a key, if any. *)
Definition cbcr_at (k : string) (reg : Rules2.registry) : option dict :=
  match assoc k reg with
  | Some c => Rules2.cbcr c
  | None => None
  end.

(** Each of the six loop bodies keeps a country free of calculated dates. *)
Definition keeps_uncalculated (body : row -> Rules2.country -> Rules2.country) : Prop :=
  forall r c, uncalculated c -> uncalculated (body r c).

(** The sample environment on a machine without dateutil. *)
Definition sample_env_no_dateutil : PyEnv :=
  {| float_of_str := sample_float_of_str;
     str_of_float := sample_str_of_float;
     fromisoformat := sample_fromisoformat;
     relativedelta := None;
     now := mkdate 2025 10 31;
     now_hm := (9, 5) |}.

(** The sheets [compile_rules] loads with [required=True]. *)
Definition required_sheets : list string :=
  [ Rules2.SheetNames.COUNTRY_REGIONS; Rules2.SheetNames.LF_THRESHOLD;
    Rules2.SheetNames.LF_DEADLINES; Rules2.SheetNames.MF_THRESHOLD;
    Rules2.SheetNames.MF_DEADLINES; Rules2.SheetNames.TP_FORMS;
    Rules2.SheetNames.CBCR ].

(** The keys [calculate_deadline_from_cit] may write. *)
Definition calculated_keys : list string :=
  ["calculated_date"; "month"; "day"; "month_name"; "text"].

(** Two states of a country that differ at most in its CIT deadlines. *)
Definition same_but_cit (c0 c1 : Rules2.country) : Prop :=
  c1 = Rules2.set_cit_deadlines (Rules2.cit_deadlines c1) c0.

(** A record of the document beside the record [d] of the first pass: [d]
    itself, or what [calculate_deadline_from_cit] returned for it. *)
Definition resolved {E : PyEnv} (fye : string) (d d' : dict) : Prop :=
  d' = d \/ exists cits, Rules2.calculate_deadline_from_cit d cits fye = Done d'.

(** A record has the sort key [k] of [sort_group]. *)
Definition has_group_key (k : string * Z) (x : dict) : bool :=
  String.eqb (fst (Rules2.group_key x)) (fst k) && (snd (Rules2.group_key x) =? snd k).

(** The record lists of a country that [sort_group] orders. *)
Definition record_lists (c : Rules2.country) : list (list dict) :=
  [ Rules2.lf_tpd_thresholds c; Rules2.lf_tpd_deadlines c; Rules2.mf_thresholds c;
    Rules2.mf_deadlines c; Rules2.tp_forms c; Rules2.cit_deadlines c ].

(** A threshold record is complete: where the requirement applies and an
    operator is given, the amount is there and is not zero. *)
Definition complete_threshold (t : dict) : Prop :=
  exists s, assoc "requirement_applies" t = Some (VStr s)
            /\ (mem (lower s) Rules2.RequirementStatus.YES_VALUES = true ->
                truthy (dget t "op") = true -> truthy (dget t "amount") = true).

(** A workbook that has the country sheet alone. *)
Definition countries_only_xls : workbook :=
  [(Rules2.SheetNames.COUNTRY_REGIONS, sample_countries)].

(** The country a row of the CIT sheet is attached to, as the CIT loop
    looks it up in a registry: by the full name its code stands for,
    else by the lowercased code as a key. *)
Definition cit_target {E : PyEnv} (code_to_name : list (string * string))
           (reg : Rules2.registry) (r : row) : option string :=
  let j := clean (row_get r "Jurisdiction (3-letter code)") in
  if String.eqb j "" then None
  else
    let full_country_name :=
      match assoc (upper j) code_to_name with Some n => n | None => j end in
    match find (fun kc => String.eqb (Rules2.name (snd kc)) full_country_name) reg with
    | Some kc => Some (fst kc)
    | None =>
        match find (fun kc => String.eqb (fst kc) (lower j)) reg with
        | Some kc => Some (fst kc)
        | None => None
        end
    end.

(** The rows of the CIT sheet attached to the country stored under [k]. *)
Definition cit_rows_of {E : PyEnv} (code_to_name : list (string * string))
           (reg : Rules2.registry) (k : string) (rows : list row) : list row :=
  filter (fun r => match cit_target code_to_name reg r with
                   | Some k' => String.eqb k' k
                   | None => false
                   end) rows.

(** The key and the name of every country of a registry. *)
Definition identities (reg : Rules2.registry) : list (string * string) :=
  map (fun kc => (fst kc, Rules2.name (snd kc))) reg.

(** A country was created for the jurisdiction token of the row [r]. *)
Definition created_for {E : PyEnv} (name_to_region code_to_name : list (string * string))
           (r : row) (c : Rules2.country) : Prop :=
  token_of r <> ""
  /\ Rules2.name c = Rules2.name (fresh_country name_to_region code_to_name (token_of r))
  /\ Rules2.region c
     = Rules2.region (fresh_country name_to_region code_to_name (token_of r)).

(** The fields of a record describe the date [cd]. *)
Definition describes_date (d : dict) (cd : date) : Prop :=
  dget d "calculated_date" = VStr (strftime_ymd cd)
  /\ dget d "month" = VInt (month cd)
  /\ dget d "day" = VInt (day cd)
  /\ dget d "month_name" = VStr (month_abbr (month cd)).

(** A column matches a candidate of [find_col] exactly (case apart), or
    contains it (case apart). *)
Definition names_exactly (c cand : string) : Prop := lower c = lower cand.

Definition names_within (c cand : string) : Prop :=
  contains (lower cand) (lower c) = true.




(** A country of the legacy registry stored under [k] is a country of
    the ISO sheet: its key is its lowercased name and its code is the
    one the sheet gives for that key. *)
Definition known_country (name_to_iso : list (string * string)) (k : string)
           (c : Legacy.country) : Prop :=
  k = lower (Legacy.name c) /\ assoc k name_to_iso = Some (Legacy.iso2 c).

(** A token the legacy [ensure_country] turns down: blank once cleaned,
    or not a name of the ISO sheet. *)
Definition turned_down (name_to_iso : list (string * string)) (u : string) : Prop :=
  lower (strip u) = "" \/ assoc (lower (strip u)) name_to_iso = None.

(** A small ISO sheet and a threshold sheet of the legacy workbook. *)
Definition sample_iso : frame :=
  mkframe ["Country"; "Code (ISO2)"; "Region"]
    [ [CStr "Germany"; CStr "de"; CStr "Europe"];
      [CStr "Japan"; CStr "JP"; NaN];
      [CStr "Nowhere"; NaN; CStr "Europe"] ].

Definition sample_tpdlf_thresholds : frame :=
  mkframe ["Jurisdiction"; "Applicable Documentation Type"; "Financial Threshold(s)"]
    [ [CStr "Germany"; CStr "LF"; CStr "EUR 6m"];
      [CStr "Atlantis"; CStr "LF"; CStr "none"];
      [CStr " GERMANY"; CStr "MF"; CStr "EUR 100m"] ].

(** A row of an ingested sheet belongs to the country stored under [k]:
    its token is not blank and resolves to [k]. *)
Definition belongs {E : PyEnv} (code_to_name : list (string * string)) (k : string)
           (r : row) : bool :=
  negb (String.eqb (token_of r) "") && String.eqb (key_of code_to_name (token_of r)) k.

(** The rows of a sheet that belong to the country stored under [k], in
    source order. *)
Definition rows_of {E : PyEnv} (xls : workbook) (k : string) (n : string) : list row :=
  filter (belongs (snd (country_maps xls)) k) (looped (sheet xls n)).

(** The records the loops over the threshold, deadline and form sheets
    build from a row. *)
Definition threshold_record {E : PyEnv} (doc_type : string) (r : row) : dict :=
  Rules2.with_doc_type doc_type r (Rules2.pack_threshold_row r).

Definition deadline_record {E : PyEnv} (doc_type : string) (r : row) : dict :=
  Rules2.with_doc_type doc_type r (Rules2.pack_deadline_row r).

Definition form_record {E : PyEnv} (r : row) : dict :=
  Rules2.with_doc_type Rules2.DocType.FM r (Rules2.pack_form_row r).

(** A record list of a country, or the empty list where there is no
    country. *)
Definition records_at (fld : Rules2.country -> list dict) (o : option Rules2.country)
  : list dict :=
  match o with Some c => fld c | None => [] end.

(** Opens the body of an ingestion loop and splits on its test, if any. *)
Ltac open_body :=
  unfold Rules2.lf_threshold_body, Rules2.lf_deadline_body, Rules2.mf_threshold_body,
         Rules2.mf_deadline_body, Rules2.form_body, Rules2.cbcr_body;
  try match goal with |- context [if ?b then _ else _] => destruct b end.

(* ------------------------------------------------------------------ *)
(** * Properties of the free-text compiler (compile_rules.py) *)

(** Runs of the embedding on texts of the kind the sheets hold. *)

Example classify_deadline_runs :
  map Legacy.classify_deadline
      ["Submit upon request"; "Prepare file"; "maintain docs"; "nothing"; "";
       "within 30 days of audit"; "Submit within 30 days after FYE"; "Keep on  File"]
  = ["HARD"; "HARD"; "SOFT"; ""; ""; "SOFT"; "HARD"; "HARD"].
Proof. vm_compute. reflexivity. Qed.

Example month_from_text_runs :
  map (fun t => @Legacy._month_from_text sample_env t "2024-12-31")
      ["by March 31"; "31/12"; "15.06.2025"; "at year end"; "Sept 1";
       "12 month after fye"; "6months after FY-end"; "may be due";
       "Submit within 30 days after FYE"; "Not Applicable 31/12"]
  = map (fun m => Done m)
        [Some 3; Some 12; Some 6; Some 12; Some 9; Some 12; Some 6; Some 5; None; None].
Proof. vm_compute. reflexivity. Qed.

Example month_from_text_without_fye :
  map (fun t => @Legacy._month_from_text sample_env t "")
      ["within 3 months after year-end"; "31 - 12"; "at year end"]
  = [Done None; Done (Some 12); Done None].
Proof. vm_compute. reflexivity. Qed.

Example decorate_deadline_run :
  @Legacy._decorate_deadline sample_env
     [("kind", VStr "submit"); ("text", VStr "Lodge by 15 Sept"); ("class", VStr "HARD")]
     "2025-12-31"
  = Done [("kind", VStr "submit"); ("text", VStr "Lodge by 15 Sept");
          ("class", VStr "HARD"); ("month", VInt 9); ("month_name", VStr "Sep")].
Proof. vm_compute. reflexivity. Qed.

Example strptime_runs :
  map strptime_ymd ["2024-12-31"; "2024-2-29"; "2023-02-29"; "2024-12-311"; "24-12-31"]
  = [Done (mkdate 2024 12 31); Done (mkdate 2024 2 29); Raised ValueError;
     Raised ValueError; Raised ValueError].
Proof. vm_compute. reflexivity. Qed.

Example calculate_with_offsets_run :
  @Rules2.calculate_deadline_from_cit sample_env
     [("deadline_kind", VStr "EVENT"); ("event_anchor", VStr "cit_return");
      ("offset_months", VInt 1); ("offset_days", VInt 10); ("text", VStr "")]
     [[("deadline_kind", VStr "FYE_RELATIVE"); ("offset_months", VInt 5)]]
     "2024-12-31"
  = Done [("deadline_kind", VStr "EVENT"); ("event_anchor", VStr "cit_return");
          ("offset_months", VInt 1); ("offset_days", VInt 10);
          ("text", VStr "1m 10d after tax return (July 10, 2025)");
          ("calculated_date", VStr "2025-07-10"); ("month", VInt 7); ("day", VInt 10);
          ("month_name", VStr "Jul")].
Proof. vm_compute. reflexivity. Qed.

(** An offset that leaves the calendar raises, outside any [try]. *)
Example calculate_out_of_range_run :
  @Rules2.calculate_deadline_from_cit sample_env
     [("deadline_kind", VStr "TAX_RETURN"); ("offset_months", VInt 120000)]
     [[("deadline_kind", VStr "FIXED_DATE"); ("month", VInt 3); ("day", VInt 31)]]
     "2024-12-31"
  = Raised ValueError.
Proof. vm_compute. reflexivity. Qed.

(** A missing required sheet aborts the compilation. *)
Example missing_sheet_run :
  @Rules2.compile_rules sample_env (tl sample_xls) "Rule Tables.xlsx" ""
  = Raised ValueError.
Proof. vm_compute. reflexivity. Qed.

(** A notification row that is neither required nor included in the CIT
    return leaves the notification null. *)
Example notification_stays_null_run :
  exists st c,
    @Rules2.compile_state sample_env sample_xls "2024-12-31" = Done st
    /\ assoc "japan" (Rules2.st_countries st) = Some c
    /\ Rules2.cbcr c = None.
Proof.
  eexists. eexists. split; [vm_compute; reflexivity | ].
  split; vm_compute; reflexivity.
Qed.

Lemma empty_text_matches_neither :
  re_search Legacy.HARD_PAT "" = None /\ re_search Legacy.SOFT_PAT "" = None.
Proof. split; reflexivity. Qed.

(** The class of a text, by the patterns found in it. *)
Lemma classify_deadline_by_patterns (text : string) :
  Legacy.classify_deadline text
  = if found (re_search Legacy.HARD_PAT text) then "HARD"
    else if found (re_search Legacy.SOFT_PAT text) then "SOFT"
    else "".
Proof.
  unfold Legacy.classify_deadline.
  destruct (String.eqb text "") eqn:Hempty.
  - apply String.eqb_eq in Hempty; subst text. reflexivity.
  - destruct (found (re_search Legacy.HARD_PAT text)),
             (found (re_search Legacy.SOFT_PAT text)); reflexivity.
Qed.

(** C6. The deadline classifier is a function of the text alone whose
    value is "HARD", "SOFT" or the empty string, and a text in which both
    the HARD pattern and the SOFT pattern are found is classified "HARD". *)
Theorem classify_deadline_hard_bias (text : string) :
  (Legacy.classify_deadline text = "HARD"
   \/ Legacy.classify_deadline text = "SOFT"
   \/ Legacy.classify_deadline text = "")
  /\ (found (re_search Legacy.HARD_PAT text) = true ->
      found (re_search Legacy.SOFT_PAT text) = true ->
      Legacy.classify_deadline text = "HARD").
Proof.
  unfold Legacy.classify_deadline.
  destruct (String.eqb text "") eqn:Hempty.
  - apply String.eqb_eq in Hempty; subst text. split.
    + right; right; reflexivity.
    + intros Hh _. destruct empty_text_matches_neither as [H0 _].
      rewrite H0 in Hh. discriminate.
  - destruct (found (re_search Legacy.HARD_PAT text)),
             (found (re_search Legacy.SOFT_PAT text)); simpl; split;
      intros; try discriminate; auto.
Qed.

Lemma classify_deadline_hard_bias_witness :
  found (re_search Legacy.HARD_PAT "Submit upon request") = true
  /\ found (re_search Legacy.SOFT_PAT "Submit upon request") = true
  /\ Legacy.classify_deadline "Submit upon request" = "HARD".
Proof.
  split; [reflexivity | split; [reflexivity | ]].
  apply (proj2 (classify_deadline_hard_bias "Submit upon request")); reflexivity.
Defined.

(** C7. A text that contains "upon request" or "not applicable", in any
    letter case, resolves to no month, whatever else it contains and
    whatever fiscal-year-end is supplied. *)
Theorem undated_phrases_have_no_month (E : PyEnv) (text fye_str : string) :
  contains "upon request" (lower text) = true
  \/ contains "not applicable" (lower text) = true ->
  Legacy._month_from_text text fye_str = Done None.
Proof.
  intros H. unfold Legacy._month_from_text.
  destruct (String.eqb text ""); [reflexivity | ].
  destruct H as [H | H]; rewrite H; [reflexivity | ].
  rewrite orb_true_r. reflexivity.
Qed.

Lemma undated_phrases_have_no_month_witness :
  @Legacy._month_from_text sample_env
     "Upon Request, 3 months after year-end (31/12, March)" "2024-12-31"
  = Done None.
Proof.
  apply (undated_phrases_have_no_month sample_env
           "Upon Request, 3 months after year-end (31/12, March)" "2024-12-31").
  left. reflexivity.
Defined.

(** ** The matcher and the groups it captures *)




Lemma length_append (a b : string) :
  String.length (a ++ b) = (String.length a + String.length b)%nat.
Proof. induction a; simpl; congruence. Qed.









(* ------------------------------------------------------------------ *)
(** * Properties of the structured compiler (compile_rules2.py) *)

(** ** Row records *)

Lemma assoc_dset_eq (d : dict) (k : string) (v : val) :
  assoc k (dset d k v) = Some v.
Proof.
  induction d as [| [k' v'] d IH]; simpl.
  - rewrite String.eqb_refl. reflexivity.
  - destruct (String.eqb k k') eqn:Hk; simpl.
    + rewrite String.eqb_refl. reflexivity.
    + rewrite Hk. exact IH.
Qed.

Lemma assoc_dset_neq (d : dict) (k k' : string) (v : val) :
  k <> k' -> assoc k' (dset d k v) = assoc k' d.
Proof.
  intros Hne. induction d as [| [k0 v0] d IH]; simpl.
  - destruct (String.eqb k' k) eqn:Hk; [ | reflexivity].
    apply String.eqb_eq in Hk. congruence.
  - destruct (String.eqb k k0) eqn:Hk; simpl.
    + apply String.eqb_eq in Hk. subst k0.
      destruct (String.eqb k' k) eqn:Hk'; [ | reflexivity].
      apply String.eqb_eq in Hk'. congruence.
    + rewrite IH. reflexivity.
Qed.

Lemma dget_dset_eq (d : dict) (k : string) (v : val) : dget (dset d k v) k = v.
Proof. unfold dget. rewrite assoc_dset_eq. reflexivity. Qed.

Lemma dget_dset_neq (d : dict) (k k' : string) (v : val) :
  k <> k' -> dget (dset d k v) k' = dget d k'.
Proof. intros H. unfold dget. rewrite assoc_dset_neq by exact H. reflexivity. Qed.

Lemma has_key_dset_neq (d : dict) (k k' : string) (v : val) :
  k <> k' -> has_key (dset d k v) k' = has_key d k'.
Proof. intros H. unfold has_key. rewrite assoc_dset_neq by exact H. reflexivity. Qed.

(** The fields of a record whose calculated date has been filled in. *)
Lemma with_calculated_fields (d : dict) (cd : date) (txt : string) :
  dget (Rules2.with_calculated d cd txt) "calculated_date" = VStr (strftime_ymd cd)
  /\ dget (Rules2.with_calculated d cd txt) "month" = VInt (month cd)
  /\ dget (Rules2.with_calculated d cd txt) "day" = VInt (day cd)
  /\ dget (Rules2.with_calculated d cd txt) "month_name" = VStr (month_abbr (month cd)).
Proof.
  unfold Rules2.with_calculated.
  match goal with |- context [if ?b then _ else _] => destruct b end;
    repeat split;
    repeat first [ rewrite dget_dset_eq; reflexivity
                 | rewrite dget_dset_neq by discriminate ].
Qed.

Lemma strptime_fye_2024 : strptime_ymd "2024-12-31" = Done (mkdate 2024 12 31).
Proof. reflexivity. Qed.

Lemma not_tax_return_based_nil : Rules2.is_tax_return_based [] = false.
Proof. reflexivity. Qed.

(** C4. With dateutil installed, a fiscal-year-end of 2024-12-31 and a
    first CIT record of kind FIXED_DATE with month 3 and day 31, a
    tax-return-anchored deadline whose offsets are zero or null gets the
    calculated date 2025-03-31, with month and day refreshed to match. *)
Theorem zero_offset_is_due_with_tax_return
        (E : PyEnv) (rd : date -> Z -> Z -> outcome date)
        (deadline_info cit_deadline : dict) (rest : list dict) :
  relativedelta = Some rd ->
  Rules2.is_tax_return_based deadline_info = true ->
  upper (str_or_empty (dget cit_deadline "deadline_kind")) = "FIXED_DATE" ->
  dget cit_deadline "month" = VInt 3 ->
  dget cit_deadline "day" = VInt 31 ->
  dget deadline_info "offset_months" = VInt 0
  \/ dget deadline_info "offset_months" = VNone ->
  dget deadline_info "offset_days" = VInt 0
  \/ dget deadline_info "offset_days" = VNone ->
  exists updated,
    Rules2.calculate_deadline_from_cit deadline_info (cit_deadline :: rest) "2024-12-31"
    = Done updated
    /\ dget updated "calculated_date" = VStr "2025-03-31"
    /\ dget updated "month" = VInt 3
    /\ dget updated "day" = VInt 31
    /\ dget updated "month_name" = VStr "Mar".
Proof.
  intros Hrd Htax Hkind Hmonth Hday Hom Hod.
  assert (Hdate : Rules2.cit_date_of rd cit_deadline "2024-12-31"
                  = Done (Some (mkdate 2025 3 31))).
  { unfold Rules2.cit_date_of. rewrite Hkind, Hmonth, Hday.
    change (String.eqb "FIXED_DATE" "FIXED_DATE") with true.
    change (String.eqb "2024-12-31" "") with false.
    cbv iota. rewrite strptime_fye_2024. reflexivity. }
  assert (Hzero : (int_or_zero (dget deadline_info "offset_months") =? 0)
                  && (int_or_zero (dget deadline_info "offset_days") =? 0) = true).
  { destruct Hom as [-> | ->], Hod as [-> | ->]; reflexivity. }
  destruct deadline_info as [| kv deadline_info].
  { rewrite not_tax_return_based_nil in Htax. discriminate. }
  destruct cit_deadline as [| kv' cit_deadline].
  { discriminate Hmonth. }
  unfold Rules2.calculate_deadline_from_cit.
  rewrite Hrd, Htax, Hdate. cbn [negb bind]. rewrite Hzero.
  eexists. split; [reflexivity | ].
  destruct (with_calculated_fields (kv :: deadline_info) (mkdate 2025 3 31)
              ("Due with tax return (" ++ strftime_long (mkdate 2025 3 31) ++ ")"))
    as (H1 & H2 & H3 & H4).
  repeat split; assumption.
Qed.

Lemma zero_offset_is_due_with_tax_return_witness :
  exists updated,
    @Rules2.calculate_deadline_from_cit sample_env
      [("deadline_kind", VStr "RETURN_DUE_DATE"); ("offset_months", VInt 0);
       ("offset_days", VNone); ("text", VStr "")]
      [[("deadline_kind", VStr "fixed_date"); ("month", VInt 3); ("day", VInt 31)]]
      "2024-12-31"
    = Done updated
    /\ dget updated "calculated_date" = VStr "2025-03-31"
    /\ dget updated "month" = VInt 3
    /\ dget updated "day" = VInt 31
    /\ dget updated "month_name" = VStr "Mar".
Proof.
  apply (zero_offset_is_due_with_tax_return sample_env sample_relativedelta
           [("deadline_kind", VStr "RETURN_DUE_DATE"); ("offset_months", VInt 0);
            ("offset_days", VNone); ("text", VStr "")]
           [("deadline_kind", VStr "fixed_date"); ("month", VInt 3); ("day", VInt 31)]
           []);
    try reflexivity; [left | right]; reflexivity.
Defined.

(** ** The month of a packed deadline *)

Lemma as_int_exact_integer (E : PyEnv) (x : cell) (z : Z) :
  holds_integer x z -> Rules2.as_int (Some x) = Some z.
Proof.
  intros [[-> Hz] | ->]; unfold Rules2.as_int.
  - unfold float_of_int, round_to_double.
    replace (Z.abs z <? 2 ^ 53) with true by (symmetry; apply Z.ltb_lt; exact Hz).
    simpl. rewrite Z.quot_1_r. reflexivity.
  - simpl. rewrite Z.quot_1_r. reflexivity.
Qed.

(** C3, as the code has it. The month of a packed deadline record is null
    or an integer: it is what [as_int] reads in the Month column, and an
    integer there is taken over unchanged, so the month lies within 1..12
    exactly when the source integer does. No range check is made. *)
Theorem packed_month_is_source_integer (E : PyEnv) (r : row) :
  (dget (Rules2.pack_deadline_row r) "month" = VNone
   \/ exists z, dget (Rules2.pack_deadline_row r) "month" = VInt z)
  /\ forall (x : cell) (z : Z),
      row_get r "Month" = Some x ->
      holds_integer x z ->
      dget (Rules2.pack_deadline_row r) "month" = VInt z
      /\ (month_in_range (dget (Rules2.pack_deadline_row r) "month") <-> 1 <= z <= 12).
Proof.
  assert (Hm : dget (Rules2.pack_deadline_row r) "month"
               = of_opt_int (Rules2.as_int (row_get r "Month"))) by reflexivity.
  split.
  - rewrite Hm. destruct (Rules2.as_int (row_get r "Month")) as [z |]; simpl.
    + right. exists z. reflexivity.
    + left. reflexivity.
  - intros x z Hcell Hz. rewrite Hm, Hcell, (as_int_exact_integer E x z Hz).
    simpl. split; [reflexivity | ]. unfold month_in_range. split.
    + intros [H | (z' & H & Hr)]; [discriminate | ]. congruence.
    + intros Hr. right. exists z. split; [reflexivity | exact Hr].
Qed.

Lemma packed_month_is_source_integer_witness :
  dget (@Rules2.pack_deadline_row sample_env [("Month", CInt 0)]) "month" = VInt 0
  /\ (month_in_range (dget (@Rules2.pack_deadline_row sample_env [("Month", CInt 0)])
                           "month") <-> 1 <= 0 <= 12).
Proof.
  apply (proj2 (packed_month_is_source_integer sample_env [("Month", CInt 0)])
               (CInt 0) 0).
  - reflexivity.
  - left. split; [reflexivity | reflexivity].
Defined.

(** C3, as stated, fails: a Month cell holding 13 reaches the compiled
    document as month 13. *)
Lemma month_13_reaches_the_document :
  exists doc c d,
    @Rules2.compile_rules sample_env sample_xls "Rule Tables.xlsx" "" = Done doc
    /\ In c (Rules2.countries doc)
    /\ In d (Rules2.lf_tpd_deadlines c)
    /\ row_get (nth 1 (iterrows sample_lf_deadlines) []) "Month" = Some (num 13)
    /\ ~ month_in_range (dget d "month").
Proof.
  eexists. eexists. eexists.
  split; [vm_compute; reflexivity | ].
  split; [right; left; reflexivity | ].
  split; [left; reflexivity | ].
  split; [reflexivity | ].
  intros [H | (z & H & Hr)].
  - discriminate H.
  - vm_compute in H. injection H as <-. lia.
Qed.

(** ** Association lists *)

Section AssocFacts.
Context {A : Type}.
Implicit Types (l : list (string * A)) (k : string).

Lemma assoc_app k l l' :
  assoc k (l ++ l')
  = match assoc k l with Some v => Some v | None => assoc k l' end.
Proof.
  induction l as [| [k0 v0] l IH]; simpl; [reflexivity | ].
  destruct (String.eqb k k0); [reflexivity | exact IH].
Qed.

Lemma assoc_modify k k' (f : A -> A) l :
  assoc k (modify k' f l)
  = if String.eqb k k' then option_map f (assoc k l) else assoc k l.
Proof.
  induction l as [| [k0 v0] l IH]; simpl.
  - destruct (String.eqb k k'); reflexivity.
  - destruct (String.eqb k' k0) eqn:H0; simpl.
    + apply String.eqb_eq in H0. subst k0.
      destruct (String.eqb k k'); reflexivity.
    + rewrite IH. destruct (String.eqb k k0) eqn:H1; [ | reflexivity].
      apply String.eqb_eq in H1. subst k0.
      rewrite String.eqb_sym in H0. rewrite H0. reflexivity.
Qed.

Lemma map_fst_modify k (f : A -> A) l : map fst (modify k f l) = map fst l.
Proof.
  induction l as [| [k0 v0] l IH]; simpl; [reflexivity | ].
  destruct (String.eqb k k0); simpl; [reflexivity | rewrite IH; reflexivity].
Qed.

Lemma assoc_In k l (v : A) : assoc k l = Some v -> In (k, v) l.
Proof.
  induction l as [| [k0 v0] l IH]; simpl; [discriminate | ].
  destruct (String.eqb k k0) eqn:H0.
  - apply String.eqb_eq in H0. intros [= <-]. left. congruence.
  - intros H. right. exact (IH H).
Qed.

Lemma assoc_None_notin k l : assoc k l = None <-> ~ In k (map fst l).
Proof.
  induction l as [| [k0 v0] l IH]; simpl.
  - split; [intros _ [] | reflexivity].
  - destruct (String.eqb k k0) eqn:H0.
    + apply String.eqb_eq in H0. split; [discriminate | ].
      intros H. exfalso. apply H. left. congruence.
    + apply String.eqb_neq in H0. rewrite IH. split.
      * intros H [H1 | H1]; [congruence | exact (H H1)].
      * intros H H1. apply H. right. exact H1.
Qed.

Lemma In_assoc_NoDup k l (v : A) :
  NoDup (map fst l) -> In (k, v) l -> assoc k l = Some v.
Proof.
  induction l as [| [k0 v0] l IH]; simpl; [intros _ [] | ].
  intros Hnd Hin. inversion Hnd as [| ? ? Hnotin Hnd']; subst.
  destruct Hin as [Heq | Hin].
  - injection Heq as -> ->. rewrite String.eqb_refl. reflexivity.
  - destruct (String.eqb k k0) eqn:H0.
    + apply String.eqb_eq in H0. subst k0. exfalso. apply Hnotin.
      change k with (fst (k, v)). apply in_map. exact Hin.
    + exact (IH Hnd' Hin).
Qed.

Lemma Forall_modify (Q : string * A -> Prop) k (f : A -> A) l :
  (forall k0 v, Q (k0, v) -> Q (k0, f v)) ->
  Forall Q l -> Forall Q (modify k f l).
Proof.
  intros Hf. induction 1 as [| [k0 v0] l Hq Hl IH]; simpl; [constructor | ].
  destruct (String.eqb k k0); constructor; auto.
Qed.

End AssocFacts.

Lemma find_app {A : Type} (p : A -> bool) (l l' : list A) :
  find p (l ++ l') = match find p l with Some x => Some x | None => find p l' end.
Proof.
  induction l as [| x l IH]; simpl; [reflexivity | ].
  destruct (p x); [reflexivity | exact IH].
Qed.

Lemma mapM_Done {A B : Type} (f : A -> outcome B) (l : list A) (l' : list B) :
  mapM f l = Done l' -> Forall2 (fun x y => f x = Done y) l l'.
Proof.
  revert l'. induction l as [| x l IH]; simpl; intros l' H.
  - injection H as <-. constructor.
  - destruct (f x) as [y | e] eqn:Hx; simpl in H; [ | discriminate].
    destruct (mapM f l) as [ys | e]; simpl in H; [ | discriminate].
    injection H as <-. constructor; [exact Hx | apply IH; reflexivity].
Qed.

(** ** Sorting *)

Section SortingFacts.
Context {A : Type} (le : A -> A -> bool).

Lemma insert_sorted_perm (x : A) (l : list A) :
  Permutation (insert_sorted le x l) (x :: l).
Proof.
  induction l as [| y l IH]; simpl; [reflexivity | ].
  destruct (le x y); [reflexivity | ].
  rewrite IH. apply perm_swap.
Qed.

Lemma sorted_perm (l : list A) : Permutation (sorted le l) l.
Proof.
  induction l as [| x l IH]; simpl; [reflexivity | ].
  rewrite insert_sorted_perm. apply perm_skip. exact IH.
Qed.

Lemma sorted_In (l : list A) (x : A) : In x (sorted le l) <-> In x l.
Proof.
  split; apply Permutation_in; [ | symmetry]; apply sorted_perm.
Qed.

Hypothesis le_total : forall a b, le a b = false -> le b a = true.

Lemma insert_sorted_Sorted (x : A) (l : list A) :
  Sorted (fun a b => le a b = true) l ->
  Sorted (fun a b => le a b = true) (insert_sorted le x l).
Proof.
  induction 1 as [| y l Hs IH Hhd]; simpl.
  - repeat constructor.
  - destruct (le x y) eqn:Hxy.
    + constructor; [constructor; assumption | constructor; exact Hxy].
    + constructor; [exact IH | ].
      destruct l as [| z l]; simpl.
      * constructor. apply le_total. exact Hxy.
      * destruct (le x z); constructor.
        -- apply le_total. exact Hxy.
        -- inversion Hhd; assumption.
Qed.

Lemma sorted_Sorted (l : list A) : Sorted (fun a b => le a b = true) (sorted le l).
Proof.
  induction l as [| x l IH]; simpl; [constructor | ].
  apply insert_sorted_Sorted. exact IH.
Qed.

End SortingFacts.

Lemma string_compare_refl (s : string) : String.compare s s = Eq.
Proof.
  pose proof (String.compare_antisym s s) as H.
  destruct (String.compare s s); simpl in H; congruence.
Qed.

Lemma country_le_total (a b : Rules2.country) :
  Rules2.country_le a b = false -> Rules2.country_le b a = true.
Proof.
  unfold Rules2.country_le, str_le.
  rewrite (String.compare_antisym (fst (Rules2.country_key a))
                                  (fst (Rules2.country_key b))).
  destruct (String.compare (fst (Rules2.country_key b)) (fst (Rules2.country_key a)));
    cbn [CompOpp]; try discriminate; try reflexivity.
  intros H.
  destruct (String.leb_total (snd (Rules2.country_key a)) (snd (Rules2.country_key b)))
    as [H' | H']; [congruence | exact H'].
Qed.

(** ** The compiled document *)

Section Structured.
Import Rules2.
Context {E : PyEnv}.

Lemma load_sheet_Done (xls : workbook) (nm : string) (required : bool) (df : frame) :
  load_sheet xls nm required = Done df -> df = sheet xls nm.
Proof.
  unfold load_sheet, sheet. destruct (assoc nm xls).
  - intros [= <-]. reflexivity.
  - destruct required; [discriminate | intros [= <-]; reflexivity].
Qed.

(** What a successful run of [compile_rules] is made of. *)
Lemma compile_rules_Done (xls : workbook) (path fye_ : string) (doc : compiled) :
  compile_rules xls path fye_ = Done doc ->
  exists reg,
    second_pass (snd (country_maps xls)) (sheet xls SheetNames.CIT_DEADLINES) fye_
                (st_countries (first_pass_of xls)) = Done reg
    /\ countries doc = sorted country_le (map snd reg)
    /\ compile_state xls fye_ = Done (mkstate reg (st_unmatched (first_pass_of xls))).
Proof.
  unfold compile_rules, compile_state, first_pass_of, country_maps.
  repeat match goal with
         | |- context [load_sheet xls ?n ?b] =>
             let H := fresh "Hload" in
             destruct (load_sheet xls n b) eqn:H;
             [apply load_sheet_Done in H; subst | discriminate]
         end.
  cbn [bind].
  destruct (load_country_map (sheet xls SheetNames.COUNTRY_REGIONS)) as [maps | e];
    [ | discriminate].
  cbn [bind].
  match goal with
  | |- context [second_pass ?a ?b ?c ?d] => destruct (second_pass a b c d) as [reg | e]
  end; [ | discriminate].
  cbn [bind]. intros [= <-]. exists reg. repeat split; reflexivity.
Qed.

Lemma Sorted_impl {A : Type} (R R' : A -> A -> Prop) (l : list A) :
  (forall a b, R a b -> R' a b) -> Sorted R l -> Sorted R' l.
Proof.
  intros HR. induction 1 as [| a l Hs IH Hhd]; constructor; [exact IH | ].
  destruct Hhd; constructor; auto.
Qed.

Lemma country_le_pair_le (a b : country) :
  country_le a b = true <-> pair_le (country_key a) (country_key b).
Proof.
  unfold country_le, pair_le, str_le.
  destruct (String.compare (fst (country_key a)) (fst (country_key b))) eqn:Hc.
  - apply String.compare_eq_iff in Hc. split.
    + intros H. right. split; assumption.
    + intros [H | [_ H]]; [discriminate | exact H].
  - split; [intros _; left; reflexivity | reflexivity].
  - split; [discriminate | ].
    intros [H | [H _]]; [discriminate | ].
    rewrite H, string_compare_refl in Hc. discriminate.
Qed.

(** C9, as the code has it. The countries of the compiled document are in
    ascending order of the key (region, lowercased name): the region is
    compared as written, the name without regard to case. *)
Theorem countries_sorted_by_region_and_lowered_name
        (xls : workbook) (path fye_ : string) (doc : compiled) :
  compile_rules xls path fye_ = Done doc ->
  Sorted (fun a b => pair_le (region a, lower (name a)) (region b, lower (name b)))
         (countries doc).
Proof.
  intros H. apply compile_rules_Done in H. destruct H as (reg & _ & -> & _).
  apply Sorted_impl with (R := fun a b => country_le a b = true).
  - intros a b Hab. apply country_le_pair_le in Hab. exact Hab.
  - apply sorted_Sorted. exact country_le_total.
Qed.

End Structured.

Lemma countries_sorted_by_region_and_lowered_name_witness :
  exists doc,
    @Rules2.compile_rules sample_env sample_xls "Rule Tables.xlsx" "2024-12-31" = Done doc
    /\ Sorted (fun a b => pair_le (Rules2.region a, lower (Rules2.name a))
                                  (Rules2.region b, lower (Rules2.name b)))
              (Rules2.countries doc).
Proof.
  eexists. split; [vm_compute; reflexivity | ].
  apply (@countries_sorted_by_region_and_lowered_name sample_env sample_xls
           "Rule Tables.xlsx" "2024-12-31").
  vm_compute. reflexivity.
Defined.

(** C9, as stated, fails: "Europe" sorts before "asia" as written, not
    when case is disregarded, so the document is not in ascending order of
    the caseless key. *)
Lemma region_case_breaks_caseless_order :
  exists doc,
    @Rules2.compile_rules sample_env sample_xls "Rule Tables.xlsx" "" = Done doc
    /\ ~ Sorted (fun a b => pair_le (caseless_key a) (caseless_key b))
               (Rules2.countries doc).
Proof.
  eexists. split; [vm_compute; reflexivity | ].
  intros H. cbv beta iota delta [Rules2.countries] in H.
  repeat match type of H with
         | Sorted _ (_ :: _ :: _ :: _) => apply Sorted_inv in H; destruct H as [H _]
         end.
  apply Sorted_inv in H. destruct H as [_ H].
  apply HdRel_inv in H. unfold pair_le in H. vm_compute in H.
  destruct H as [H | [H _]]; discriminate.
Qed.

(** ** The country registry during ingestion *)

Section Ingestion.
Import Rules2.
Context {E : PyEnv}.
Implicit Types (reg : registry) (st : state) (r : row) (k j : string)
         (body : row -> country -> country).

Lemma ensure_country_blank reg n2r c2n :
  ensure_country reg "" n2r c2n = (reg, None).
Proof. reflexivity. Qed.

Lemma ensure_country_token reg j n2r c2n :
  j <> "" ->
  ensure_country reg j n2r c2n
  = (match assoc (key_of c2n j) reg with
     | Some _ => reg
     | None => (reg ++ [(key_of c2n j, fresh_country n2r c2n j)])%list
     end, Some (key_of c2n j)).
Proof.
  intros Hj. unfold ensure_country, key_of, fresh_country.
  destruct (String.eqb j "") eqn:H0.
  - apply String.eqb_eq in H0. contradiction.
  - destruct (assoc _ reg); reflexivity.
Qed.

Lemma ingest_step_blank n2r c2n body st r :
  token_of r = "" ->
  ingest_step n2r c2n body st r
  = mkstate (st_countries st) (set_add "" (st_unmatched st)).
Proof.
  intros H. unfold ingest_step. fold (token_of r). rewrite H. reflexivity.
Qed.

Lemma ingest_step_token n2r c2n body st r :
  token_of r <> "" ->
  ingest_step n2r c2n body st r
  = mkstate
      (modify (key_of c2n (token_of r)) (body r)
         (match assoc (key_of c2n (token_of r)) (st_countries st) with
          | Some _ => st_countries st
          | None =>
              (st_countries st
               ++ [(key_of c2n (token_of r), fresh_country n2r c2n (token_of r))])%list
          end))
      (st_unmatched st).
Proof.
  intros H. unfold ingest_step. fold (token_of r).
  rewrite (ensure_country_token _ _ n2r c2n H). reflexivity.
Qed.

(** The country stored under a key after one turn of an ingestion loop. *)
Lemma assoc_ingest_step n2r c2n body st r k :
  assoc k (st_countries (ingest_step n2r c2n body st r))
  = if negb (String.eqb (token_of r) "") && String.eqb (key_of c2n (token_of r)) k
    then Some (body r (match assoc k (st_countries st) with
                       | Some c => c
                       | None => fresh_country n2r c2n (token_of r)
                       end))
    else assoc k (st_countries st).
Proof.
  destruct (String.eqb (token_of r) "") eqn:Hj.
  - apply String.eqb_eq in Hj. rewrite ingest_step_blank by exact Hj. reflexivity.
  - apply String.eqb_neq in Hj. rewrite ingest_step_token by exact Hj.
    cbn [st_countries negb andb]. rewrite assoc_modify.
    rewrite (String.eqb_sym k). destruct (String.eqb (key_of c2n (token_of r)) k) eqn:Hk.
    + apply String.eqb_eq in Hk. subst k.
      destruct (assoc (key_of c2n (token_of r)) (st_countries st)) as [c |] eqn:Ha.
      * rewrite Ha. reflexivity.
      * rewrite assoc_app, Ha. simpl. rewrite String.eqb_refl. reflexivity.
    + destruct (assoc (key_of c2n (token_of r)) (st_countries st)); [reflexivity | ].
      rewrite assoc_app. destruct (assoc k (st_countries st)); [reflexivity | ].
      simpl. rewrite String.eqb_sym, Hk. reflexivity.
Qed.

(** The keys after one turn: at most the key of the row's token is new. *)
Lemma keys_ingest_step n2r c2n body st r :
  map fst (st_countries (ingest_step n2r c2n body st r))
  = if String.eqb (token_of r) "" then map fst (st_countries st)
    else match assoc (key_of c2n (token_of r)) (st_countries st) with
         | Some _ => map fst (st_countries st)
         | None => (map fst (st_countries st) ++ [key_of c2n (token_of r)])%list
         end.
Proof.
  destruct (String.eqb (token_of r) "") eqn:Hj.
  - apply String.eqb_eq in Hj. rewrite ingest_step_blank by exact Hj. reflexivity.
  - apply String.eqb_neq in Hj. rewrite ingest_step_token by exact Hj.
    cbn [st_countries]. rewrite map_fst_modify.
    destruct (assoc (key_of c2n (token_of r)) (st_countries st)); [reflexivity | ].
    rewrite map_app. reflexivity.
Qed.

Lemma NoDup_ingest_step n2r c2n body st r :
  NoDup (map fst (st_countries st)) ->
  NoDup (map fst (st_countries (ingest_step n2r c2n body st r))).
Proof.
  intros Hnd. rewrite keys_ingest_step.
  destruct (String.eqb (token_of r) ""); [exact Hnd | ].
  destruct (assoc (key_of c2n (token_of r)) (st_countries st)) eqn:Ha; [exact Hnd | ].
  apply assoc_None_notin in Ha.
  apply NoDup_app; [exact Hnd | repeat constructor; intros [] | ].
  intros a Hin [<- | []]. exact (Ha Hin).
Qed.

(** A property of every stored country that fresh countries have and the
    body of the loop preserves holds after one turn. *)
Lemma Forall_ingest_step (P : string -> country -> Prop) n2r c2n body st r :
  (forall j, j <> "" -> P (key_of c2n j) (fresh_country n2r c2n j)) ->
  (forall k c, P k c -> P k (body r c)) ->
  Forall (fun kc => P (fst kc) (snd kc)) (st_countries st) ->
  Forall (fun kc => P (fst kc) (snd kc)) (st_countries (ingest_step n2r c2n body st r)).
Proof.
  intros Hfresh Hbody Hreg.
  destruct (String.eqb (token_of r) "") eqn:Hj.
  - apply String.eqb_eq in Hj. rewrite ingest_step_blank by exact Hj. exact Hreg.
  - apply String.eqb_neq in Hj. rewrite ingest_step_token by exact Hj.
    cbn [st_countries]. apply Forall_modify.
    + intros k0 v. apply Hbody.
    + destruct (assoc (key_of c2n (token_of r)) (st_countries st)); [exact Hreg | ].
      apply Forall_app. split; [exact Hreg | ].
      constructor; [ | constructor]. apply Hfresh. exact Hj.
Qed.

(** Invariants of one loop and of the six loops in sequence. *)
Lemma ingest_invariant (I : state -> Prop) n2r c2n body (df : frame) st :
  (forall st r, I st -> I (ingest_step n2r c2n body st r)) ->
  I st -> I (ingest n2r c2n body df st).
Proof.
  intros Hstep. unfold ingest. destruct (empty df); [auto | ].
  revert st. induction (iterrows df) as [| r rows IH]; simpl; auto.
Qed.

Lemma first_pass_invariant (I : state -> Prop)
      (B : (row -> country -> country) -> Prop) n2r c2n
      (df1 df2 df3 df4 df5 df6 : frame) :
  B lf_threshold_body -> B lf_deadline_body -> B mf_threshold_body ->
  B mf_deadline_body -> B form_body -> B cbcr_body ->
  (forall body, B body -> forall st r, I st -> I (ingest_step n2r c2n body st r)) ->
  I (mkstate [] []) ->
  I (first_pass n2r c2n df1 df2 df3 df4 df5 df6).
Proof.
  intros B1 B2 B3 B4 B5 B6 Hstep H0. unfold first_pass.
  repeat (apply ingest_invariant; [apply Hstep; assumption | ]).
  exact H0.
Qed.

End Ingestion.

(** ** No calculated date without a fiscal-year-end *)

Section WithoutFye.
Import Rules2.
Context {E : PyEnv}.

Lemma packed_deadline_no_calculated_date (default : string) (r : row) :
  no_calculated_date (with_doc_type default r (pack_deadline_row r)).
Proof.
  unfold no_calculated_date, with_doc_type.
  rewrite has_key_dset_neq by discriminate. reflexivity.
Qed.

Lemma packed_form_no_calculated_date (default : string) (r : row) :
  no_calculated_date (with_doc_type default r (pack_form_row r)).
Proof.
  unfold no_calculated_date, with_doc_type, pack_form_row.
  repeat rewrite has_key_dset_neq by discriminate. reflexivity.
Qed.

Lemma packed_cbcr_no_calculated_date (r : row) :
  no_calculated_date (pack_cbcr_row r).
Proof. reflexivity. Qed.

Lemma uncalculated_fresh (n2r c2n : list (string * string)) (j : string) :
  uncalculated (fresh_country n2r c2n j).
Proof.
  unfold uncalculated; simpl. repeat split; try constructor. discriminate.
Qed.

Lemma bodies_keep_uncalculated :
  keeps_uncalculated lf_threshold_body /\ keeps_uncalculated lf_deadline_body
  /\ keeps_uncalculated mf_threshold_body /\ keeps_uncalculated mf_deadline_body
  /\ keeps_uncalculated form_body /\ keeps_uncalculated cbcr_body.
Proof.
  assert (Hadd : forall (l : list dict) (d : dict),
             Forall no_calculated_date l -> no_calculated_date d ->
             Forall no_calculated_date (l ++ [d])).
  { intros l d Hl Hd. apply Forall_app. split; [exact Hl | ].
    constructor; [exact Hd | constructor]. }
  pose proof packed_deadline_no_calculated_date as Hdl.
  pose proof packed_form_no_calculated_date as Hfm.
  unfold keeps_uncalculated, uncalculated.
  split; [ | split; [ | split; [ | split; [ | split]]]];
    intros r c (H1 & H2 & H3 & H4); open_body;
    cbn [lf_tpd_deadlines mf_deadlines tp_forms cbcr set_lf_tpd_thresholds
         set_lf_tpd_deadlines set_mf_thresholds set_mf_deadlines set_tp_forms set_cbcr];
    (split; [ | split; [ | split]]); auto.
  intros d [= <-]. apply packed_cbcr_no_calculated_date.
Qed.

Lemma first_pass_uncalculated n2r c2n (df1 df2 df3 df4 df5 df6 : frame) :
  Forall (fun kc => uncalculated (snd kc))
         (st_countries (first_pass n2r c2n df1 df2 df3 df4 df5 df6)).
Proof.
  destruct bodies_keep_uncalculated as (B1 & B2 & B3 & B4 & B5 & B6).
  apply (first_pass_invariant
           (fun st => Forall (fun kc => uncalculated (snd kc)) (st_countries st))
           keeps_uncalculated); try assumption.
  - intros body Hb st r Hst.
    apply (Forall_ingest_step (fun _ c => uncalculated c)); try assumption.
    + intros j _. apply uncalculated_fresh.
    + intros _ c. apply Hb.
  - constructor.
Qed.

Lemma cit_step_uncalculated c2n (reg : registry) (r : row) :
  Forall (fun kc => uncalculated (snd kc)) reg ->
  Forall (fun kc => uncalculated (snd kc)) (cit_step c2n reg r).
Proof.
  intros H. unfold cit_step.
  destruct (String.eqb _ ""); [exact H | ].
  match goal with
  | |- context [match ?x with Some _ => _ | None => reg end] => destruct x
  end; [ | exact H].
  apply Forall_modify; [ | exact H].
  intros k0 v Hv. exact Hv.
Qed.

Lemma ingest_cit_uncalculated c2n (df : frame) (reg : registry) :
  Forall (fun kc => uncalculated (snd kc)) reg ->
  Forall (fun kc => uncalculated (snd kc)) (ingest_cit c2n df reg).
Proof.
  unfold ingest_cit. destruct (empty df); [auto | ].
  revert reg. induction (iterrows df) as [| r rows IH]; simpl; [auto | ].
  intros reg H. apply IH. apply cit_step_uncalculated. exact H.
Qed.

Lemma Forall_sort_group (P : dict -> Prop) (l : list dict) :
  Forall P l -> Forall P (sort_group l).
Proof.
  intros H. apply (Permutation_Forall (Permutation_sym (sorted_perm group_le l))).
  exact H.
Qed.

Lemma sort_country_uncalculated (c : country) :
  uncalculated c -> uncalculated (sort_country c).
Proof.
  intros (H1 & H2 & H3 & H4). unfold uncalculated. simpl.
  repeat split; try apply Forall_sort_group; assumption.
Qed.

Lemma enhance_without_fye (reg : registry) : enhance "" reg = Done reg.
Proof. unfold enhance. destruct relativedelta; reflexivity. Qed.

(** Without a fiscal-year-end the compilation returns as soon as the
    seven required sheets are there and the country sheet, its column
    names stripped, has a country column: no row can make it fail. *)
Lemma compile_without_fye_returns (xls : workbook) (path : string) :
  Forall (fun n => assoc n xls <> None)
         [ SheetNames.COUNTRY_REGIONS; SheetNames.LF_THRESHOLD; SheetNames.LF_DEADLINES;
           SheetNames.MF_THRESHOLD; SheetNames.MF_DEADLINES; SheetNames.TP_FORMS;
           SheetNames.CBCR ] ->
  find_col (columns (norm_cols (sheet xls SheetNames.COUNTRY_REGIONS)))
           ["Country"; "Jurisdiction"] <> None ->
  exists doc, compile_rules xls path "" = Done doc.
Proof.
  intros Hsheets Hcol.
  assert (Hload : forall n b, assoc n xls <> None ->
                              load_sheet xls n b = Done (sheet xls n)).
  { intros n b Hn. unfold load_sheet, sheet.
    destruct (assoc n xls); [reflexivity | contradiction]. }
  assert (Hopt : exists df, load_sheet xls SheetNames.CIT_DEADLINES false = Done df).
  { unfold load_sheet. destruct (assoc _ xls); eexists; reflexivity. }
  destruct Hopt as (df_cit & Hcit).
  repeat match goal with
         | H : Forall _ (_ :: _) |- _ => inversion H; subst; clear H
         end.
  unfold compile_rules, compile_state.
  repeat (rewrite Hload by assumption; cbn [bind]).
  rewrite Hcit. cbn [bind].
  assert (Hmaps : exists maps,
             load_country_map (sheet xls SheetNames.COUNTRY_REGIONS) = Done maps).
  { unfold load_country_map.
    destruct (find_col (columns (norm_cols (sheet xls SheetNames.COUNTRY_REGIONS)))
                       ["Country"; "Jurisdiction"]); [ | contradiction].
    eexists. reflexivity. }
  destruct Hmaps as (maps & Hmaps). rewrite Hmaps. cbn [bind].
  unfold second_pass. rewrite enhance_without_fye. cbn [bind].
  eexists. reflexivity.
Qed.

(** C5. When no fiscal-year-end is supplied, no deadline, form or
    notification record of the compiled document has a calculated date,
    whatever the workbook holds. *)
Theorem no_calculated_date_without_fye
        (xls : workbook) (path : string) (doc : compiled) :
  compile_rules xls path "" = Done doc ->
  forall c d,
    In c (countries doc) ->
    In d (lf_tpd_deadlines c) \/ In d (mf_deadlines c) \/ In d (tp_forms c)
    \/ cbcr c = Some d ->
    has_key d "calculated_date" = false.
Proof.
  intros Hdoc c d Hc Hd.
  apply compile_rules_Done in Hdoc. destruct Hdoc as (reg & Hreg & Hcs & _).
  unfold second_pass in Hreg. rewrite enhance_without_fye in Hreg.
  injection Hreg as <-.
  assert (Hall : Forall (fun kc => uncalculated (snd kc))
                   (map (fun kc => (fst kc, sort_country (snd kc)))
                      (ingest_cit (snd (country_maps xls))
                         (sheet xls SheetNames.CIT_DEADLINES)
                         (st_countries (first_pass_of xls))))).
  { apply Forall_map. simpl.
    eapply Forall_impl; [ | apply ingest_cit_uncalculated, first_pass_uncalculated].
    intros kc. apply sort_country_uncalculated. }
  rewrite Hcs in Hc. apply sorted_In in Hc. apply in_map_iff in Hc.
  destruct Hc as (kc & <- & Hin).
  rewrite Forall_forall in Hall. specialize (Hall kc Hin).
  destruct Hall as (H1 & H2 & H3 & H4).
  rewrite Forall_forall in H1, H2, H3.
  destruct Hd as [Hd | [Hd | [Hd | Hd]]]; [apply H1 | apply H2 | apply H3 | apply H4];
    exact Hd.
Qed.

End WithoutFye.

Lemma no_calculated_date_without_fye_witness :
  exists doc,
    @Rules2.compile_rules sample_env sample_xls "Rule Tables.xlsx" "" = Done doc
    /\ forall c d,
        In c (Rules2.countries doc) ->
        In d (Rules2.lf_tpd_deadlines c) \/ In d (Rules2.mf_deadlines c)
        \/ In d (Rules2.tp_forms c) \/ Rules2.cbcr c = Some d ->
        has_key d "calculated_date" = false.
Proof.
  eexists. split; [vm_compute; reflexivity | ].
  apply (@no_calculated_date_without_fye sample_env sample_xls "Rule Tables.xlsx").
  vm_compute. reflexivity.
Defined.

(** ** Tokens the country sheet does not know *)

Section Unrecognized.
Import Rules2.
Context {E : PyEnv}.

(** C1, as the code has it. In compile_rules.py a token that is not a
    name of the country sheet yields no country: the row is skipped and
    the token joins [unmatched]. In compile_rules2.py that is so for the
    blank token only; a token that is not blank and is neither a code nor
    a name of the country sheet is kept as a country name of its own: the
    row is ingested into the country stored under the lowercased token,
    created with that token as name and an empty region when the key is
    new, and [unmatched] is left as it was. *)
Theorem unrecognized_token_handling
        (name_to_iso name_to_region_l : list (string * string))
        (jc at_ th mt nd : option string)
        (countries_l : Legacy.registry) (unmatched_l : list string)
        (name_to_region code_to_name : list (string * string))
        (body : row -> country -> country) (st : state) (r : row) :
  (assoc (lower (strip (clean (row_get_opt r jc)))) name_to_iso = None ->
   Legacy.ensure_country countries_l name_to_iso name_to_region_l
                         (clean (row_get_opt r jc)) = (countries_l, None)
   /\ Legacy.tpdlf_threshold_step name_to_iso name_to_region_l jc at_ th mt nd
                                  (countries_l, unmatched_l) r
      = (countries_l, set_add (clean (row_get_opt r jc)) unmatched_l))
  /\ (token_of r = "" ->
      ensure_country (st_countries st) (token_of r) name_to_region code_to_name
      = (st_countries st, None)
      /\ ingest_step name_to_region code_to_name body st r
         = mkstate (st_countries st) (set_add "" (st_unmatched st)))
  /\ (token_of r <> "" ->
      recognized name_to_region code_to_name (token_of r) = false ->
      let st' := ingest_step name_to_region code_to_name body st r in
      let key := lower (strip (token_of r)) in
      snd (ensure_country (st_countries st) (token_of r) name_to_region code_to_name)
      = Some key
      /\ st_unmatched st' = st_unmatched st
      /\ exists c,
          assoc key (st_countries st') = Some (body r c)
          /\ (assoc key (st_countries st) = Some c
              \/ (assoc key (st_countries st) = None
                  /\ c = mkcountry (strip (token_of r)) "" [] [] [] [] [] None []))).
Proof.
  split; [ | split].
  - intros Hnone.
    assert (Hens : Legacy.ensure_country countries_l name_to_iso name_to_region_l
                     (clean (row_get_opt r jc)) = (countries_l, None)).
    { unfold Legacy.ensure_country.
      destruct (String.eqb _ ""); [reflexivity | ]. rewrite Hnone. reflexivity. }
    split; [exact Hens | ].
    unfold Legacy.tpdlf_threshold_step. rewrite Hens. reflexivity.
  - intros Hblank. split.
    + rewrite Hblank. reflexivity.
    + apply ingest_step_blank. exact Hblank.
  - intros Htok Hrec st' key.
    unfold recognized in Hrec. apply orb_false_elim in Hrec.
    destruct Hrec as [Hcode Hname].
    assert (Hc : assoc (upper (strip (token_of r))) code_to_name = None)
      by (destruct (assoc _ code_to_name); [discriminate | reflexivity]).
    assert (Hn : assoc (lower (strip (token_of r))) name_to_region = None)
      by (destruct (assoc _ name_to_region); [discriminate | reflexivity]).
    assert (Hkey : key_of code_to_name (token_of r) = key)
      by (unfold key_of; rewrite Hc; reflexivity).
    assert (Hfresh : fresh_country name_to_region code_to_name (token_of r)
                     = mkcountry (strip (token_of r)) "" [] [] [] [] [] None [])
      by (unfold fresh_country; rewrite Hc, Hn; reflexivity).
    split; [ | split].
    + rewrite ensure_country_token by exact Htok. simpl. rewrite Hkey. reflexivity.
    + subst st'. rewrite ingest_step_token by exact Htok. reflexivity.
    + subst st'. rewrite assoc_ingest_step, Hkey, String.eqb_refl.
      replace (String.eqb (token_of r) "") with false
        by (symmetry; apply String.eqb_neq; exact Htok).
      cbn [negb andb]. rewrite Hfresh.
      destruct (assoc key (st_countries st)) as [c |].
      * exists c. split; [reflexivity | left; reflexivity].
      * eexists. split; [reflexivity | right; split; reflexivity].
Qed.

End Unrecognized.

Lemma unrecognized_token_handling_witness :
  (@Legacy.tpdlf_threshold_step sample_env [("germany", "DE")] [("germany", "Europe")]
     (Some "Jurisdiction") None None None None ([], [])
     [("Jurisdiction", CStr "Atlantis")]
   = ([], ["Atlantis"]))
  /\ (@Rules2.ingest_step sample_env [("germany", "Europe")] [("DEU", "Germany")]
        (@Rules2.lf_deadline_body sample_env) (Rules2.mkstate [] []) [("Jurisdiction", NaN)]
      = Rules2.mkstate [] [""])
  /\ (Rules2.st_unmatched
        (@Rules2.ingest_step sample_env [("germany", "Europe")] [("DEU", "Germany")]
           (@Rules2.cbcr_body sample_env) (Rules2.mkstate [] []) [("Jurisdiction", CStr "Atlantis")])
      = []).
Proof.
  pose proof (@unrecognized_token_handling sample_env
                [("germany", "DE")] [("germany", "Europe")]
                (Some "Jurisdiction") None None None None [] []
                [("germany", "Europe")] [("DEU", "Germany")]
                (@Rules2.cbcr_body sample_env) (Rules2.mkstate [] [])
                [("Jurisdiction", CStr "Atlantis")]) as (HA & _ & HC).
  pose proof (@unrecognized_token_handling sample_env
                [("germany", "DE")] [("germany", "Europe")]
                (Some "Jurisdiction") None None None None [] []
                [("germany", "Europe")] [("DEU", "Germany")]
                (@Rules2.lf_deadline_body sample_env) (Rules2.mkstate [] [])
                [("Jurisdiction", NaN)]) as (_ & HB & _).
  split; [ | split].
  - apply HA. reflexivity.
  - apply HB. reflexivity.
  - apply HC; [discriminate | reflexivity].
Defined.

(** C1, as stated, fails for compile_rules2.py: "Atlantis" is neither a
    code nor a name of the country sheet, yet the compiled document has a
    country of that name, stored under the key "atlantis", and the token
    is not in [unmatched]. *)
Lemma unrecognized_token_gets_a_country :
  exists st doc c,
    @Rules2.compile_state sample_env sample_xls "" = Done st
    /\ @Rules2.compile_rules sample_env sample_xls "Rule Tables.xlsx" "" = Done doc
    /\ @token_of sample_env (nth 1 (iterrows sample_lf_thresholds) []) = "Atlantis"
    /\ recognized (fst (@country_maps sample_env sample_xls))
                  (snd (@country_maps sample_env sample_xls)) "Atlantis" = false
    /\ assoc "atlantis" (Rules2.st_countries st) = Some c
    /\ In c (Rules2.countries doc)
    /\ Rules2.name c = "Atlantis"
    /\ ~ In "Atlantis" (Rules2.st_unmatched st).
Proof.
  eexists. eexists. eexists.
  split; [vm_compute; reflexivity | ].
  split; [vm_compute; reflexivity | ].
  split; [reflexivity | ].
  split; [reflexivity | ].
  split; [vm_compute; reflexivity | ].
  split; [left; reflexivity | ].
  split; [reflexivity | ].
  intros [].
Qed.

(** ** One country per canonical name *)

Section Identity.
Import Rules2.
Context {E : PyEnv}.

Lemma bodies_keep_name :
  (fun body : row -> country -> country => forall r c, name (body r c) = name c)
    lf_threshold_body
  /\ (forall r c, name (lf_deadline_body r c) = name c)
  /\ (forall r c, name (mf_threshold_body r c) = name c)
  /\ (forall r c, name (mf_deadline_body r c) = name c)
  /\ (forall r c, name (form_body r c) = name c)
  /\ (forall r c, name (cbcr_body r c) = name c).
Proof.
  repeat split; intros r c; open_body; reflexivity.
Qed.

(** After the six loops the keys of the registry are distinct and each
    is the lowercased name of the country stored under it. *)
Lemma first_pass_well_keyed n2r c2n (df1 df2 df3 df4 df5 df6 : frame) :
  NoDup (map fst (st_countries (first_pass n2r c2n df1 df2 df3 df4 df5 df6)))
  /\ Forall (fun kc => fst kc = lower (name (snd kc)))
            (st_countries (first_pass n2r c2n df1 df2 df3 df4 df5 df6)).
Proof.
  destruct bodies_keep_name as (B1 & B2 & B3 & B4 & B5 & B6).
  apply (first_pass_invariant
           (fun st => NoDup (map fst (st_countries st))
                      /\ Forall (fun kc => fst kc = lower (name (snd kc)))
                                (st_countries st))
           (fun body => forall r c, name (body r c) = name c)); try assumption.
  - intros body Hb st r [Hnd Hkey]. split.
    + apply NoDup_ingest_step. exact Hnd.
    + apply (Forall_ingest_step (fun k c => k = lower (name c))); try assumption.
      * intros j _. reflexivity.
      * intros k c ->. rewrite Hb. reflexivity.
  - split; constructor.
Qed.

Lemma keys_ingest_step_incl n2r c2n body (st : state) (r : row) :
  incl (map fst (st_countries st))
       (map fst (st_countries (ingest_step n2r c2n body st r))).
Proof.
  rewrite keys_ingest_step.
  destruct (String.eqb (token_of r) ""); [apply incl_refl | ].
  destruct (assoc _ (st_countries st)); [apply incl_refl | ].
  apply incl_appl, incl_refl.
Qed.

Lemma key_in_after_ingest_step n2r c2n body (st : state) (r : row) :
  token_of r <> "" ->
  In (key_of c2n (token_of r))
     (map fst (st_countries (ingest_step n2r c2n body st r))).
Proof.
  intros Htok. rewrite keys_ingest_step.
  replace (String.eqb (token_of r) "") with false
    by (symmetry; apply String.eqb_neq; exact Htok).
  destruct (assoc _ (st_countries st)) eqn:Ha.
  - apply assoc_In in Ha. change (key_of c2n (token_of r)) with (fst (key_of c2n (token_of r), c)).
    apply in_map. exact Ha.
  - apply in_or_app. right. left. reflexivity.
Qed.

(** One loop keeps the keys it finds and adds the key of every row whose
    token is not blank. *)
Lemma keys_ingest n2r c2n body (df : frame) (st : state) :
  incl (map fst (st_countries st))
       (map fst (st_countries (ingest n2r c2n body df st)))
  /\ forall r, In r (looped df) -> token_of r <> "" ->
               In (key_of c2n (token_of r))
                  (map fst (st_countries (ingest n2r c2n body df st))).
Proof.
  unfold ingest, looped. destruct (empty df).
  - split; [apply incl_refl | intros r []].
  - revert st. induction (iterrows df) as [| r0 rows IH]; intros st; simpl.
    + split; [apply incl_refl | intros r []].
    + destruct (IH (ingest_step n2r c2n body st r0)) as [Hincl Hin]. split.
      * eapply incl_tran; [apply keys_ingest_step_incl | exact Hincl].
      * intros r [<- | Hr] Htok; [ | exact (Hin r Hr Htok)].
        apply Hincl. apply key_in_after_ingest_step. exact Htok.
Qed.

Lemma keys_first_pass (xls : workbook) (r : row) :
  In r (ingested_rows xls) -> token_of r <> "" ->
  In (key_of (snd (country_maps xls)) (token_of r))
     (map fst (st_countries (first_pass_of xls))).
Proof.
  unfold ingested_rows, first_pass_of, first_pass. intros Hin Htok.
  repeat match goal with
         | H : In r (_ ++ _) |- _ => apply in_app_or in H; destruct H as [H | H]
         end;
    repeat match goal with
      | H : In r (looped ?df)
        |- In _ (map fst (st_countries (ingest ?a ?b ?body ?df ?st))) =>
          exact (proj2 (keys_ingest a b body df st) r H Htok)
      | |- In _ (map fst (st_countries (ingest ?a ?b ?body ?df ?st))) =>
          apply (proj1 (keys_ingest a b body df st))
      end.
Qed.

End Identity.

(** ** The second pass, country by country *)

Section SecondPass.
Import Rules2.
Context {E : PyEnv}.

Lemma kept_refl (c : country) : kept c c.
Proof. repeat split. Qed.

Lemma kept_trans (c0 c1 c2 : country) : kept c0 c1 -> kept c1 c2 -> kept c0 c2.
Proof.
  intros (H1 & H2 & H3) (H4 & H5 & H6). repeat split; congruence.
Qed.

Lemma cit_step_assoc c2n (reg : registry) (r : row) (k : string) (c1 : country) :
  assoc k (cit_step c2n reg r) = Some c1 ->
  exists c0, assoc k reg = Some c0 /\ kept c0 c1.
Proof.
  unfold cit_step.
  destruct (String.eqb _ ""); [intros H; exists c1; split; [exact H | apply kept_refl] | ].
  match goal with
  | |- context [match ?x with Some _ => _ | None => reg end] => destruct x as [k' |]
  end; [ | intros H; exists c1; split; [exact H | apply kept_refl]].
  rewrite assoc_modify. destruct (String.eqb k k').
  - destruct (assoc k reg) as [c0 |]; [ | discriminate].
    intros [= <-]. exists c0. split; [reflexivity | repeat split].
  - intros H. exists c1. split; [exact H | apply kept_refl].
Qed.

Lemma cit_step_keys c2n (reg : registry) (r : row) :
  map fst (cit_step c2n reg r) = map fst reg.
Proof.
  unfold cit_step.
  destruct (String.eqb _ ""); [reflexivity | ].
  match goal with
  | |- context [match ?x with Some _ => _ | None => reg end] => destruct x
  end; [apply map_fst_modify | reflexivity].
Qed.

Lemma ingest_cit_assoc c2n (df : frame) (reg : registry) (k : string) (c1 : country) :
  assoc k (ingest_cit c2n df reg) = Some c1 ->
  exists c0, assoc k reg = Some c0 /\ kept c0 c1.
Proof.
  unfold ingest_cit.
  destruct (empty df); [intros H; exists c1; split; [exact H | apply kept_refl] | ].
  revert reg. induction (iterrows df) as [| r rows IH]; simpl; intros reg H.
  - exists c1. split; [exact H | apply kept_refl].
  - apply IH in H. destruct H as (c & Hc & Hk).
    apply cit_step_assoc in Hc. destruct Hc as (c0 & Hc0 & Hk0).
    exists c0. split; [exact Hc0 | exact (kept_trans _ _ _ Hk0 Hk)].
Qed.

Lemma ingest_cit_keys c2n (df : frame) (reg : registry) :
  map fst (ingest_cit c2n df reg) = map fst reg.
Proof.
  unfold ingest_cit. destruct (empty df); [reflexivity | ].
  revert reg. induction (iterrows df) as [| r rows IH]; simpl; intros reg.
  - reflexivity.
  - rewrite IH. apply cit_step_keys.
Qed.

Lemma assoc_map_values {A B : Type} (g : A -> B) (l : list (string * A)) (k : string) :
  assoc k (map (fun kc => (fst kc, g (snd kc))) l) = option_map g (assoc k l).
Proof.
  induction l as [| [k0 v0] l IH]; simpl; [reflexivity | ].
  destruct (String.eqb k k0); [reflexivity | exact IH].
Qed.

Lemma mapM_values {A : Type} (h : A -> outcome A) (l l' : list (string * A)) :
  mapM (fun kc => c <- h (snd kc) ;; Done (fst kc, c)) l = Done l' ->
  map fst l' = map fst l
  /\ forall k c', assoc k l' = Some c' -> exists c, assoc k l = Some c /\ h c = Done c'.
Proof.
  revert l'. induction l as [| [k0 v0] l IH]; simpl; intros l' H.
  - injection H as <-. split; [reflexivity | discriminate].
  - destruct (h v0) as [v1 | e] eqn:Hv; simpl in H; [ | discriminate].
    destruct (mapM _ l) as [l1 | e] eqn:Hl; simpl in H; [ | discriminate].
    injection H as <-. destruct (IH l1 eq_refl) as [Hk Ha]. split.
    + simpl. rewrite Hk. reflexivity.
    + intros k c'. simpl. destruct (String.eqb k k0).
      * intros [= <-]. exists v0. split; [reflexivity | exact Hv].
      * apply Ha.
Qed.

Lemma calculate_empty_record (cit : list dict) (fye_ : string) :
  calculate_deadline_from_cit [] cit fye_ = Done [].
Proof. reflexivity. Qed.

(** What the CIT-based pass does to one country. *)
Lemma enhance_country_Done (fye_ : string) (c c' : country) :
  enhance_country fye_ c = Done c' ->
  name c' = name c /\ region c' = region c /\ cit_deadlines c' = cit_deadlines c
  /\ match cit_deadlines c with
     | [] => c' = c
     | _ =>
         match cbcr c with
         | None => cbcr c' = None
         | Some d =>
             exists d',
               calculate_deadline_from_cit d (cit_deadlines c) fye_ = Done d'
               /\ cbcr c' = Some d'
         end
     end.
Proof.
  unfold enhance_country.
  destruct (cit_deadlines c) as [| x cit] eqn:Hcit.
  - intros [= <-]. repeat split; auto.
  - destruct (mapM _ (lf_tpd_deadlines c)) as [lf | e]; simpl; [ | discriminate].
    destruct (mapM _ (mf_deadlines c)) as [mf | e]; simpl; [ | discriminate].
    destruct (mapM _ (tp_forms c)) as [fm | e]; simpl; [ | discriminate].
    destruct (cbcr c) as [[| kv d] |].
    + simpl. intros [= <-]. repeat split. exists []. split; reflexivity.
    + destruct (calculate_deadline_from_cit (kv :: d) (x :: cit) fye_) as [d' | e];
        simpl; [ | discriminate].
      intros [= <-]. repeat split. exists d'. split; reflexivity.
    + simpl. intros [= <-]. repeat split.
Qed.

Lemma enhance_Done (fye_ : string) (reg reg' : registry) :
  enhance fye_ reg = Done reg' ->
  map fst reg' = map fst reg
  /\ forall k c', assoc k reg' = Some c' ->
       exists c, assoc k reg = Some c
                 /\ name c' = name c /\ region c' = region c
                 /\ cit_deadlines c' = cit_deadlines c
                 /\ if enhancement_applies fye_ c then
                      match cbcr c with
                      | None => cbcr c' = None
                      | Some d =>
                          exists d',
                            calculate_deadline_from_cit d (cit_deadlines c) fye_ = Done d'
                            /\ cbcr c' = Some d'
                      end
                    else c' = c.
Proof.
  unfold enhance, enhancement_applies.
  destruct relativedelta as [rd |].
  - destruct (String.eqb fye_ "").
    + intros [= <-]. split; [reflexivity | ].
      intros k c' H. exists c'. repeat split; auto.
    + intros H. apply mapM_values in H. destruct H as [Hk Ha].
      split; [exact Hk | ]. intros k c' Hc'.
      destruct (Ha k c' Hc') as (c & Hc & Hen).
      apply enhance_country_Done in Hen. destruct Hen as (H1 & H2 & H3 & H4).
      exists c. repeat split; try assumption.
      simpl. destruct (cit_deadlines c); exact H4.
  - intros [= <-]. split; [reflexivity | ].
    intros k c' H. exists c'. repeat split; auto.
Qed.

(** The registry after the second pass: the same keys, and under each key
    what the pass leaves of the country of the first pass. *)
Lemma second_pass_Done c2n (df : frame) (fye_ : string) (reg reg' : registry) :
  second_pass c2n df fye_ reg = Done reg' ->
  map fst reg' = map fst reg
  /\ forall k c', assoc k reg' = Some c' ->
       exists c0, assoc k reg = Some c0 /\ passed fye_ c0 c'.
Proof.
  unfold second_pass. intros H. apply enhance_Done in H. destruct H as [Hk Ha].
  split.
  - rewrite Hk, map_map. simpl. rewrite <- (ingest_cit_keys c2n df reg).
    reflexivity.
  - intros k c' Hc'. destruct (Ha k c' Hc') as (c2 & Hc2 & Hn & Hr & Hcit & Hen).
    rewrite assoc_map_values in Hc2.
    destruct (assoc k (ingest_cit c2n df reg)) as [c1 |] eqn:Hc1; [ | discriminate].
    injection Hc2 as <-.
    apply ingest_cit_assoc in Hc1. destruct Hc1 as (c0 & Hc0 & Hn0 & Hr0 & Hcb0).
    exists c0. split; [exact Hc0 | ].
    unfold passed. split; [simpl in Hn; congruence | ].
    split; [simpl in Hr; congruence | ].
    replace (enhancement_applies fye_ c')
      with (enhancement_applies fye_ (sort_country c1))
      by (unfold enhancement_applies; rewrite Hcit; reflexivity).
    destruct (enhancement_applies fye_ (sort_country c1)).
    + simpl in Hen. rewrite Hcb0 in Hen. rewrite Hcit. exact Hen.
    + subst c'. simpl. exact Hcb0.
Qed.

End SecondPass.

(** ** The countries of the compiled document *)

Section Document.
Import Rules2.
Context {E : PyEnv}.

(** The registry behind a compiled document: the keys of the first pass,
    all distinct, each the lowercased name of its country, and each
    country what the second pass leaves of the one of the first pass. *)
Lemma compiled_registry (xls : workbook) (path fye_ : string) (doc : compiled) :
  compile_rules xls path fye_ = Done doc ->
  exists reg,
    countries doc = sorted country_le (map snd reg)
    /\ map fst reg = map fst (st_countries (first_pass_of xls))
    /\ NoDup (map fst reg)
    /\ Forall (fun kc => fst kc = lower (name (snd kc))) reg
    /\ forall k c, assoc k reg = Some c ->
         exists c0, assoc k (st_countries (first_pass_of xls)) = Some c0
                    /\ passed fye_ c0 c.
Proof.
  intros H. apply compile_rules_Done in H. destruct H as (reg & Hsp & Hcs & _).
  apply second_pass_Done in Hsp. destruct Hsp as [Hk Ha].
  destruct (first_pass_well_keyed (fst (country_maps xls)) (snd (country_maps xls))
              (sheet xls SheetNames.LF_THRESHOLD) (sheet xls SheetNames.LF_DEADLINES)
              (sheet xls SheetNames.MF_THRESHOLD) (sheet xls SheetNames.MF_DEADLINES)
              (sheet xls SheetNames.TP_FORMS) (sheet xls SheetNames.CBCR))
    as [Hnd Hkey].
  fold (first_pass_of xls) in Hnd, Hkey.
  assert (Hnd' : NoDup (map fst reg)) by (rewrite Hk; exact Hnd).
  exists reg. repeat split; try assumption.
  apply Forall_forall. intros [k c] Hin. simpl.
  apply (In_assoc_NoDup _ _ _ Hnd') in Hin.
  destruct (Ha k c Hin) as (c0 & Hc0 & Hn & _).
  apply assoc_In in Hc0. rewrite Forall_forall in Hkey.
  specialize (Hkey _ Hc0). simpl in Hkey. congruence.
Qed.

Lemma Permutation_filter_length {A : Type} (p : A -> bool) (l l' : list A) :
  Permutation l l' -> List.length (filter p l) = List.length (filter p l').
Proof.
  induction 1 as [| x l l' _ IH | x y l | l l' l'' _ IH1 _ IH2]; simpl.
  - reflexivity.
  - destruct (p x); simpl; congruence.
  - destruct (p x), (p y); reflexivity.
  - congruence.
Qed.

Lemma count_key_once {A : Type} (l : list (string * A)) (k : string) :
  NoDup (map fst l) -> In k (map fst l) ->
  List.length (filter (fun kc => String.eqb (fst kc) k) l) = 1%nat.
Proof.
  induction l as [| [k0 v0] l IH]; simpl; [intros _ [] | ].
  intros Hnd Hin. inversion Hnd as [| ? ? Hnotin Hnd']; subst.
  destruct (String.eqb k0 k) eqn:Hk.
  - apply String.eqb_eq in Hk. subst k0. simpl. f_equal.
    assert (Hnone : forall l', ~ In k (map fst l') ->
              filter (fun kc : string * A => String.eqb (fst kc) k) l' = []).
    { induction l' as [| [k1 v1] l' IH']; simpl; [reflexivity | ].
      intros Hn. destruct (String.eqb k1 k) eqn:Hk1.
      - apply String.eqb_eq in Hk1. exfalso. apply Hn. left. exact Hk1.
      - apply IH'. intros Hin'. apply Hn. right. exact Hin'. }
    rewrite Hnone by exact Hnotin. reflexivity.
  - apply String.eqb_neq in Hk. destruct Hin as [Heq | Hin]; [contradiction | ].
    apply IH; assumption.
Qed.

Lemma count_by_key (l : registry) (k : string) :
  Forall (fun kc => fst kc = lower (name (snd kc))) l ->
  List.length (filter (fun c => String.eqb (lower (name c)) k) (map snd l))
  = List.length (filter (fun kc => String.eqb (fst kc) k) l).
Proof.
  induction 1 as [| [k0 c0] l Hkc Hl IH]; simpl; [reflexivity | ].
  simpl in Hkc. rewrite <- Hkc.
  destruct (String.eqb k0 k); simpl; congruence.
Qed.

(** Every ingested row whose token is not blank has its country in the
    compiled document, once. *)
Lemma every_token_has_one_country
      (xls : workbook) (path fye_ : string) (doc : compiled) (r : row) :
  compile_rules xls path fye_ = Done doc ->
  In r (ingested_rows xls) ->
  token_of r <> "" ->
  List.length
    (filter (fun c => String.eqb (lower (name c))
                                 (key_of (snd (country_maps xls)) (token_of r)))
            (countries doc)) = 1%nat.
Proof.
  intros Hdoc Hin Htok.
  destruct (compiled_registry _ _ _ _ Hdoc) as (reg & Hcs & Hkeys & Hnd & Hkey & _).
  rewrite Hcs.
  rewrite (Permutation_filter_length _ _ _ (sorted_perm country_le (map snd reg))).
  rewrite count_by_key by exact Hkey.
  apply count_key_once; [exact Hnd | ].
  rewrite Hkeys. apply keys_first_pass; assumption.
Qed.

Lemma ensure_country_again (reg : registry) (j j' : string)
      (n2r c2n : list (string * string)) :
  j <> "" -> j' <> "" -> key_of c2n j' = key_of c2n j ->
  ensure_country (fst (ensure_country reg j n2r c2n)) j' n2r c2n
  = (fst (ensure_country reg j n2r c2n), Some (key_of c2n j)).
Proof.
  intros Hj Hj' Hk.
  rewrite (ensure_country_token reg j n2r c2n Hj). cbn [fst].
  rewrite (ensure_country_token _ j' n2r c2n Hj'), Hk.
  destruct (assoc (key_of c2n j) reg) as [c |] eqn:Ha.
  - rewrite Ha. reflexivity.
  - rewrite assoc_app, Ha. simpl. rewrite String.eqb_refl. reflexivity.
Qed.

Lemma filter_singleton {A : Type} (p : A -> bool) (l : list A) :
  List.length (filter p l) = 1%nat -> exists x, filter p l = [x].
Proof.
  destruct (filter p l) as [| x [| y l']]; try discriminate. intros _. exists x.
  reflexivity.
Qed.

(** C2. When one ingested row names a country by its canonical name (in
    any letter case, the token not being itself a code) and another by a
    code that the country sheet maps to that name, [ensure_country]
    returns for both tokens, whatever the registry holds, the country
    stored under one and the same key, the lowercased canonical name;
    called for one token after the other, in either order, the second
    call creates nothing; the registry after the six loops has exactly
    one country under that key, and the compiled document exactly one
    country of that name, wherever the two rows stand in the six
    tables. *)
Theorem one_country_for_name_and_code
        (xls : workbook) (path fye_ : string) (doc : compiled)
        (r_name r_code : row) (n : string) :
  compile_rules xls path fye_ = Done doc ->
  In r_name (ingested_rows xls) ->
  In r_code (ingested_rows xls) ->
  token_of r_name <> "" ->
  token_of r_code <> "" ->
  assoc (upper (strip (token_of r_code))) (snd (country_maps xls)) = Some n ->
  assoc (upper (strip (token_of r_name))) (snd (country_maps xls)) = None ->
  lower (strip (token_of r_name)) = lower n ->
  let n2r := fst (country_maps xls) in
  let c2n := snd (country_maps xls) in
  (forall reg,
      snd (ensure_country reg (token_of r_name) n2r c2n) = Some (lower n)
      /\ snd (ensure_country reg (token_of r_code) n2r c2n) = Some (lower n))
  /\ (forall reg,
        ensure_country (fst (ensure_country reg (token_of r_name) n2r c2n))
                       (token_of r_code) n2r c2n
        = (fst (ensure_country reg (token_of r_name) n2r c2n), Some (lower n))
        /\ ensure_country (fst (ensure_country reg (token_of r_code) n2r c2n))
                          (token_of r_name) n2r c2n
           = (fst (ensure_country reg (token_of r_code) n2r c2n), Some (lower n)))
  /\ List.length (filter (fun kc => String.eqb (fst kc) (lower n))
                         (st_countries (first_pass_of xls))) = 1%nat
  /\ exists c,
       filter (fun c' => String.eqb (lower (name c')) (lower n)) (countries doc) = [c].
Proof.
  intros Hdoc Hin1 Hin2 Ht1 Ht2 Hcode Hname Hcase n2r c2n.
  assert (Hk1 : key_of c2n (token_of r_name) = lower n)
    by (unfold key_of, c2n; rewrite Hname; exact Hcase).
  assert (Hk2 : key_of c2n (token_of r_code) = lower n)
    by (unfold key_of, c2n; rewrite Hcode; reflexivity).
  split; [ | split; [ | split]].
  - intros reg.
    rewrite (ensure_country_token reg _ n2r c2n Ht1).
    rewrite (ensure_country_token reg _ n2r c2n Ht2).
    cbn [snd]. rewrite Hk1, Hk2. split; reflexivity.
  - intros reg. split.
    + rewrite (ensure_country_again reg _ _ n2r c2n Ht1 Ht2) by congruence.
      rewrite Hk1. reflexivity.
    + rewrite (ensure_country_again reg _ _ n2r c2n Ht2 Ht1) by congruence.
      rewrite Hk2. reflexivity.
  - destruct (first_pass_well_keyed n2r c2n
                (sheet xls SheetNames.LF_THRESHOLD) (sheet xls SheetNames.LF_DEADLINES)
                (sheet xls SheetNames.MF_THRESHOLD) (sheet xls SheetNames.MF_DEADLINES)
                (sheet xls SheetNames.TP_FORMS) (sheet xls SheetNames.CBCR))
      as [Hnd _].
    apply count_key_once; [exact Hnd | ].
    rewrite <- Hk2. apply keys_first_pass; assumption.
  - apply filter_singleton. rewrite <- Hk2.
    apply (every_token_has_one_country xls path fye_ doc r_code); assumption.
Qed.

(** The notification record stored under a key after one turn of the
    CbCR loop. *)
Lemma cbcr_at_step n2r c2n (st : state) (r : row) (k : string) :
  cbcr_at k (st_countries (ingest_step n2r c2n cbcr_body st r))
  = if cbcr_selected c2n k r then Some (pack_cbcr_row r)
    else cbcr_at k (st_countries st).
Proof.
  unfold cbcr_at, cbcr_selected. rewrite assoc_ingest_step.
  destruct (negb (String.eqb (token_of r) "")
            && String.eqb (key_of c2n (token_of r)) k); cbn [andb]; [ | reflexivity].
  unfold cbcr_body.
  destruct (cbcr_qualifies (pack_cbcr_row r)); cbn [negb]; [reflexivity | ].
  destruct (assoc k (st_countries st)); reflexivity.
Qed.

Lemma cbcr_at_loop n2r c2n (rows : list row) (st : state) (k : string) :
  cbcr_at k (st_countries (fold_left (ingest_step n2r c2n cbcr_body) rows st))
  = match last_qualifying c2n k rows with
    | Some r => Some (pack_cbcr_row r)
    | None => cbcr_at k (st_countries st)
    end.
Proof.
  unfold last_qualifying. revert st.
  induction rows as [| r rows IH]; intros st; simpl; [reflexivity | ].
  rewrite IH, find_app, cbcr_at_step.
  destruct (find (cbcr_selected c2n k) (rev rows)); [reflexivity | ].
  simpl. destruct (cbcr_selected c2n k r); reflexivity.
Qed.

Lemma ingest_Forall (P : country -> Prop) n2r c2n (body : row -> country -> country)
      (df : frame) (st : state) :
  (forall j, P (fresh_country n2r c2n j)) ->
  (forall r c, P c -> P (body r c)) ->
  Forall (fun kc => P (snd kc)) (st_countries st) ->
  Forall (fun kc => P (snd kc)) (st_countries (ingest n2r c2n body df st)).
Proof.
  intros Hfresh Hbody.
  apply (ingest_invariant (fun s => Forall (fun kc => P (snd kc)) (st_countries s))).
  intros st' r H. apply (Forall_ingest_step (fun _ c => P c)); auto.
Qed.

(** After the six loops, the notification record of a country is the
    packed record of the last CbCR row that counts for it. *)
Lemma first_pass_cbcr n2r c2n (df1 df2 df3 df4 df5 df6 : frame) (k : string) :
  cbcr_at k (st_countries (first_pass n2r c2n df1 df2 df3 df4 df5 df6))
  = option_map pack_cbcr_row (last_qualifying c2n k (looped df6)).
Proof.
  unfold first_pass.
  match goal with
  | |- context [ingest n2r c2n cbcr_body df6 ?st] => set (st5 := st)
  end.
  assert (H5 : Forall (fun kc => cbcr (snd kc) = None) (st_countries st5)).
  { subst st5.
    repeat (apply (ingest_Forall (fun c => cbcr c = None));
            [ intros j; reflexivity
            | intros r c Hc; open_body; exact Hc
            | ]).
    constructor. }
  assert (Hnone : cbcr_at k (st_countries st5) = None).
  { unfold cbcr_at. destruct (assoc k (st_countries st5)) as [c |] eqn:Ha;
      [ | reflexivity].
    apply assoc_In in Ha. rewrite Forall_forall in H5. exact (H5 _ Ha). }
  unfold ingest, looped. destruct (empty df6).
  - rewrite Hnone. reflexivity.
  - rewrite cbcr_at_loop, Hnone.
    destruct (last_qualifying c2n k (iterrows df6)); reflexivity.
Qed.

(** C10, as the code has it. The cbcr field of a country of the compiled
    document comes from the last CbCR row, in source order, that resolves
    to the country and qualifies; rows that do not qualify leave it as it
    is. It is the packed record of that row, passed through the
    CIT-based calculation when the CIT-based pass reaches the country
    (dateutil installed, a fiscal-year-end supplied, CIT deadlines
    present); it is null when no row qualifies. *)
Theorem cbcr_is_last_qualifying_row
        (xls : workbook) (path fye_ : string) (doc : compiled) (c : country) :
  compile_rules xls path fye_ = Done doc ->
  In c (countries doc) ->
  match last_qualifying (snd (country_maps xls)) (lower (name c))
                        (looped (sheet xls SheetNames.CBCR)) with
  | None => cbcr c = None
  | Some r =>
      if enhancement_applies fye_ c then
        exists d',
          calculate_deadline_from_cit (pack_cbcr_row r) (cit_deadlines c) fye_ = Done d'
          /\ cbcr c = Some d'
      else cbcr c = Some (pack_cbcr_row r)
  end.
Proof.
  intros Hdoc Hc.
  destruct (compiled_registry _ _ _ _ Hdoc) as (reg & Hcs & Hkeys & Hnd & Hkey & Hpass).
  rewrite Hcs in Hc. apply sorted_In in Hc. apply in_map_iff in Hc.
  destruct Hc as ([k c'] & Heq & Hin). simpl in Heq. subst c'.
  rewrite Forall_forall in Hkey. pose proof (Hkey _ Hin) as Hk. simpl in Hk.
  apply (In_assoc_NoDup _ _ _ Hnd) in Hin.
  destruct (Hpass k c Hin) as (c0 & Hc0 & Hn & Hr & Hcb).
  pose proof (first_pass_cbcr (fst (country_maps xls)) (snd (country_maps xls))
                (sheet xls SheetNames.LF_THRESHOLD) (sheet xls SheetNames.LF_DEADLINES)
                (sheet xls SheetNames.MF_THRESHOLD) (sheet xls SheetNames.MF_DEADLINES)
                (sheet xls SheetNames.TP_FORMS) (sheet xls SheetNames.CBCR) k) as Hlast.
  fold (first_pass_of xls) in Hlast. unfold cbcr_at in Hlast.
  rewrite Hc0 in Hlast. rewrite <- Hk.
  destruct (last_qualifying (snd (country_maps xls)) k
                            (looped (sheet xls SheetNames.CBCR))) as [r |];
    simpl in Hlast; rewrite Hlast in Hcb.
  - exact Hcb.
  - destruct (enhancement_applies fye_ c); exact Hcb.
Qed.

End Document.

Lemma one_country_for_name_and_code_witness :
  exists doc c,
    @Rules2.compile_rules sample_env sample_xls "Rule Tables.xlsx" "2024-12-31" = Done doc
    /\ @token_of sample_env (nth 0 (iterrows sample_lf_deadlines) []) = "Germany"
    /\ @token_of sample_env (nth 0 (iterrows sample_lf_thresholds) []) = "DEU"
    /\ snd (Rules2.ensure_country [] "DEU" (fst (@country_maps sample_env sample_xls))
                                  (snd (@country_maps sample_env sample_xls)))
       = Some (lower "Germany")
    /\ filter (fun c' => String.eqb (lower (Rules2.name c')) (lower "Germany"))
              (Rules2.countries doc) = [c]
    /\ Rules2.name c = "Germany".
Proof.
  destruct (@one_country_for_name_and_code sample_env sample_xls "Rule Tables.xlsx"
              "2024-12-31" _
              (nth 0 (iterrows sample_lf_deadlines) [])
              (nth 0 (iterrows sample_lf_thresholds) []) "Germany"
              ltac:(vm_compute; reflexivity)
              ltac:(vm_compute; do 3 right; left; reflexivity)
              ltac:(vm_compute; left; reflexivity)
              ltac:(vm_compute; discriminate) ltac:(vm_compute; discriminate)
              ltac:(vm_compute; reflexivity) ltac:(vm_compute; reflexivity)
              ltac:(vm_compute; reflexivity))
    as (Href & _ & _ & c & Hc).
  eexists. exists c. split; [vm_compute; reflexivity | ].
  split; [vm_compute; reflexivity | ]. split; [vm_compute; reflexivity | ].
  split; [exact (proj2 (Href [])) | ]. split; [exact Hc | ].
  vm_compute in Hc. injection Hc as <-. reflexivity.
Defined.

Lemma cbcr_is_last_qualifying_row_witness :
  exists doc c,
    @Rules2.compile_rules sample_env sample_xls "Rule Tables.xlsx" "2024-12-31" = Done doc
    /\ nth_error (Rules2.countries doc) 2 = Some c
    /\ Rules2.name c = "Germany"
    /\ match @last_qualifying sample_env (snd (@country_maps sample_env sample_xls))
               (lower (Rules2.name c)) (looped (sheet sample_xls Rules2.SheetNames.CBCR))
       with
       | None => Rules2.cbcr c = None
       | Some r =>
           if @enhancement_applies sample_env "2024-12-31" c then
             exists d',
               @Rules2.calculate_deadline_from_cit sample_env
                  (@Rules2.pack_cbcr_row sample_env r) (Rules2.cit_deadlines c)
                  "2024-12-31" = Done d'
               /\ Rules2.cbcr c = Some d'
           else Rules2.cbcr c = Some (@Rules2.pack_cbcr_row sample_env r)
       end.
Proof.
  eexists. eexists. split; [vm_compute; reflexivity | ].
  split; [vm_compute; reflexivity | ]. split; [vm_compute; reflexivity | ].
  apply (@cbcr_is_last_qualifying_row sample_env sample_xls "Rule Tables.xlsx"
           "2024-12-31" _ _ ltac:(vm_compute; reflexivity) ltac:(vm_compute; do 2 right; left; reflexivity)).
Defined.

(** C10, as stated, fails when the CIT-based pass reaches the country:
    the cbcr field of Germany is not the packed record of its last
    qualifying row but that record with a calculated date filled in. *)
Lemma cbcr_differs_from_packed_row :
  exists doc c r,
    @Rules2.compile_rules sample_env sample_xls "Rule Tables.xlsx" "2024-12-31" = Done doc
    /\ In c (Rules2.countries doc)
    /\ @last_qualifying sample_env (snd (@country_maps sample_env sample_xls))
         (lower (Rules2.name c)) (looped (sheet sample_xls Rules2.SheetNames.CBCR))
       = Some r
    /\ r = nth 1 (iterrows sample_cbcr) []
    /\ Rules2.cbcr c <> Some (@Rules2.pack_cbcr_row sample_env r)
    /\ dget (@Rules2.pack_cbcr_row sample_env r) "calculated_date" = VNone
    /\ option_map (fun d => dget d "calculated_date") (Rules2.cbcr c)
       = Some (VStr "2025-03-31").
Proof.
  eexists. eexists. eexists.
  split; [vm_compute; reflexivity | ].
  split; [vm_compute; do 2 right; left; reflexivity | ].
  split; [vm_compute; reflexivity | ].
  split; [vm_compute; reflexivity | ].
  split; [ | split; vm_compute; reflexivity].
  intros H. vm_compute in H. discriminate H.
Qed.

(** ** The [unmatched] set *)

Section Unmatched.
Import Rules2.
Context {E : PyEnv}.

Lemma compile_state_Done (xls : workbook) (fye_ : string) (st : state) :
  compile_state xls fye_ = Done st ->
  second_pass (snd (country_maps xls)) (sheet xls SheetNames.CIT_DEADLINES) fye_
              (st_countries (first_pass_of xls)) = Done (st_countries st)
  /\ st_unmatched st = st_unmatched (first_pass_of xls).
Proof.
  intros H.
  assert (Hdoc : compile_rules xls "" fye_
                 = Done (mkcompiled now_stamp "" fye_
                           (sorted country_le (map snd (st_countries st)))))
    by (unfold compile_rules; rewrite H; reflexivity).
  apply compile_rules_Done in Hdoc. destruct Hdoc as (reg & Hsp & _ & Hst).
  rewrite H in Hst. injection Hst as ->. simpl. split; [exact Hsp | reflexivity].
Qed.

Lemma In_set_add (x u : string) (s : list string) :
  In u (set_add x s) -> u = x \/ In u s.
Proof.
  unfold set_add. destruct (mem x s); [right; assumption | ].
  intros H. apply in_app_or in H. destruct H as [H | [H | []]]; auto.
Qed.

(** X1. Whatever the workbook holds, the [unmatched] set of
    compile_rules2.py ends up empty or holding the blank token alone: no
    token that is not blank is ever reported as unmatched. *)
Theorem unmatched_holds_only_the_blank_token
        (xls : workbook) (fye_ : string) (st : state) (u : string) :
  compile_state xls fye_ = Done st ->
  In u (st_unmatched st) ->
  u = "".
Proof.
  intros Hst Hu. apply compile_state_Done in Hst. destruct Hst as [_ Hun].
  rewrite Hun in Hu. clear Hun. revert u Hu.
  unfold first_pass_of.
  apply (first_pass_invariant
           (fun s => forall u, In u (st_unmatched s) -> u = "")
           (fun _ => True)); try exact I.
  - intros body _ s r Hs u.
    destruct (String.eqb (token_of r) "") eqn:Hj.
    + apply String.eqb_eq in Hj. rewrite ingest_step_blank by exact Hj. simpl.
      intros H. apply In_set_add in H. destruct H as [H | H]; [exact H | exact (Hs u H)].
    + apply String.eqb_neq in Hj. rewrite ingest_step_token by exact Hj. simpl.
      apply Hs.
  - intros u [].
Qed.

End Unmatched.

Lemma unmatched_holds_only_the_blank_token_witness :
  exists st,
    @Rules2.compile_state sample_env
       ((Rules2.SheetNames.TP_FORMS,
         mkframe ["Jurisdiction"; "FormName"]
                 [[NaN; CStr "Form 1"]; [CStr "Atlantis"; CStr "Form 2"]])
        :: sample_xls) "" = Done st
    /\ Rules2.st_unmatched st = [""]
    /\ forall u, In u (Rules2.st_unmatched st) -> u = "".
Proof.
  eexists. split; [vm_compute; reflexivity | ].
  split; [vm_compute; reflexivity | ].
  intros u.
  apply (@unmatched_holds_only_the_blank_token sample_env
           ((Rules2.SheetNames.TP_FORMS,
             mkframe ["Jurisdiction"; "FormName"]
                     [[NaN; CStr "Form 1"]; [CStr "Atlantis"; CStr "Form 2"]])
            :: sample_xls) "").
  vm_compute. reflexivity.
Defined.

(** ** Where a country of the document comes from *)

Section Origin.
Import Rules2.
Context {E : PyEnv}.

Lemma same_but_cit_refl (c : country) : same_but_cit c c.
Proof. destruct c. reflexivity. Qed.

Lemma same_but_cit_trans (c0 c1 c2 : country) :
  same_but_cit c0 c1 -> same_but_cit c1 c2 -> same_but_cit c0 c2.
Proof.
  unfold same_but_cit. destruct c0, c1, c2. unfold set_cit_deadlines. simpl.
  intros H1 H2. injection H1 as -> -> -> -> -> -> -> ->.
  injection H2 as -> -> -> -> -> -> -> ->. reflexivity.
Qed.

Lemma cit_step_same_but_cit c2n (reg : registry) (r : row) (k : string) (c1 : country) :
  assoc k (cit_step c2n reg r) = Some c1 ->
  exists c0, assoc k reg = Some c0 /\ same_but_cit c0 c1.
Proof.
  unfold cit_step.
  destruct (String.eqb _ "");
    [intros H; exists c1; split; [exact H | apply same_but_cit_refl] | ].
  match goal with
  | |- context [match ?x with Some _ => _ | None => reg end] => destruct x as [k' |]
  end; [ | intros H; exists c1; split; [exact H | apply same_but_cit_refl]].
  rewrite assoc_modify. destruct (String.eqb k k').
  - destruct (assoc k reg) as [c0 |]; [ | discriminate].
    intros [= <-]. exists c0. split; [reflexivity | ]. destruct c0. reflexivity.
  - intros H. exists c1. split; [exact H | apply same_but_cit_refl].
Qed.

Lemma ingest_cit_same_but_cit c2n (df : frame) (reg : registry) (k : string)
      (c1 : country) :
  assoc k (ingest_cit c2n df reg) = Some c1 ->
  exists c0, assoc k reg = Some c0 /\ same_but_cit c0 c1.
Proof.
  unfold ingest_cit.
  destruct (empty df);
    [intros H; exists c1; split; [exact H | apply same_but_cit_refl] | ].
  revert reg. induction (iterrows df) as [| r rows IH]; simpl; intros reg H.
  - exists c1. split; [exact H | apply same_but_cit_refl].
  - apply IH in H. destruct H as (c & Hc & Hk).
    apply cit_step_same_but_cit in Hc. destruct Hc as (c0 & Hc0 & Hk0).
    exists c0. split; [exact Hc0 | exact (same_but_cit_trans _ _ _ Hk0 Hk)].
Qed.

Lemma enhance_cases (fye_ : string) (reg reg' : registry) :
  enhance fye_ reg = Done reg' ->
  forall k c', assoc k reg' = Some c' ->
    exists c, assoc k reg = Some c
              /\ (c' = c
                  \/ (found relativedelta = true /\ fye_ <> ""
                      /\ enhance_country fye_ c = Done c')).
Proof.
  unfold enhance. destruct relativedelta as [rd |].
  - destruct (String.eqb fye_ "") eqn:Hf.
    + intros [= <-] k c' H. exists c'. auto.
    + apply String.eqb_neq in Hf. intros H k c' Hc'.
      apply mapM_values in H. destruct H as [_ Ha].
      destruct (Ha k c' Hc') as (c & Hc & Hen). exists c. split; [exact Hc | ].
      right. repeat split; assumption.
  - intros [= <-] k c' H. exists c'. auto.
Qed.

Lemma calculate_without_cit (d : dict) (fye_ : string) :
  calculate_deadline_from_cit d [] fye_ = Done d.
Proof. unfold calculate_deadline_from_cit. destruct d; reflexivity. Qed.

Lemma Forall2_refl_on {A : Type} (R : A -> A -> Prop) (l : list A) :
  (forall x, R x x) -> Forall2 R l l.
Proof. intros H. induction l; constructor; auto. Qed.

(** What the CIT-based pass does to the records of one country. *)
Lemma enhance_country_records (fye_ : string) (c c' : country) :
  enhance_country fye_ c = Done c' ->
  name c' = name c /\ region c' = region c
  /\ lf_tpd_thresholds c' = lf_tpd_thresholds c
  /\ mf_thresholds c' = mf_thresholds c
  /\ cit_deadlines c' = cit_deadlines c
  /\ Forall2 (resolved fye_) (lf_tpd_deadlines c) (lf_tpd_deadlines c')
  /\ Forall2 (resolved fye_) (mf_deadlines c) (mf_deadlines c')
  /\ Forall2 (resolved fye_) (tp_forms c) (tp_forms c')
  /\ match cbcr c with
     | None => cbcr c' = None
     | Some d => exists d', cbcr c' = Some d' /\ resolved fye_ d d'
     end.
Proof.
  assert (Hres : forall cits l l',
             mapM (fun d => calculate_deadline_from_cit d cits fye_) l = Done l' ->
             Forall2 (resolved fye_) l l').
  { intros cits l l' H. apply mapM_Done in H.
    induction H; constructor; [right; exists cits; assumption | assumption]. }
  unfold enhance_country.
  destruct (cit_deadlines c) as [| x cit] eqn:Hcit.
  - intros [= <-]. repeat split; auto;
      try (apply Forall2_refl_on; intros d; left; reflexivity).
    destruct (cbcr c) as [d |]; [ | reflexivity].
    exists d. split; [reflexivity | left; reflexivity].
  - destruct (mapM _ (lf_tpd_deadlines c)) as [lf | e] eqn:Hlf; simpl; [ | discriminate].
    destruct (mapM _ (mf_deadlines c)) as [mf | e] eqn:Hmf; simpl; [ | discriminate].
    destruct (mapM _ (tp_forms c)) as [fm | e] eqn:Hfm; simpl; [ | discriminate].
    apply Hres in Hlf, Hmf, Hfm.
    destruct (cbcr c) as [[| kv d] |].
    + simpl. intros [= <-]. simpl. repeat split; auto.
      exists []. split; [reflexivity | left; reflexivity].
    + destruct (calculate_deadline_from_cit (kv :: d) (x :: cit) fye_) as [d' | e] eqn:Hd;
        simpl; [ | discriminate].
      intros [= <-]. simpl. repeat split; auto.
      exists d'. split; [reflexivity | right; exists (x :: cit); exact Hd].
    + simpl. intros [= <-]. simpl. repeat split; auto.
Qed.

(** A country of the compiled document comes from a country [c0] of the
    first pass, stored under its lowercased name: the CIT loop gives it
    its CIT deadlines ([c1]), its groups are sorted, and the CIT-based
    pass, when it runs, goes over the sorted country. *)
Lemma document_country_origin
      (xls : workbook) (path fye_ : string) (doc : compiled) (c : country) :
  compile_rules xls path fye_ = Done doc ->
  In c (countries doc) ->
  exists c0 c1,
    assoc (lower (name c)) (st_countries (first_pass_of xls)) = Some c0
    /\ same_but_cit c0 c1
    /\ (c = sort_country c1
        \/ (found relativedelta = true /\ fye_ <> ""
            /\ enhance_country fye_ (sort_country c1) = Done c)).
Proof.
  intros Hdoc Hc.
  apply compile_rules_Done in Hdoc. destruct Hdoc as (reg & Hsp & Hcs & _).
  destruct (second_pass_Done _ _ _ _ _ Hsp) as [Hkeys _].
  destruct (first_pass_well_keyed (fst (country_maps xls)) (snd (country_maps xls))
              (sheet xls SheetNames.LF_THRESHOLD) (sheet xls SheetNames.LF_DEADLINES)
              (sheet xls SheetNames.MF_THRESHOLD) (sheet xls SheetNames.MF_DEADLINES)
              (sheet xls SheetNames.TP_FORMS) (sheet xls SheetNames.CBCR))
    as [Hnd Hkey].
  fold (first_pass_of xls) in Hnd, Hkey.
  rewrite Hcs in Hc. apply sorted_In in Hc. apply in_map_iff in Hc.
  destruct Hc as ([k c'] & Heq & Hin). simpl in Heq. subst c'.
  assert (Hnd' : NoDup (map fst reg)) by (rewrite Hkeys; exact Hnd).
  apply (In_assoc_NoDup _ _ _ Hnd') in Hin.
  unfold second_pass in Hsp.
  destruct (enhance_cases _ _ _ Hsp k c Hin) as (c2 & Hc2 & Hcase).
  rewrite assoc_map_values in Hc2.
  destruct (assoc k (ingest_cit _ _ _)) as [c1 |] eqn:Hc1; [ | discriminate].
  injection Hc2 as <-.
  apply ingest_cit_same_but_cit in Hc1. destruct Hc1 as (c0 & Hc0 & Hsame).
  assert (Hname : name c = name c0).
  { assert (H1 : name c1 = name c0) by (rewrite Hsame; reflexivity).
    destruct Hcase as [-> | (_ & _ & Hen)].
    - simpl. exact H1.
    - apply enhance_country_records in Hen. destruct Hen as (Hn & _).
      rewrite Hn. simpl. exact H1. }
  assert (Hk : k = lower (name c0)).
  { pose proof (assoc_In _ _ _ Hc0) as Hin0. rewrite Forall_forall in Hkey.
    exact (Hkey _ Hin0). }
  exists c0, c1. rewrite Hname, <- Hk. repeat split; assumption.
Qed.

End Origin.

(** ** What the CIT-based calculation keeps of a record *)

Section Calculation.
Import Rules2.
Context {E : PyEnv}.

Lemma mem_false_neq (k : string) (l : list string) (x : string) :
  mem k l = false -> In x l -> x <> k.
Proof.
  unfold mem. intros Hm Hin ->.
  assert (existsb (String.eqb k) l = true)
    by (apply existsb_exists; exists k; split; [exact Hin | apply String.eqb_refl]).
  congruence.
Qed.

Lemma with_calculated_other_keys (d : dict) (cd : date) (txt k : string) :
  mem k calculated_keys = false ->
  assoc k (with_calculated d cd txt) = assoc k d.
Proof.
  intros Hk.
  assert (Hne : forall x, In x calculated_keys -> x <> k)
    by (intros x; apply mem_false_neq; exact Hk).
  unfold with_calculated, calculated_keys in *.
  match goal with |- context [if ?b then _ else _] => destruct b end;
    repeat rewrite assoc_dset_neq by (apply Hne; simpl; tauto); reflexivity.
Qed.

Lemma with_calculated_text (d : dict) (cd : date) (txt : string) :
  truthy (dget d "text") = true ->
  dget (with_calculated d cd txt) "text" = dget d "text".
Proof.
  intros Ht. unfold with_calculated.
  assert (Hsame : dget (dset (dset (dset (dset d "calculated_date"
                    (VStr (strftime_ymd cd))) "month" (VInt (month cd)))
                    "day" (VInt (day cd))) "month_name"
                    (VStr (month_abbr (month cd)))) "text" = dget d "text")
    by (repeat rewrite dget_dset_neq by discriminate; reflexivity).
  rewrite Hsame, Ht. exact Hsame.
Qed.

Lemma calculate_cases (d : dict) (cits : list dict) (fye_ : string) (d' : dict) :
  calculate_deadline_from_cit d cits fye_ = Done d' ->
  d' = d
  \/ (is_tax_return_based d = true
      /\ exists cd txt, d' = with_calculated d cd txt).
Proof.
  unfold calculate_deadline_from_cit.
  destruct d as [| kv d]; [intros [= <-]; left; reflexivity | ].
  destruct cits as [| cit rest]; [intros [= <-]; left; reflexivity | ].
  destruct relativedelta as [rd |]; [ | intros [= <-]; left; reflexivity].
  destruct (is_tax_return_based (kv :: d)) eqn:Htax; cbn [negb];
    [ | intros [= <-]; left; reflexivity].
  destruct cit as [| kv' cit]; [intros [= <-]; left; reflexivity | ].
  destruct (cit_date_of rd (kv' :: cit) fye_) as [[cd |] | e]; cbn [bind];
    [ | intros [= <-]; left; reflexivity | discriminate].
  destruct (_ && _).
  - intros [= <-]. right. split; [reflexivity | eauto].
  - destruct (rd cd _ _) as [cd' | e]; cbn [bind]; [ | discriminate].
    intros [= <-]. right. split; [reflexivity | eauto].
Qed.

(** X2. When [calculate_deadline_from_cit] returns, the record it returns
    is the one it was given except for the keys calculated_date, month,
    day, month_name and text: every other key keeps its value or its
    absence, a text that is not empty is never overwritten, and the
    record is returned unchanged unless it is tax-return based, in which
    case a change always brings a calculated date. *)
Theorem calculation_keeps_the_record
        (d : dict) (cits : list dict) (fye_ : string) (d' : dict) :
  calculate_deadline_from_cit d cits fye_ = Done d' ->
  (forall k, mem k calculated_keys = false -> assoc k d' = assoc k d)
  /\ (truthy (dget d "text") = true -> dget d' "text" = dget d "text")
  /\ (d' = d
      \/ (is_tax_return_based d = true
          /\ exists s, dget d' "calculated_date" = VStr s)).
Proof.
  intros H. apply calculate_cases in H.
  destruct H as [-> | (Htax & cd & txt & ->)].
  - repeat split; auto.
  - split; [ | split].
    + intros k Hk. apply with_calculated_other_keys. exact Hk.
    + apply with_calculated_text.
    + right. split; [exact Htax | ].
      destruct (with_calculated_fields d cd txt) as (H1 & _). eauto.
Qed.

Lemma resolved_other_keys (fye_ : string) (d d' : dict) (k : string) :
  resolved fye_ d d' -> mem k calculated_keys = false -> assoc k d' = assoc k d.
Proof.
  intros [-> | (cits & H)] Hk; [reflexivity | ].
  apply calculate_cases in H. destruct H as [-> | (_ & cd & txt & ->)];
    [reflexivity | apply with_calculated_other_keys; exact Hk].
Qed.

Lemma resolved_group_key (fye_ : string) (d d' : dict) :
  resolved fye_ d d' -> group_key d' = group_key d.
Proof.
  intros H. unfold group_key.
  rewrite (resolved_other_keys _ _ _ "group_id" H) by reflexivity.
  rewrite (resolved_other_keys _ _ _ "seq" H) by reflexivity.
  reflexivity.
Qed.

End Calculation.

Lemma calculation_keeps_the_record_witness :
  exists d',
    @Rules2.calculate_deadline_from_cit sample_env
      [("group_id", VStr "D1"); ("deadline_kind", VStr "RETURN_DUE_DATE");
       ("offset_months", VInt 1); ("text", VStr "One month after the return")]
      [[("deadline_kind", VStr "FIXED_DATE"); ("month", VInt 3); ("day", VInt 31)]]
      "2024-12-31" = Done d'
    /\ (forall k, mem k calculated_keys = false ->
          assoc k d'
          = assoc k [("group_id", VStr "D1"); ("deadline_kind", VStr "RETURN_DUE_DATE");
                     ("offset_months", VInt 1);
                     ("text", VStr "One month after the return")])
    /\ dget d' "text" = VStr "One month after the return"
    /\ dget d' "calculated_date" = VStr "2025-04-30".
Proof.
  eexists. split; [vm_compute; reflexivity | ].
  pose proof (@calculation_keeps_the_record sample_env
                [("group_id", VStr "D1"); ("deadline_kind", VStr "RETURN_DUE_DATE");
                 ("offset_months", VInt 1); ("text", VStr "One month after the return")]
                [[("deadline_kind", VStr "FIXED_DATE"); ("month", VInt 3);
                  ("day", VInt 31)]]
                "2024-12-31" _ ltac:(vm_compute; reflexivity)) as (H1 & H2 & _).
  split; [exact H1 | ]. split; [ | vm_compute; reflexivity].
  apply H2. vm_compute. reflexivity.
Defined.

(** ** [sort_group] *)

Section StableSort.
Context {A : Type} (le : A -> A -> bool) (p : A -> bool).
Hypothesis le_on_class : forall x y, p x = true -> p y = true -> le x y = true.

Lemma insert_sorted_filter (x : A) (l : list A) :
  filter p (insert_sorted le x l) = filter p (x :: l).
Proof.
  induction l as [| y l IH]; [reflexivity | ].
  cbn [insert_sorted]. destruct (le x y) eqn:Hxy; [reflexivity | ].
  cbn [filter]. rewrite IH. cbn [filter].
  destruct (p x) eqn:Hx, (p y) eqn:Hy; try reflexivity.
  rewrite (le_on_class x y Hx Hy) in Hxy. discriminate.
Qed.

Lemma sorted_filter (l : list A) : filter p (sorted le l) = filter p l.
Proof.
  induction l as [| x l IH]; [reflexivity | ].
  cbn [sorted fold_right]. fold (sorted le l).
  rewrite insert_sorted_filter. cbn [filter]. rewrite IH. reflexivity.
Qed.

End StableSort.

Lemma group_le_total (x y : dict) :
  Rules2.group_le x y = false -> Rules2.group_le y x = true.
Proof.
  unfold Rules2.group_le.
  rewrite (String.compare_antisym (fst (Rules2.group_key x)) (fst (Rules2.group_key y))).
  destruct (String.compare (fst (Rules2.group_key y)) (fst (Rules2.group_key x)));
    cbn [CompOpp]; try discriminate; try reflexivity.
  intros H. apply Z.leb_gt in H. apply Z.leb_le. lia.
Qed.

(** X3. [sort_group] returns the records it is given, each once, in
    ascending order of (group_id, seq), and records with the same
    (group_id, seq) stay in their source order. *)
Theorem sort_group_is_a_stable_sort (items : list dict) :
  Permutation (Rules2.sort_group items) items
  /\ Sorted (fun x y => Rules2.group_le x y = true) (Rules2.sort_group items)
  /\ forall k : string * Z,
       filter (has_group_key k) (Rules2.sort_group items)
       = filter (has_group_key k) items.
Proof.
  split; [apply sorted_perm | ].
  split; [apply sorted_Sorted; exact group_le_total | ].
  intros k. apply sorted_filter. unfold has_group_key, Rules2.group_le.
  intros x y Hx Hy.
  apply andb_prop in Hx. destruct Hx as [Hx1 Hx2].
  apply andb_prop in Hy. destruct Hy as [Hy1 Hy2].
  apply String.eqb_eq in Hx1, Hy1. apply Z.eqb_eq in Hx2, Hy2.
  rewrite Hx1, Hy1, string_compare_refl. apply Z.leb_le. lia.
Qed.

(** ** The records of the compiled document *)

Section Records.
Import Rules2.
Context {E : PyEnv}.

Lemma first_pass_Forall (P : country -> Prop) n2r c2n
      (df1 df2 df3 df4 df5 df6 : frame) :
  (forall j, P (fresh_country n2r c2n j)) ->
  (forall r c, P c -> P (lf_threshold_body r c)) ->
  (forall r c, P c -> P (lf_deadline_body r c)) ->
  (forall r c, P c -> P (mf_threshold_body r c)) ->
  (forall r c, P c -> P (mf_deadline_body r c)) ->
  (forall r c, P c -> P (form_body r c)) ->
  (forall r c, P c -> P (cbcr_body r c)) ->
  Forall (fun kc => P (snd kc))
         (st_countries (first_pass n2r c2n df1 df2 df3 df4 df5 df6)).
Proof.
  intros Hfresh B1 B2 B3 B4 B5 B6.
  apply (first_pass_invariant
           (fun st => Forall (fun kc => P (snd kc)) (st_countries st))
           (fun body => forall r c, P c -> P (body r c))); try assumption.
  - intros body Hb st r Hst.
    apply (Forall_ingest_step (fun _ c => P c)); auto.
  - constructor.
Qed.

Lemma first_pass_holds (P : country -> Prop) (xls : workbook) (k : string) (c0 : country) :
  (forall j, P (fresh_country (fst (country_maps xls)) (snd (country_maps xls)) j)) ->
  (forall r c, P c -> P (lf_threshold_body r c)) ->
  (forall r c, P c -> P (lf_deadline_body r c)) ->
  (forall r c, P c -> P (mf_threshold_body r c)) ->
  (forall r c, P c -> P (mf_deadline_body r c)) ->
  (forall r c, P c -> P (form_body r c)) ->
  (forall r c, P c -> P (cbcr_body r c)) ->
  assoc k (st_countries (first_pass_of xls)) = Some c0 ->
  P c0.
Proof.
  intros Hfresh B1 B2 B3 B4 B5 B6 Hc0.
  pose proof (first_pass_Forall P _ _ (sheet xls SheetNames.LF_THRESHOLD)
                (sheet xls SheetNames.LF_DEADLINES) (sheet xls SheetNames.MF_THRESHOLD)
                (sheet xls SheetNames.MF_DEADLINES) (sheet xls SheetNames.TP_FORMS)
                (sheet xls SheetNames.CBCR) Hfresh B1 B2 B3 B4 B5 B6) as Hall.
  fold (first_pass_of xls) in Hall. rewrite Forall_forall in Hall.
  exact (Hall _ (assoc_In _ _ _ Hc0)).
Qed.

Lemma Sorted_Forall2 (l l' : list dict) :
  Forall2 (fun d d' => group_key d' = group_key d) l l' ->
  Sorted (fun x y => group_le x y = true) l ->
  Sorted (fun x y => group_le x y = true) l'.
Proof.
  induction 1 as [| x y l l' Hxy Hl IH]; intros Hs; [constructor | ].
  apply Sorted_inv in Hs. destruct Hs as [Hs Hhd].
  constructor; [exact (IH Hs) | ].
  destruct Hl as [| x2 y2 l l' Hxy2 Hl]; constructor.
  apply HdRel_inv in Hhd. unfold group_le in *. rewrite Hxy, Hxy2. exact Hhd.
Qed.

Lemma Forall2_resolved_sorted (fye_ : string) (l l' : list dict) :
  Forall2 (resolved fye_) (sort_group l) l' ->
  Sorted (fun x y => group_le x y = true) l'.
Proof.
  intros H. apply (Sorted_Forall2 (sort_group l)).
  - eapply Forall2_impl; [ | exact H]. intros d d'. apply resolved_group_key.
  - apply sorted_Sorted. exact group_le_total.
Qed.

(** X4. In the compiled document every record list of every country
    (thresholds, deadlines, forms, CIT deadlines) is in ascending order
    of (group_id, seq), also after the CIT-based pass has gone through
    it. *)
Theorem document_groups_are_sorted
        (xls : workbook) (path fye_ : string) (doc : compiled) (c : country)
        (l : list dict) :
  compile_rules xls path fye_ = Done doc ->
  In c (countries doc) ->
  In l (record_lists c) ->
  Sorted (fun x y => group_le x y = true) l.
Proof.
  intros Hdoc Hc Hl.
  destruct (document_country_origin _ _ _ _ _ Hdoc Hc) as (c0 & c1 & _ & _ & Hcase).
  assert (Hs : forall l0, Sorted (fun x y => group_le x y = true) (sort_group l0))
    by (intros l0; apply sorted_Sorted; exact group_le_total).
  destruct Hcase as [-> | (_ & _ & Hen)].
  - simpl in Hl. repeat destruct Hl as [<- | Hl]; try apply Hs. destruct Hl.
  - apply enhance_country_records in Hen.
    destruct Hen as (_ & _ & H1 & H2 & H3 & H4 & H5 & H6 & _).
    simpl in H1, H2, H3, H4, H5, H6.
    unfold record_lists in Hl. rewrite H1, H2, H3 in Hl. simpl in Hl.
    destruct Hl as [<- | [<- | [<- | [<- | [<- | [<- | []]]]]]];
      try apply Hs; eapply Forall2_resolved_sorted; eassumption.
Qed.

End Records.

Lemma document_groups_are_sorted_witness :
  exists doc c,
    @Rules2.compile_rules sample_env sample_xls "Rule Tables.xlsx" "2024-12-31" = Done doc
    /\ nth_error (Rules2.countries doc) 2 = Some c
    /\ map (fun d => (dget d "group_id", dget d "seq")) (Rules2.lf_tpd_deadlines c)
       = [(VStr "D1", VInt 1); (VStr "D1", VInt 2)]
    /\ Sorted (fun x y => Rules2.group_le x y = true) (Rules2.lf_tpd_deadlines c).
Proof.
  eexists. eexists. split; [vm_compute; reflexivity | ].
  split; [vm_compute; reflexivity | ]. split; [vm_compute; reflexivity | ].
  apply (@document_groups_are_sorted sample_env sample_xls "Rule Tables.xlsx"
           "2024-12-31" _ _ _ ltac:(vm_compute; reflexivity)
           ltac:(vm_compute; do 2 right; left; reflexivity)).
  vm_compute. right. left. reflexivity.
Defined.

(** ** What reaches the document *)

Section Reaching.
Import Rules2.
Context {E : PyEnv}.

Lemma same_but_cit_fields (c0 c1 : country) :
  same_but_cit c0 c1 ->
  name c1 = name c0 /\ region c1 = region c0
  /\ lf_tpd_thresholds c1 = lf_tpd_thresholds c0
  /\ lf_tpd_deadlines c1 = lf_tpd_deadlines c0
  /\ mf_thresholds c1 = mf_thresholds c0
  /\ mf_deadlines c1 = mf_deadlines c0
  /\ tp_forms c1 = tp_forms c0
  /\ cbcr c1 = cbcr c0.
Proof. intros ->. repeat split. Qed.

Lemma validate_complete (t : dict) (s : string) :
  assoc "requirement_applies" t = Some (VStr s) ->
  validate_threshold_data t = true -> complete_threshold t.
Proof.
  intros Hs Hv. exists s. split; [exact Hs | ].
  unfold validate_threshold_data in Hv. rewrite Hs in Hv. cbn [str_or_empty] in Hv.
  intros Hyes Hop. rewrite Hyes, Hop in Hv. cbn [andb] in Hv.
  destruct (truthy (dget t "amount")); [reflexivity | discriminate].
Qed.

Lemma packed_threshold_complete (default : string) (r : row) :
  validate_threshold_data (with_doc_type default r (pack_threshold_row r)) = true ->
  complete_threshold (with_doc_type default r (pack_threshold_row r)).
Proof.
  apply validate_complete with (s := clean (row_get r "RequirementApplies")).
  reflexivity.
Qed.

Lemma Forall_snoc {A : Type} (P : A -> Prop) (l : list A) (x : A) :
  Forall P l -> P x -> Forall P (l ++ [x]).
Proof.
  intros Hl Hx. apply Forall_app. split; [exact Hl | ].
  constructor; [exact Hx | constructor].
Qed.

(** X5. Every threshold record of the compiled document is complete:
    it carries its requirement_applies text, and where that text is a
    yes-value and an operator is given, the amount is present and not
    zero. Rows that fail this are dropped by the two threshold loops. *)
Theorem document_thresholds_are_complete
        (xls : workbook) (path fye_ : string) (doc : compiled) (c : country) (t : dict) :
  compile_rules xls path fye_ = Done doc ->
  In c (countries doc) ->
  In t (lf_tpd_thresholds c ++ mf_thresholds c) ->
  complete_threshold t.
Proof.
  intros Hdoc Hc Ht.
  destruct (document_country_origin _ _ _ _ _ Hdoc Hc) as (c0 & c1 & Hc0 & Hsame & Hcase).
  assert (H0 : Forall complete_threshold (lf_tpd_thresholds c0)
               /\ Forall complete_threshold (mf_thresholds c0)).
  { apply (first_pass_holds
             (fun c => Forall complete_threshold (lf_tpd_thresholds c)
                       /\ Forall complete_threshold (mf_thresholds c))
             xls (lower (name c)) c0); try exact Hc0;
      try (intros r c' [H1 H2]; unfold lf_threshold_body, lf_deadline_body,
             mf_threshold_body, mf_deadline_body, form_body, cbcr_body;
           repeat match goal with
             | |- context [if ?b then _ else _] => destruct b eqn:?
             end;
           simpl; split; auto; apply Forall_snoc; auto;
           apply packed_threshold_complete; assumption).
    intros j. simpl. split; constructor. }
  destruct (same_but_cit_fields _ _ Hsame) as (_ & _ & E1 & _ & E2 & _).
  assert (Hs : In t (lf_tpd_thresholds (sort_country c1)
                     ++ mf_thresholds (sort_country c1))).
  { destruct Hcase as [-> | (_ & _ & Hen)]; [exact Ht | ].
    apply enhance_country_records in Hen.
    destruct Hen as (_ & _ & H1 & H2 & _). rewrite H1, H2 in Ht. exact Ht. }
  simpl in Hs. rewrite E1, E2 in Hs. destruct H0 as [Hlf Hmf].
  rewrite Forall_forall in Hlf, Hmf.
  apply in_app_or in Hs. destruct Hs as [Hs | Hs]; apply sorted_In in Hs; auto.
Qed.

Lemma cbcr_qualifies_resolved (fye_ : string) (d d' : dict) :
  resolved fye_ d d' -> cbcr_qualifies d' = cbcr_qualifies d.
Proof.
  intros H. unfold cbcr_qualifies.
  rewrite (resolved_other_keys _ _ _ "required" H) by reflexivity.
  rewrite (resolved_other_keys _ _ _ "included_in_cit" H) by reflexivity.
  reflexivity.
Qed.

(** X6. A country of the compiled document has a CbCR notification
    record only if that record is required or included in the CIT
    return (one of the two fields is a yes-value); the CIT-based pass
    does not change this. *)
Theorem document_cbcr_qualifies
        (xls : workbook) (path fye_ : string) (doc : compiled) (c : country) (d : dict) :
  compile_rules xls path fye_ = Done doc ->
  In c (countries doc) ->
  cbcr c = Some d ->
  cbcr_qualifies d = true.
Proof.
  intros Hdoc Hc Hd.
  destruct (document_country_origin _ _ _ _ _ Hdoc Hc) as (c0 & c1 & Hc0 & Hsame & Hcase).
  assert (H0 : forall d0, cbcr c0 = Some d0 -> cbcr_qualifies d0 = true).
  { apply (first_pass_holds
             (fun c => forall d0, cbcr c = Some d0 -> cbcr_qualifies d0 = true)
             xls (lower (name c)) c0); try exact Hc0;
      try (intros r c' H; unfold lf_threshold_body, lf_deadline_body,
             mf_threshold_body, mf_deadline_body, form_body;
           repeat match goal with
             | |- context [if ?b then _ else _] => destruct b
             end; exact H).
    - intros j d0. simpl. discriminate.
    - intros r c' H. unfold cbcr_body.
      destruct (cbcr_qualifies (pack_cbcr_row r)) eqn:Hq; cbn [negb]; [ | exact H].
      intros d0 [= <-]. exact Hq. }
  destruct (same_but_cit_fields _ _ Hsame) as (_ & _ & _ & _ & _ & _ & _ & E1).
  destruct Hcase as [-> | (_ & _ & Hen)].
  - simpl in Hd. rewrite E1 in Hd. exact (H0 _ Hd).
  - apply enhance_country_records in Hen.
    destruct Hen as (_ & _ & _ & _ & _ & _ & _ & _ & Hcb).
    simpl in Hcb. rewrite E1 in Hcb.
    destruct (cbcr c0) as [d0 |]; [ | congruence].
    destruct Hcb as (d' & Hd' & Hres). rewrite Hd in Hd'. injection Hd' as <-.
    rewrite (cbcr_qualifies_resolved _ _ _ Hres). apply H0. reflexivity.
Qed.

Lemma origin_uncalculated (xls : workbook) (k : string) (c0 c1 : country) :
  assoc k (st_countries (first_pass_of xls)) = Some c0 ->
  same_but_cit c0 c1 ->
  uncalculated (sort_country c1).
Proof.
  intros Hc0 Hsame. apply sort_country_uncalculated.
  pose proof (first_pass_uncalculated (fst (country_maps xls)) (snd (country_maps xls))
                (sheet xls SheetNames.LF_THRESHOLD) (sheet xls SheetNames.LF_DEADLINES)
                (sheet xls SheetNames.MF_THRESHOLD) (sheet xls SheetNames.MF_DEADLINES)
                (sheet xls SheetNames.TP_FORMS) (sheet xls SheetNames.CBCR)) as Hall.
  fold (first_pass_of xls) in Hall. rewrite Forall_forall in Hall.
  pose proof (Hall _ (assoc_In _ _ _ Hc0)) as Hu. simpl in Hu.
  destruct (same_but_cit_fields _ _ Hsame) as (_ & _ & _ & E1 & _ & E2 & E3 & E4).
  unfold uncalculated in *. rewrite E1, E2, E3, E4. exact Hu.
Qed.

(** X7. A country of the compiled document that has no CIT deadlines
    has no calculated date in any of its deadline, form or notification
    records, whatever fiscal-year-end is given: the CIT-based pass skips
    it. *)
Theorem no_cit_deadlines_no_calculated_date
        (xls : workbook) (path fye_ : string) (doc : compiled) (c : country) :
  compile_rules xls path fye_ = Done doc ->
  In c (countries doc) ->
  cit_deadlines c = [] ->
  uncalculated c.
Proof.
  intros Hdoc Hc Hcit.
  destruct (document_country_origin _ _ _ _ _ Hdoc Hc) as (c0 & c1 & Hc0 & Hsame & Hcase).
  assert (Heq : c = sort_country c1).
  { destruct Hcase as [-> | (_ & _ & Hen)]; [reflexivity | ].
    pose proof (enhance_country_records _ _ _ Hen) as (_ & _ & _ & _ & H & _).
    rewrite Hcit in H. unfold enhance_country in Hen. rewrite <- H in Hen.
    injection Hen as <-. reflexivity. }
  rewrite Heq. exact (origin_uncalculated _ _ _ _ Hc0 Hsame).
Qed.

(** X8. On a machine without dateutil the fiscal-year-end given to
    [compile_rules] changes nothing but the fye field of the document:
    the run returns or raises as the run without a fiscal-year-end does,
    with the same countries. *)
Theorem without_dateutil_fye_is_only_recorded
        (xls : workbook) (path fye_ : string) :
  relativedelta = None ->
  compile_rules xls path fye_
  = (doc <- compile_rules xls path "" ;;
     Done (mkcompiled (generated_at doc) (excel_source doc) fye_ (countries doc))).
Proof.
  intros Hrd.
  assert (Hen : forall f reg, enhance f reg = Done reg)
    by (intros f reg; unfold enhance; rewrite Hrd; reflexivity).
  unfold compile_rules, compile_state, second_pass.
  repeat match goal with
         | |- context [load_sheet xls ?n ?b] =>
             destruct (load_sheet xls n b); cbn [bind]; [ | reflexivity]
         end.
  destruct (load_country_map _); cbn [bind]; [ | reflexivity].
  rewrite !Hen. reflexivity.
Qed.

(** X9. When the workbook lacks one of the seven required sheets,
    [compile_rules] raises ValueError, whatever else the workbook
    holds. *)
Theorem missing_required_sheet_raises
        (xls : workbook) (path fye_ : string) (n : string) :
  In n required_sheets ->
  assoc n xls = None ->
  compile_rules xls path fye_ = Raised ValueError.
Proof.
  intros Hn Hx. unfold compile_rules, compile_state.
  assert (Hl : load_sheet xls n true = Raised ValueError)
    by (unfold load_sheet; rewrite Hx; reflexivity).
  assert (Hany : forall m, load_sheet xls m true = Raised ValueError
                           \/ exists df, load_sheet xls m true = Done df).
  { intros m. unfold load_sheet. destruct (assoc m xls); eauto. }
  simpl in Hn.
  repeat match goal with
         | H : _ \/ _ |- _ => destruct H as [<- | H]
         | H : False |- _ => destruct H
         end;
    repeat match goal with
      | |- context [load_sheet xls ?m true] =>
          first [ rewrite Hl; reflexivity
                | destruct (Hany m) as [-> | [? ->]]; [reflexivity | cbn [bind]] ]
      end.
Qed.

End Reaching.

Lemma document_thresholds_are_complete_witness :
  exists doc c t,
    @Rules2.compile_rules sample_env sample_xls "Rule Tables.xlsx" "2024-12-31" = Done doc
    /\ nth_error (Rules2.countries doc) 2 = Some c
    /\ nth_error (Rules2.lf_tpd_thresholds c) 0 = Some t
    /\ complete_threshold t.
Proof.
  eexists. eexists. eexists. split; [vm_compute; reflexivity | ].
  split; [vm_compute; reflexivity | ]. split; [vm_compute; reflexivity | ].
  apply (@document_thresholds_are_complete sample_env sample_xls "Rule Tables.xlsx"
           "2024-12-31" _ _ _ ltac:(vm_compute; reflexivity)
           ltac:(vm_compute; do 2 right; left; reflexivity)).
  vm_compute. left. reflexivity.
Defined.

Lemma document_cbcr_qualifies_witness :
  exists doc c d,
    @Rules2.compile_rules sample_env sample_xls "Rule Tables.xlsx" "2024-12-31" = Done doc
    /\ nth_error (Rules2.countries doc) 2 = Some c
    /\ Rules2.cbcr c = Some d
    /\ Rules2.cbcr_qualifies d = true.
Proof.
  eexists. eexists. eexists. split; [vm_compute; reflexivity | ].
  split; [vm_compute; reflexivity | ]. split; [vm_compute; reflexivity | ].
  apply (@document_cbcr_qualifies sample_env sample_xls "Rule Tables.xlsx"
           "2024-12-31" _ _ _ ltac:(vm_compute; reflexivity)
           ltac:(vm_compute; do 2 right; left; reflexivity)).
  vm_compute. reflexivity.
Defined.

Lemma no_cit_deadlines_no_calculated_date_witness :
  exists doc c,
    @Rules2.compile_rules sample_env sample_xls "Rule Tables.xlsx" "2024-12-31" = Done doc
    /\ nth_error (Rules2.countries doc) 1 = Some c
    /\ Rules2.cit_deadlines c = []
    /\ uncalculated c.
Proof.
  eexists. eexists. split; [vm_compute; reflexivity | ].
  split; [vm_compute; reflexivity | ]. split; [vm_compute; reflexivity | ].
  apply (@no_cit_deadlines_no_calculated_date sample_env sample_xls "Rule Tables.xlsx"
           "2024-12-31" _ _ ltac:(vm_compute; reflexivity)
           ltac:(vm_compute; right; left; reflexivity)).
  vm_compute. reflexivity.
Defined.

Lemma without_dateutil_fye_is_only_recorded_witness :
  @relativedelta sample_env_no_dateutil = None
  /\ @Rules2.compile_rules sample_env_no_dateutil sample_xls "Rule Tables.xlsx" "2024-12-31"
     = (doc <- @Rules2.compile_rules sample_env_no_dateutil sample_xls
                 "Rule Tables.xlsx" "" ;;
        Done (Rules2.mkcompiled (Rules2.generated_at doc) (Rules2.excel_source doc)
                "2024-12-31" (Rules2.countries doc))).
Proof.
  split; [reflexivity | ].
  apply (@without_dateutil_fye_is_only_recorded sample_env_no_dateutil). reflexivity.
Defined.

Lemma missing_required_sheet_raises_witness :
  In Rules2.SheetNames.CBCR required_sheets
  /\ assoc Rules2.SheetNames.CBCR countries_only_xls = None
  /\ @Rules2.compile_rules sample_env countries_only_xls "Rule Tables.xlsx" ""
     = Raised ValueError.
Proof.
  assert (Hin : In Rules2.SheetNames.CBCR required_sheets)
    by (unfold required_sheets; simpl; tauto).
  split; [exact Hin | ]. split; [reflexivity | ].
  apply (@missing_required_sheet_raises sample_env countries_only_xls
           "Rule Tables.xlsx" "" Rules2.SheetNames.CBCR Hin). reflexivity.
Defined.

(** ** [ensure_country] *)

(** X10. [ensure_country] gets or creates: the entries the registry had
    stay as they were, at most one entry is appended, a blank token
    returns no country and changes nothing, any other token returns the
    country stored under the key of the token (the one already there, or
    a new one with empty record lists), and asking again for the same
    token changes nothing more. *)
Theorem ensure_country_gets_or_creates
        (reg reg' : Rules2.registry) (j : string)
        (n2r c2n : list (string * string)) (ref : option string) :
  Rules2.ensure_country reg j n2r c2n = (reg', ref) ->
  (forall k c, assoc k reg = Some c -> assoc k reg' = Some c)
  /\ (exists new, reg' = (reg ++ new)%list /\ (List.length new <= 1)%nat)
  /\ match ref with
     | None => j = "" /\ reg' = reg
     | Some k =>
         j <> "" /\ k = key_of c2n j
         /\ assoc k reg' = Some (match assoc k reg with
                                 | Some c => c
                                 | None => fresh_country n2r c2n j
                                 end)
     end
  /\ Rules2.ensure_country reg' j n2r c2n = (reg', ref).
Proof.
  destruct (String.eqb j "") eqn:Hj.
  - apply String.eqb_eq in Hj. subst j. rewrite ensure_country_blank.
    intros [= <- <-]. split; [auto | ]. split; [exists []; rewrite app_nil_r; auto | ].
    split; [auto | reflexivity].
  - apply String.eqb_neq in Hj. rewrite !(ensure_country_token _ _ n2r c2n Hj).
    intros [= <- <-].
    destruct (assoc (key_of c2n j) reg) as [c0 |] eqn:Ha.
    + rewrite Ha. split; [auto | ]. split; [exists []; rewrite app_nil_r; auto | ].
      split; [auto | reflexivity].
    + assert (Hnew : assoc (key_of c2n j)
                       (reg ++ [(key_of c2n j, fresh_country n2r c2n j)])
                     = Some (fresh_country n2r c2n j))
        by (rewrite assoc_app, Ha; simpl; rewrite String.eqb_refl; reflexivity).
      rewrite Hnew. split; [ | split; [ | split]].
      * intros k c Hk. rewrite assoc_app, Hk. reflexivity.
      * eexists. split; [reflexivity | simpl; lia].
      * auto.
      * reflexivity.
Qed.

Lemma ensure_country_gets_or_creates_witness :
  exists reg',
    Rules2.ensure_country
      [("germany", Rules2.mkcountry "Germany" "Europe" [] [] [] [] [] None [])]
      " jpn " [("japan", "Asia"); ("jpn", "Asia")] [("JPN", "Japan")]
    = (reg', Some "japan")
    /\ assoc "germany" reg'
       = Some (Rules2.mkcountry "Germany" "Europe" [] [] [] [] [] None [])
    /\ assoc "japan" reg' = Some (Rules2.mkcountry "Japan" "Asia" [] [] [] [] [] None [])
    /\ Rules2.ensure_country reg' " jpn " [("japan", "Asia"); ("jpn", "Asia")]
         [("JPN", "Japan")] = (reg', Some "japan").
Proof.
  eexists. split; [vm_compute; reflexivity | ].
  pose proof (ensure_country_gets_or_creates
                [("germany", Rules2.mkcountry "Germany" "Europe" [] [] [] [] [] None [])]
                _ " jpn " [("japan", "Asia"); ("jpn", "Asia")] [("JPN", "Japan")]
                (Some "japan") ltac:(vm_compute; reflexivity))
    as (Hold & _ & (_ & _ & Hnew) & Hagain).
  split; [apply Hold; reflexivity | ]. split; [exact Hnew | exact Hagain].
Defined.

(** ** The CIT deadlines of a country *)

Section CitRows.
Import Rules2.
Context {E : PyEnv}.

Lemma cit_step_target c2n (reg : registry) (r : row) :
  cit_step c2n reg r
  = match cit_target c2n reg r with
    | None => reg
    | Some k =>
        modify k (fun c => set_cit_deadlines (cit_deadlines c ++ [pack_cit_row r])%list c)
               reg
    end.
Proof.
  unfold cit_step, cit_target.
  destruct (String.eqb _ ""); [reflexivity | ].
  destruct (find _ reg); [reflexivity | ].
  destruct (find _ reg); reflexivity.
Qed.

Lemma cit_target_identities c2n (reg reg' : registry) (r : row) :
  identities reg = identities reg' ->
  cit_target c2n reg r = cit_target c2n reg' r.
Proof.
  intros Hid.
  assert (Hname : forall full (l : registry),
             match find (fun kc => String.eqb (name (snd kc)) full) l with
             | Some kc => Some (fst kc) | None => None end
             = match find (fun p : string * string => String.eqb (snd p) full)
                          (identities l) with
               | Some p => Some (fst p) | None => None end).
  { intros full l. induction l as [| [k c] l IH]; simpl; [reflexivity | ].
    destruct (String.eqb (name c) full); [reflexivity | exact IH]. }
  assert (Hkey : forall key (l : registry),
             match find (fun kc : string * country => String.eqb (fst kc) key) l with
             | Some kc => Some (fst kc) | None => None end
             = match find (fun p : string * string => String.eqb (fst p) key)
                          (identities l) with
               | Some p => Some (fst p) | None => None end).
  { intros key l. induction l as [| [k c] l IH]; simpl; [reflexivity | ].
    destruct (String.eqb k key); [reflexivity | exact IH]. }
  unfold cit_target. destruct (String.eqb _ ""); [reflexivity | ].
  match goal with
  | |- context [find (fun kc => String.eqb (name (snd kc)) ?full) reg] =>
      pose proof (Hname full reg) as H1; pose proof (Hname full reg') as H1'
  end.
  match goal with
  | |- context [find (fun kc => String.eqb (fst kc) ?key) reg] =>
      pose proof (Hkey key reg) as H2; pose proof (Hkey key reg') as H2'
  end.
  rewrite Hid in H1, H2. rewrite <- H1' in H1. rewrite <- H2' in H2.
  destruct (find _ reg) as [kc |], (find _ reg') as [kc' |]; try discriminate.
  - exact H1.
  - destruct (find _ reg) as [kc |], (find _ reg') as [kc' |]; try discriminate;
      [exact H2 | reflexivity].
Qed.

Lemma identities_modify (k : string) (f : country -> country) (reg : registry) :
  (forall c, name (f c) = name c) ->
  identities (modify k f reg) = identities reg.
Proof.
  intros Hf. unfold identities.
  induction reg as [| [k0 c0] reg IH]; simpl; [reflexivity | ].
  destruct (String.eqb k k0); simpl; [rewrite Hf; reflexivity | ].
  rewrite IH. reflexivity.
Qed.

Lemma cit_step_identities c2n (reg : registry) (r : row) :
  identities (cit_step c2n reg r) = identities reg.
Proof.
  rewrite cit_step_target. destruct (cit_target c2n reg r); [ | reflexivity].
  apply identities_modify. intros c. reflexivity.
Qed.

Lemma cit_rows_of_identities c2n (reg reg' : registry) (k : string) (rows : list row) :
  identities reg = identities reg' ->
  cit_rows_of c2n reg k rows = cit_rows_of c2n reg' k rows.
Proof.
  intros Hid. unfold cit_rows_of. apply filter_ext. intros r.
  rewrite (cit_target_identities c2n reg reg' r Hid). reflexivity.
Qed.

(** The country stored under a key after the CIT loop: the country that
    was there, with the packed rows attached to it appended in order. *)
Lemma assoc_cit_loop c2n (rows : list row) (reg : registry) (k : string) :
  assoc k (fold_left (cit_step c2n) rows reg)
  = option_map
      (fun c => set_cit_deadlines
                  (cit_deadlines c ++ map pack_cit_row (cit_rows_of c2n reg k rows))%list
                  c)
      (assoc k reg).
Proof.
  revert reg. induction rows as [| r rows IH]; intros reg.
  - simpl. destruct (assoc k reg) as [c |]; [ | reflexivity].
    simpl. rewrite app_nil_r. destruct c. reflexivity.
  - cbn [fold_left]. rewrite IH.
    rewrite (cit_rows_of_identities c2n _ reg k rows (cit_step_identities c2n reg r)).
    rewrite cit_step_target. unfold cit_rows_of at 2. cbn [filter].
    fold (cit_rows_of c2n reg k rows).
    destruct (cit_target c2n reg r) as [k' |]; [ | reflexivity].
    rewrite assoc_modify. rewrite (String.eqb_sym k' k).
    destruct (String.eqb k k'); [ | reflexivity].
    destruct (assoc k reg) as [c |]; [ | reflexivity].
    simpl. rewrite <- app_assoc. reflexivity.
Qed.

Lemma ingest_cit_looped c2n (df : frame) (reg : registry) :
  ingest_cit c2n df reg = fold_left (cit_step c2n) (looped df) reg.
Proof. unfold ingest_cit, looped. destruct (empty df); reflexivity. Qed.

(** A country of the document and the country the CIT loop left under
    its key. *)
Lemma document_country_source
      (xls : workbook) (path fye_ : string) (doc : compiled) (c : country) :
  compile_rules xls path fye_ = Done doc ->
  In c (countries doc) ->
  exists c1,
    assoc (lower (name c))
          (ingest_cit (snd (country_maps xls)) (sheet xls SheetNames.CIT_DEADLINES)
                      (st_countries (first_pass_of xls))) = Some c1
    /\ name c = name c1
    /\ region c = region c1
    /\ cit_deadlines c = sort_group (cit_deadlines c1).
Proof.
  intros Hdoc Hc.
  apply compile_rules_Done in Hdoc. destruct Hdoc as (reg & Hsp & Hcs & _).
  destruct (second_pass_Done _ _ _ _ _ Hsp) as [Hkeys _].
  destruct (first_pass_well_keyed (fst (country_maps xls)) (snd (country_maps xls))
              (sheet xls SheetNames.LF_THRESHOLD) (sheet xls SheetNames.LF_DEADLINES)
              (sheet xls SheetNames.MF_THRESHOLD) (sheet xls SheetNames.MF_DEADLINES)
              (sheet xls SheetNames.TP_FORMS) (sheet xls SheetNames.CBCR))
    as [Hnd Hkey].
  fold (first_pass_of xls) in Hnd, Hkey.
  rewrite Hcs in Hc. apply sorted_In in Hc. apply in_map_iff in Hc.
  destruct Hc as ([k c'] & Heq & Hin). simpl in Heq. subst c'.
  assert (Hnd' : NoDup (map fst reg)) by (rewrite Hkeys; exact Hnd).
  apply (In_assoc_NoDup _ _ _ Hnd') in Hin.
  unfold second_pass in Hsp.
  destruct (enhance_cases _ _ _ Hsp k c Hin) as (c2 & Hc2 & Hcase).
  rewrite assoc_map_values in Hc2.
  destruct (assoc k (ingest_cit _ _ _)) as [c1 |] eqn:Hc1; [ | discriminate].
  injection Hc2 as <-.
  assert (Hfields : name c = name c1 /\ region c = region c1
                    /\ cit_deadlines c = sort_group (cit_deadlines c1)).
  { destruct Hcase as [-> | (_ & _ & Hen)]; [repeat split | ].
    apply enhance_country_records in Hen.
    destruct Hen as (Hn & Hr & _ & _ & Hcit & _). repeat split; assumption. }
  pose proof Hc1 as Hc1'.
  apply ingest_cit_same_but_cit in Hc1'. destruct Hc1' as (c0 & Hc0 & Hsame).
  assert (Hk : k = lower (name c)).
  { pose proof (assoc_In _ _ _ Hc0) as Hin0. rewrite Forall_forall in Hkey.
    pose proof (Hkey _ Hin0) as Hk0. simpl in Hk0. rewrite Hk0.
    destruct Hfields as (-> & _). rewrite Hsame. reflexivity. }
  exists c1. rewrite <- Hk. split; [exact Hc1 | exact Hfields].
Qed.

(** X11. The CIT deadlines of a country of the compiled document are the
    packed rows of the CIT sheet attached to that country, sorted by
    (group_id, seq). A row is attached to the country whose name is the
    full name its code stands for, else to the country whose key is the
    lowercased code; the rows attached before it have no say in this,
    and a row that finds no country is dropped. *)
Theorem document_cit_deadlines
        (xls : workbook) (path fye_ : string) (doc : compiled) (c : country) :
  compile_rules xls path fye_ = Done doc ->
  In c (countries doc) ->
  cit_deadlines c
  = sort_group
      (map pack_cit_row
           (cit_rows_of (snd (country_maps xls)) (st_countries (first_pass_of xls))
                        (lower (name c)) (looped (sheet xls SheetNames.CIT_DEADLINES)))).
Proof.
  intros Hdoc Hc.
  destruct (document_country_source _ _ _ _ _ Hdoc Hc) as (c1 & Hc1 & _ & _ & ->).
  rewrite ingest_cit_looped, assoc_cit_loop in Hc1.
  destruct (assoc (lower (name c)) (st_countries (first_pass_of xls))) as [c0 |] eqn:Hc0;
    [ | discriminate].
  assert (H0 : cit_deadlines c0 = []).
  { apply (first_pass_holds (fun c => cit_deadlines c = []) xls (lower (name c)) c0);
      try exact Hc0; try (intros r c' H; open_body; exact H).
    intros j. reflexivity. }
  simpl in Hc1. injection Hc1 as <-. simpl. rewrite H0. reflexivity.
Qed.

End CitRows.

Lemma document_cit_deadlines_witness :
  exists doc c,
    @Rules2.compile_rules sample_env sample_xls "Rule Tables.xlsx" "2024-12-31" = Done doc
    /\ nth_error (Rules2.countries doc) 2 = Some c
    /\ Rules2.name c = "Germany"
    /\ Rules2.cit_deadlines c
       = Rules2.sort_group
           (map (@Rules2.pack_cit_row sample_env)
                (@cit_rows_of sample_env (snd (@country_maps sample_env sample_xls))
                   (Rules2.st_countries (@first_pass_of sample_env sample_xls))
                   "germany" (looped (sheet sample_xls Rules2.SheetNames.CIT_DEADLINES)))).
Proof.
  eexists. eexists. split; [vm_compute; reflexivity | ].
  split; [vm_compute; reflexivity | ]. split; [vm_compute; reflexivity | ].
  apply (@document_cit_deadlines sample_env sample_xls "Rule Tables.xlsx" "2024-12-31"
           _ _ ltac:(vm_compute; reflexivity)
           ltac:(vm_compute; do 2 right; left; reflexivity)).
Defined.

(** ** Where the countries of the document come from *)

Section Creation.
Import Rules2.
Context {E : PyEnv}.

Lemma ingest_invariant_rows (I : state -> Prop) n2r c2n body (df : frame) (st : state) :
  (forall st r, In r (looped df) -> I st -> I (ingest_step n2r c2n body st r)) ->
  I st -> I (ingest n2r c2n body df st).
Proof.
  unfold ingest, looped. destruct (empty df); [auto | ].
  revert st. induction (iterrows df) as [| r rows IH]; intros st Hstep Hst;
    [exact Hst | ].
  simpl. apply IH.
  - intros st' r' Hr'. apply Hstep. right. exact Hr'.
  - apply Hstep; [left; reflexivity | exact Hst].
Qed.

Lemma bodies_keep_region :
  (fun body : row -> country -> country => forall r c, region (body r c) = region c)
    lf_threshold_body
  /\ (forall r c, region (lf_deadline_body r c) = region c)
  /\ (forall r c, region (mf_threshold_body r c) = region c)
  /\ (forall r c, region (mf_deadline_body r c) = region c)
  /\ (forall r c, region (form_body r c) = region c)
  /\ (forall r c, region (cbcr_body r c) = region c).
Proof.
  repeat split; intros r c; open_body; reflexivity.
Qed.

Lemma created_ingest_step n2r c2n body (rows : list row) (st : state) (r : row) :
  (forall r c, name (body r c) = name c) ->
  (forall r c, region (body r c) = region c) ->
  In r rows ->
  Forall (fun kc => exists r0, In r0 rows /\ created_for n2r c2n r0 (snd kc))
         (st_countries st) ->
  Forall (fun kc => exists r0, In r0 rows /\ created_for n2r c2n r0 (snd kc))
         (st_countries (ingest_step n2r c2n body st r)).
Proof.
  intros Hn Hr Hin Hst.
  destruct (String.eqb (token_of r) "") eqn:Hj.
  - apply String.eqb_eq in Hj. rewrite ingest_step_blank by exact Hj. exact Hst.
  - apply String.eqb_neq in Hj. rewrite ingest_step_token by exact Hj.
    cbn [st_countries]. apply Forall_modify.
    + intros k0 c (r0 & Hr0 & Htok & H1 & H2). exists r0. split; [exact Hr0 | ].
      unfold created_for. simpl in *. rewrite Hn, Hr. auto.
    + destruct (assoc _ (st_countries st)); [exact Hst | ].
      apply Forall_app. split; [exact Hst | ].
      constructor; [ | constructor]. exists r. split; [exact Hin | ].
      unfold created_for. simpl. auto.
Qed.

Lemma first_pass_created (xls : workbook) :
  Forall (fun kc => exists r0, In r0 (ingested_rows xls)
                               /\ created_for (fst (country_maps xls))
                                              (snd (country_maps xls)) r0 (snd kc))
         (st_countries (first_pass_of xls)).
Proof.
  destruct bodies_keep_name as (N1 & N2 & N3 & N4 & N5 & N6).
  destruct bodies_keep_region as (R1 & R2 & R3 & R4 & R5 & R6).
  unfold first_pass_of, first_pass.
  repeat (apply ingest_invariant_rows;
          [intros st r Hr; apply created_ingest_step; try assumption;
           unfold ingested_rows; rewrite ?in_app_iff; tauto | ]).
  constructor.
Qed.

(** X12. Every country of the compiled document was created for the
    jurisdiction token of a row of one of the six ingested sheets, a
    token that is not blank: its name is the full name the token stands
    for as a code, else the token itself, and its region is the one the
    country sheet gives for the token, else empty. The CIT sheet creates
    no country. *)
Theorem document_countries_come_from_tokens
        (xls : workbook) (path fye_ : string) (doc : compiled) (c : country) :
  compile_rules xls path fye_ = Done doc ->
  In c (countries doc) ->
  exists r, In r (ingested_rows xls)
            /\ created_for (fst (country_maps xls)) (snd (country_maps xls)) r c.
Proof.
  intros Hdoc Hc.
  destruct (document_country_origin _ _ _ _ _ Hdoc Hc) as (c0 & c1 & Hc0 & Hsame & Hcase).
  pose proof (first_pass_created xls) as Hall. rewrite Forall_forall in Hall.
  destruct (Hall _ (assoc_In _ _ _ Hc0)) as (r & Hr & Htok & Hn & Hrg).
  exists r. split; [exact Hr | ]. simpl in Hn, Hrg.
  assert (Hc1 : name c1 = name c0 /\ region c1 = region c0)
    by (rewrite Hsame; split; reflexivity).
  destruct Hc1 as [Hn1 Hr1].
  assert (Hcc : name c = name c1 /\ region c = region c1).
  { destruct Hcase as [-> | (_ & _ & Hen)]; [split; reflexivity | ].
    apply enhance_country_records in Hen. destruct Hen as (H1 & H2 & _).
    split; assumption. }
  destruct Hcc as [Hn2 Hr2].
  unfold created_for. rewrite Hn2, Hr2, Hn1, Hr1. auto.
Qed.

End Creation.

Lemma document_countries_come_from_tokens_witness :
  exists doc c,
    @Rules2.compile_rules sample_env sample_xls "Rule Tables.xlsx" "2024-12-31" = Done doc
    /\ nth_error (Rules2.countries doc) 3 = Some c
    /\ Rules2.name c = "Japan"
    /\ exists r,
         In r (ingested_rows sample_xls)
         /\ @created_for sample_env (fst (@country_maps sample_env sample_xls))
              (snd (@country_maps sample_env sample_xls)) r c.
Proof.
  eexists. eexists. split; [vm_compute; reflexivity | ].
  split; [vm_compute; reflexivity | ]. split; [vm_compute; reflexivity | ].
  apply (@document_countries_come_from_tokens sample_env sample_xls
           "Rule Tables.xlsx" "2024-12-31" _ _ ltac:(vm_compute; reflexivity)).
  vm_compute. do 3 right. left. reflexivity.
Defined.

(** ** A fiscal-year-end that is not a date *)

Section MalformedFye.
Import Rules2.
Context {E : PyEnv}.

Lemma strptime_raises_ValueError (s : string) :
  (forall d, strptime_ymd s <> Done d) -> strptime_ymd s = Raised ValueError.
Proof.
  unfold strptime_ymd. intros H.
  destruct (re_match ymd_regex s) as [[cs [| c rest]] |]; try reflexivity.
  destruct (group 1 cs), (group 2 cs), (group 3 cs); try reflexivity.
  destruct (valid_date _ _ _); [ | reflexivity].
  exfalso. eapply H. reflexivity.
Qed.

Lemma cit_date_of_malformed rd (cit : dict) (fye_ : string) :
  fye_ <> "" -> strptime_ymd fye_ = Raised ValueError ->
  cit_date_of rd cit fye_ = Done None.
Proof.
  intros Hne Hraise. apply String.eqb_neq in Hne.
  unfold cit_date_of. rewrite Hne, Hraise. cbn [bind except_ValueError negb andb].
  destruct (String.eqb _ "FIXED_DATE"); [destruct (_ && _); reflexivity | ].
  destruct (String.eqb _ "FYE_RELATIVE"); reflexivity.
Qed.

Lemma calculate_malformed (d : dict) (cits : list dict) (fye_ : string) :
  fye_ <> "" -> strptime_ymd fye_ = Raised ValueError ->
  calculate_deadline_from_cit d cits fye_ = Done d.
Proof.
  intros Hne Hraise. unfold calculate_deadline_from_cit.
  destruct d as [| kv d]; [reflexivity | ].
  destruct cits as [| cit rest]; [reflexivity | ].
  destruct relativedelta as [rd |]; [ | reflexivity].
  destruct (negb _); [reflexivity | ].
  destruct cit as [| kv' cit]; [reflexivity | ].
  rewrite (cit_date_of_malformed rd _ _ Hne Hraise). reflexivity.
Qed.

Lemma mapM_id {A : Type} (f : A -> outcome A) (l : list A) :
  (forall x, f x = Done x) -> mapM f l = Done l.
Proof.
  intros Hf. induction l as [| x l IH]; [reflexivity | ].
  simpl. rewrite Hf, IH. reflexivity.
Qed.

Lemma enhance_malformed (fye_ : string) (reg : registry) :
  fye_ <> "" -> strptime_ymd fye_ = Raised ValueError ->
  enhance fye_ reg = Done reg.
Proof.
  intros Hne Hraise. unfold enhance.
  destruct relativedelta as [rd |] eqn:Hrd; [ | reflexivity].
  destruct (String.eqb fye_ ""); [reflexivity | ].
  apply mapM_id. intros [k c]. cbn [fst snd].
  assert (Hc : enhance_country fye_ c = Done c).
  { unfold enhance_country. destruct c as [n rg l1 l2 l3 l4 l5 cb cit]. cbn.
    destruct cit as [| x cit]; [reflexivity | ].
    rewrite !mapM_id by (intros d; apply calculate_malformed; assumption).
    cbn [bind]. destruct cb as [[| kv d] |]; try reflexivity.
    rewrite calculate_malformed by assumption. reflexivity. }
  rewrite Hc. reflexivity.
Qed.

(** X13. A fiscal-year-end that is not empty and that strptime does not
    read as a %Y-%m-%d date is ignored: no ValueError leaves the
    CIT-based pass, and [compile_rules] returns or raises as without a
    fiscal-year-end, with the same countries; only the fye field of the
    document records the string. *)
Theorem malformed_fye_is_ignored (xls : workbook) (path fye_ : string) :
  fye_ <> "" ->
  (forall d, strptime_ymd fye_ <> Done d) ->
  compile_rules xls path fye_
  = (doc <- compile_rules xls path "" ;;
     Done (mkcompiled (generated_at doc) (excel_source doc) fye_ (countries doc))).
Proof.
  intros Hne Hno. apply strptime_raises_ValueError in Hno.
  unfold compile_rules, compile_state, second_pass.
  repeat match goal with
         | |- context [load_sheet xls ?n ?b] =>
             destruct (load_sheet xls n b); cbn [bind]; [ | reflexivity]
         end.
  destruct (load_country_map _); cbn [bind]; [ | reflexivity].
  rewrite (enhance_malformed fye_ _ Hne Hno), enhance_without_fye. reflexivity.
Qed.

Lemma with_calculated_describes (d : dict) (cd : date) (txt : string) :
  txt <> "" ->
  describes_date (with_calculated d cd txt) cd
  /\ truthy (dget (with_calculated d cd txt) "text") = true.
Proof.
  intros Htxt. split.
  - exact (with_calculated_fields d cd txt).
  - unfold with_calculated.
    match goal with |- context [if ?b then _ else _] => destruct b eqn:Hb end;
      [exact Hb | ].
    rewrite dget_dset_eq. simpl. apply negb_true_iff. apply String.eqb_neq. exact Htxt.
Qed.

(** X14. When [calculate_deadline_from_cit] returns a record other than
    the one it was given, the fields calculated_date, month, day and
    month_name of that record describe one and the same date, and its
    text is not empty. *)
Theorem calculated_fields_describe_one_date
        (d : dict) (cits : list dict) (fye_ : string) (d' : dict) :
  calculate_deadline_from_cit d cits fye_ = Done d' ->
  d' <> d ->
  exists cd, describes_date d' cd /\ truthy (dget d' "text") = true.
Proof.
  unfold calculate_deadline_from_cit.
  destruct d as [| kv d]; [intros [= <-]; congruence | ].
  destruct cits as [| cit rest]; [intros [= <-]; congruence | ].
  destruct relativedelta as [rd |]; [ | intros [= <-]; congruence].
  destruct (negb _); [intros [= <-]; congruence | ].
  destruct cit as [| kv' cit]; [intros [= <-]; congruence | ].
  destruct (cit_date_of rd (kv' :: cit) fye_) as [[cd |] | e]; cbn [bind];
    [ | intros [= <-]; congruence | discriminate].
  destruct (_ && _).
  - intros [= <-] _. exists cd. apply with_calculated_describes. discriminate.
  - destruct (rd cd _ _) as [cd' | e]; cbn [bind]; [ | discriminate].
    intros [= <-] _. exists cd'. apply with_calculated_describes.
    intros H. apply (f_equal String.length) in H.
    rewrite !length_append in H. simpl in H. lia.
Qed.

End MalformedFye.

Lemma malformed_fye_is_ignored_witness :
  "31/12/2024" <> ""
  /\ (forall d, strptime_ymd "31/12/2024" <> Done d)
  /\ @Rules2.compile_rules sample_env sample_xls "Rule Tables.xlsx" "31/12/2024"
     = (doc <- @Rules2.compile_rules sample_env sample_xls "Rule Tables.xlsx" "" ;;
        Done (Rules2.mkcompiled (Rules2.generated_at doc) (Rules2.excel_source doc)
                "31/12/2024" (Rules2.countries doc))).
Proof.
  assert (H1 : "31/12/2024" <> "") by discriminate.
  assert (H2 : forall d, strptime_ymd "31/12/2024" <> Done d)
    by (intros d; vm_compute; discriminate).
  split; [exact H1 | ]. split; [exact H2 | ].
  exact (@malformed_fye_is_ignored sample_env sample_xls "Rule Tables.xlsx"
           "31/12/2024" H1 H2).
Defined.

Lemma calculated_fields_describe_one_date_witness :
  exists d' cd,
    @Rules2.calculate_deadline_from_cit sample_env
      [("deadline_kind", VStr "RETURN_DUE_DATE"); ("offset_months", VInt 1)]
      [[("deadline_kind", VStr "FIXED_DATE"); ("month", VInt 3); ("day", VInt 31)]]
      "2024-12-31" = Done d'
    /\ describes_date d' cd
    /\ truthy (dget d' "text") = true.
Proof.
  eexists.
  destruct (@calculated_fields_describe_one_date sample_env
              [("deadline_kind", VStr "RETURN_DUE_DATE"); ("offset_months", VInt 1)]
              [[("deadline_kind", VStr "FIXED_DATE"); ("month", VInt 3);
                ("day", VInt 31)]]
              "2024-12-31" _ ltac:(vm_compute; reflexivity)
              ltac:(vm_compute; discriminate)) as (cd & H1 & H2).
  exists cd. split; [vm_compute; reflexivity | ]. split; [exact H1 | exact H2].
Defined.

(** ** Strings *)



Lemma lstrip_head (s : string) :
  lstrip s = "" \/ exists c t, lstrip s = String c t /\ is_space c = false.
Proof.
  induction s as [| c s IH]; simpl; [left; reflexivity | ].
  destruct (is_space c) eqn:Hc; [exact IH | ].
  right. exists c, s. split; [reflexivity | exact Hc].
Qed.

Lemma rstrip_idempotent (s : string) : rstrip (rstrip s) = rstrip s.
Proof.
  induction s as [| c s IH]; [reflexivity | ].
  cbn [rstrip]. destruct (rstrip s) as [| c' t] eqn:Hr.
  - destruct (is_space c) eqn:Hc; [reflexivity | ].
    cbn [rstrip]. rewrite Hc. reflexivity.
  - cbn [rstrip] in *. rewrite IH. reflexivity.
Qed.

Lemma lstrip_rstrip (c : ascii) (t : string) :
  is_space c = false -> lstrip (rstrip (String c t)) = rstrip (String c t).
Proof.
  intros Hc. cbn [rstrip]. destruct (rstrip t); [rewrite Hc | ]; simpl; rewrite Hc;
    reflexivity.
Qed.

Lemma strip_idempotent (s : string) : strip (strip s) = strip s.
Proof.
  unfold strip. destruct (lstrip_head s) as [-> | (c & t & -> & Hc)]; [reflexivity | ].
  rewrite (lstrip_rstrip c t Hc). apply rstrip_idempotent.
Qed.

(** X15. [clean] is idempotent: cleaning the text it returned gives
    that text again, so a value that went through [clean] has no
    leading or trailing whitespace left, and the second [clean] of
    [ensure_country] leaves the token of the loops as it is. *)
Theorem clean_is_idempotent (E : PyEnv) (x : option cell) :
  clean (Some (CStr (clean x))) = clean x
  /\ strip (clean x) = clean x.
Proof.
  assert (H : strip (clean x) = clean x).
  { unfold clean. destruct (isna x); [reflexivity | apply strip_idempotent]. }
  split; [ | exact H]. unfold clean at 1. simpl. exact H.
Qed.

(** ** [find_col] *)

Section FindCol.

Lemma prefix_refl (s : string) : prefix s s = true.
Proof.
  induction s as [| c s IH]; [reflexivity | ].
  simpl. destruct (Ascii.ascii_dec c c); [exact IH | congruence].
Qed.

Lemma contains_refl (s : string) : contains s s = true.
Proof. destruct s; simpl; [reflexivity | ]. rewrite prefix_refl.
       destruct (Ascii.ascii_dec a a); [reflexivity | congruence]. Qed.

Lemma first_some_Some {A B : Type} (f : A -> option B) (l : list A) (y : B) :
  first_some f l = Some y -> exists x, In x l /\ f x = Some y.
Proof.
  induction l as [| x l IH]; simpl; [discriminate | ].
  destruct (f x) as [y' |] eqn:Hx.
  - intros [= <-]. exists x. auto.
  - intros H. destruct (IH H) as (x' & Hin & Hx'). exists x'. auto.
Qed.

Lemma first_some_None {A B : Type} (f : A -> option B) (l : list A) :
  first_some f l = None -> forall x, In x l -> f x = None.
Proof.
  induction l as [| x l IH]; simpl; [intros _ x [] | ].
  destruct (f x) as [y' |] eqn:Hx; [discriminate | ].
  intros H x' [<- | Hin]; [exact Hx | exact (IH H x' Hin)].
Qed.

Lemma lc_lookup_Some (cols : list string) (key c : string) :
  lc_lookup cols key = Some c -> In c cols /\ lower c = key.
Proof.
  unfold lc_lookup. intros H. apply find_some in H. destruct H as [Hin Heq].
  apply in_rev in Hin. apply String.eqb_eq in Heq. auto.
Qed.

Lemma lc_lookup_None (cols : list string) (key c : string) :
  lc_lookup cols key = None -> In c cols -> lower c <> key.
Proof.
  unfold lc_lookup. intros H Hin. apply in_rev in Hin.
  apply String.eqb_neq. exact (find_none _ _ H c Hin).
Qed.

(** X16. [find_col] returns a column of the sheet whose name contains
    one of the candidates, case apart, and returns None only when no
    column contains any candidate. When some column is a candidate
    exactly, case apart, the column returned is one. *)
Theorem find_col_finds_a_matching_column (cols candidates : list string) :
  match find_col cols candidates with
  | Some c =>
      In c cols
      /\ (exists cand, In cand candidates /\ names_within c cand)
      /\ ((exists c' cand', In c' cols /\ In cand' candidates
                            /\ names_exactly c' cand') ->
          exists cand, In cand candidates /\ names_exactly c cand)
  | None =>
      forall c cand, In c cols -> In cand candidates -> ~ names_within c cand
  end.
Proof.
  unfold find_col, names_within, names_exactly.
  destruct (first_some _ candidates) as [c |] eqn:Hfirst.
  - apply first_some_Some in Hfirst. destruct Hfirst as (cand & Hcand & Hc).
    apply lc_lookup_Some in Hc. destruct Hc as [Hin Heq].
    split; [exact Hin | ]. split.
    + exists cand. split; [exact Hcand | ]. rewrite Heq. apply contains_refl.
    + intros _. exists cand. auto.
  - pose proof (first_some_None _ _ Hfirst) as Hnone. cbv beta in Hnone.
    destruct (find _ cols) as [c |] eqn:Hfind.
    + apply find_some in Hfind. destruct Hfind as [Hin Hex].
      apply existsb_exists in Hex. destruct Hex as (cand & Hcand & Hc).
      split; [exact Hin | ]. split; [exists cand; auto | ].
      intros (c' & cand' & Hc' & Hcand' & Heq). exfalso.
      exact (lc_lookup_None _ _ _ (Hnone cand' Hcand') Hc' Heq).
    + intros c cand Hc Hcand Hw.
      pose proof (find_none _ _ Hfind c Hc) as Hf. cbv beta in Hf.
      assert (Ht : existsb (fun cand => contains (lower cand) (lower c)) candidates = true)
        by (apply existsb_exists; exists cand; auto).
      congruence.
Qed.

End FindCol.

(** ** The maps of the country sheet *)

Section CountryMaps.
Import Rules2.
Context {E : PyEnv}.

Lemma assoc_upsert {A : Type} (k k' : string) (v : A) (l : list (string * A)) :
  assoc k (upsert k' v l) = if String.eqb k k' then Some v else assoc k l.
Proof.
  induction l as [| [k0 v0] l IH]; simpl.
  - destruct (String.eqb k k'); reflexivity.
  - destruct (String.eqb k' k0) eqn:H0; simpl.
    + apply String.eqb_eq in H0. subst k0. destruct (String.eqb k k'); reflexivity.
    + rewrite IH. destruct (String.eqb k k0) eqn:H1; [ | reflexivity].
      apply String.eqb_eq in H1. subst k0.
      rewrite String.eqb_sym in H0. rewrite H0. reflexivity.
Qed.


End CountryMaps.


(** ** The month of a legacy deadline *)







Section LegacyMonth.
Context {E : PyEnv}.




End LegacyMonth.


(** ** The legacy compiler: ISO maps and registry *)

Lemma upper_upper_ascii (c : ascii) : upper_ascii (upper_ascii c) = upper_ascii c.
Proof.
  destruct c as [b0 b1 b2 b3 b4 b5 b6 b7].
  destruct b0, b1, b2, b3, b4, b5, b6, b7; vm_compute; reflexivity.
Qed.

Lemma upper_idempotent (s : string) : upper (upper s) = upper s.
Proof.
  unfold upper. induction s as [| c s IH]; simpl; [reflexivity | ].
  rewrite upper_upper_ascii, IH. reflexivity.
Qed.

Section LegacyRegistry.
Context {E : PyEnv}.

(** X19. The three maps [load_iso_codes] returns go together:
    [name_to_iso] and [name_to_region] have the same keys, every code is
    upper case and not empty, and every code of [name_to_iso] is a key
    of [iso_to_name]. *)
Theorem iso_maps_go_together
        (df : frame) (name_to_iso iso_to_name name_to_region : list (string * string)) :
  Legacy.load_iso_codes df = (name_to_iso, iso_to_name, name_to_region) ->
  (forall k, found (assoc k name_to_region) = found (assoc k name_to_iso))
  /\ (forall k iso, assoc k name_to_iso = Some iso ->
        iso <> "" /\ upper iso = iso /\ found (assoc iso iso_to_name) = true).
Proof.
  unfold Legacy.load_iso_codes.
  destruct (find_col _ ["Country"; "Jurisdiction"]) as [cc |];
    [ | intros [= <- <- <-]; split; [reflexivity | discriminate]].
  destruct (find_col _ ["Code (ISO2)"; "ISO2"; "ISO-2"; "ISO 2"; "Code"]) as [ic |];
    [ | intros [= <- <- <-]; split; [reflexivity | discriminate]].
  match goal with
  | |- fold_left ?f ?rows0 ?init = _ -> _ =>
      pose (all_rows := rows0);
      assert (Hfold : forall (rs : list row) m1 m2 m3,
                 ((forall k, found (assoc k m3) = found (assoc k m1))
                  /\ (forall k iso, assoc k m1 = Some iso ->
                        iso <> "" /\ upper iso = iso /\ found (assoc iso m2) = true)) ->
                 forall n1 n2 n3, fold_left f rs (m1, m2, m3) = (n1, n2, n3) ->
                 (forall k, found (assoc k n3) = found (assoc k n1))
                 /\ (forall k iso, assoc k n1 = Some iso ->
                       iso <> "" /\ upper iso = iso /\ found (assoc iso n2) = true))
  end.
  { induction rs as [| r rs IH]; intros m1 m2 m3 Hacc n1 n2 n3;
      [intros [= <- <- <-]; exact Hacc | ].
    cbn [fold_left]. cbn beta iota.
    match goal with
    | |- context [if negb ?a && negb ?b then _ else _] =>
        destruct (negb a && negb b) eqn:Hb
    end; [ | apply IH; exact Hacc].
    apply IH. destruct Hacc as [H1 H2].
    apply andb_prop in Hb. destruct Hb as [Hnm Hiso].
    apply negb_true_iff in Hiso. apply String.eqb_neq in Hiso.
    split.
    - intros k. rewrite !assoc_upsert. destruct (String.eqb k _); [reflexivity | apply H1].
    - intros k iso. rewrite !assoc_upsert.
      destruct (String.eqb k _).
      + intros [= <-]. split; [exact Hiso | ]. split; [apply upper_idempotent | ].
        rewrite String.eqb_refl. reflexivity.
      + intros Hk. destruct (H2 k iso Hk) as (Ha & Hb & Hc).
        split; [exact Ha | ]. split; [exact Hb | ].
        destruct (String.eqb iso _); [reflexivity | exact Hc]. }
  intros Hload. apply (Hfold all_rows [] [] []); [ | exact Hload].
  split; [reflexivity | discriminate].
Qed.

Lemma legacy_ensure_country_cases
      (reg reg' : Legacy.registry) (n2i n2r : list (string * string)) (j : string)
      (ref : option string) :
  Legacy.ensure_country reg n2i n2r j = (reg', ref) ->
  (ref = None /\ reg' = reg /\ turned_down n2i j)
  \/ (exists iso,
        ref = Some (lower (strip j))
        /\ assoc (lower (strip j)) n2i = Some iso
        /\ (reg' = reg
            \/ exists rg,
                 reg' = (reg ++ [(lower (strip j),
                                  Legacy.mkcountry (strip j) iso rg [] [] [] [] []
                                                   None)])%list)).
Proof.
  unfold Legacy.ensure_country, turned_down.
  destruct (String.eqb (lower (strip j)) "") eqn:Hk.
  - apply String.eqb_eq in Hk. intros [= <- <-]. left. auto.
  - destruct (assoc (lower (strip j)) n2i) as [iso |] eqn:Hiso.
    + destruct (assoc (lower (strip j)) reg); intros [= <- <-]; right; exists iso;
        repeat split; eauto.
    + intros [= <- <-]. left. auto.
Qed.

Lemma legacy_step_invariant (n2i n2r : list (string * string))
      (jc at_ th mt nd : option string) (st : Legacy.registry * list string) (r : row) :
  Forall (fun kc => known_country n2i (fst kc) (snd kc)) (fst st) ->
  Forall (turned_down n2i) (snd st) ->
  Forall (fun kc => known_country n2i (fst kc) (snd kc))
         (fst (Legacy.tpdlf_threshold_step n2i n2r jc at_ th mt nd st r))
  /\ Forall (turned_down n2i)
            (snd (Legacy.tpdlf_threshold_step n2i n2r jc at_ th mt nd st r)).
Proof.
  destruct st as [reg unm]. cbn [fst snd]. intros Hreg Hunm.
  unfold Legacy.tpdlf_threshold_step.
  destruct (Legacy.ensure_country reg n2i n2r (clean (row_get_opt r jc)))
    as [reg' ref] eqn:Hens.
  apply legacy_ensure_country_cases in Hens.
  destruct Hens as [(-> & -> & Hdown) | (iso & -> & Hiso & Hreg')].
  - cbn [fst snd]. split; [exact Hreg | ].
    apply Forall_forall. intros u Hu. apply In_set_add in Hu.
    destruct Hu as [-> | Hu]; [exact Hdown | ].
    rewrite Forall_forall in Hunm. exact (Hunm u Hu).
  - cbn [fst snd]. split; [ | exact Hunm].
    apply Forall_modify.
    + intros k0 c Hc. exact Hc.
    + destruct Hreg' as [-> | (rg & ->)]; [exact Hreg | ].
      apply Forall_app. split; [exact Hreg | ].
      constructor; [ | constructor]. split; [reflexivity | exact Hiso].
Qed.

Lemma legacy_loop_invariant (n2i n2r : list (string * string))
      (jc at_ th mt nd : option string) (rs : list row)
      (st : Legacy.registry * list string) :
  Forall (fun kc => known_country n2i (fst kc) (snd kc)) (fst st) ->
  Forall (turned_down n2i) (snd st) ->
  Forall (fun kc => known_country n2i (fst kc) (snd kc))
         (fst (fold_left (Legacy.tpdlf_threshold_step n2i n2r jc at_ th mt nd) rs st))
  /\ Forall (turned_down n2i)
            (snd (fold_left (Legacy.tpdlf_threshold_step n2i n2r jc at_ th mt nd) rs st)).
Proof.
  revert st. induction rs as [| r rs IH]; intros st H1 H2; cbn [fold_left].
  - split; assumption.
  - destruct (legacy_step_invariant n2i n2r jc at_ th mt nd st r H1 H2) as [H3 H4].
    apply IH; assumption.
Qed.

(** X20. After the loop of the legacy compiler over the TPD/LF
    threshold sheet, every country of the registry is a country of the
    ISO sheet, stored under its lowercased name with the code the sheet
    gives, and every token of [unmatched] is one [ensure_country] turns
    down: blank, or not a name of the ISO sheet. No other token gets a
    country. *)
Theorem legacy_registry_holds_known_countries
        (n2i n2r : list (string * string)) (df : frame)
        (reg : Legacy.registry) (unmatched : list string) :
  Legacy.ingest_tpdlf_thresholds n2i n2r df ([], []) = (reg, unmatched) ->
  (forall k c, assoc k reg = Some c -> known_country n2i k c)
  /\ (forall u, In u unmatched -> turned_down n2i u).
Proof.
  intros Hrun.
  assert (Hinv : Forall (fun kc => known_country n2i (fst kc) (snd kc)) reg
                 /\ Forall (turned_down n2i) unmatched).
  { unfold Legacy.ingest_tpdlf_thresholds in Hrun.
    destruct (empty df); [injection Hrun as <- <-; split; constructor | ].
    match type of Hrun with
    | fold_left (Legacy.tpdlf_threshold_step _ _ ?jc ?at_ ?th ?mt ?nd) ?rs ?st = _ =>
        pose proof (legacy_loop_invariant n2i n2r jc at_ th mt nd rs st
                      (Forall_nil _) (Forall_nil _)) as Hloop
    end.
    rewrite Hrun in Hloop. exact Hloop. }
  destruct Hinv as [H1 H2]. rewrite Forall_forall in H1, H2. split.
  - intros k c Hk. exact (H1 _ (assoc_In _ _ _ Hk)).
  - exact H2.
Qed.

End LegacyRegistry.

Lemma iso_maps_go_together_witness :
  exists n2i i2n n2r,
    @Legacy.load_iso_codes sample_env sample_iso = (n2i, i2n, n2r)
    /\ assoc "germany" n2i = Some "DE"
    /\ found (assoc "germany" n2r) = true
    /\ found (assoc "DE" i2n) = true
    /\ assoc "nowhere" n2i = None.
Proof.
  do 3 eexists. split; [vm_compute; reflexivity | ].
  destruct (@iso_maps_go_together sample_env sample_iso _ _ _
              ltac:(vm_compute; reflexivity)) as [H1 H2].
  split; [reflexivity | ]. split; [rewrite H1; reflexivity | ].
  split; [exact (proj2 (proj2 (H2 "germany" "DE" eq_refl))) | reflexivity].
Defined.

Lemma legacy_registry_holds_known_countries_witness :
  exists reg,
    @Legacy.ingest_tpdlf_thresholds sample_env
      [("germany", "DE"); ("japan", "JP")] [("germany", "Europe"); ("japan", "")]
      sample_tpdlf_thresholds ([], []) = (reg, ["Atlantis"])
    /\ map fst reg = ["germany"]
    /\ turned_down [("germany", "DE"); ("japan", "JP")] "Atlantis".
Proof.
  eexists. split; [vm_compute; reflexivity | ]. split; [reflexivity | ].
  apply (@legacy_registry_holds_known_countries sample_env
           [("germany", "DE"); ("japan", "JP")] [("germany", "Europe"); ("japan", "")]
           sample_tpdlf_thresholds _ ["Atlantis"] ltac:(vm_compute; reflexivity)).
  left. reflexivity.
Defined.

(** ** The records of a country and the rows they come from *)

Section RecordsOfRows.
Import Rules2.
Context {E : PyEnv}.

Lemma assoc_ingest_loop n2r c2n body (rows : list row) (st : state) (k : string) :
  assoc k (st_countries (fold_left (ingest_step n2r c2n body) rows st))
  = fold_left
      (fun o r =>
         if belongs c2n k r
         then Some (body r (match o with
                            | Some c => c
                            | None => fresh_country n2r c2n (token_of r)
                            end))
         else o)
      rows (assoc k (st_countries st)).
Proof.
  revert st. induction rows as [| r rows IH]; intros st; [reflexivity | ].
  cbn [fold_left]. rewrite IH, assoc_ingest_step. reflexivity.
Qed.

Lemma records_ingest (fld : country -> list dict) (emit : row -> list dict)
      n2r c2n body (df : frame) (st : state) (k : string) :
  (forall r c, fld (body r c) = (fld c ++ emit r)%list) ->
  (forall j, fld (fresh_country n2r c2n j) = []) ->
  records_at fld (assoc k (st_countries (ingest n2r c2n body df st)))
  = (records_at fld (assoc k (st_countries st))
     ++ flat_map emit (filter (belongs c2n k) (looped df)))%list.
Proof.
  intros Hbody Hfresh.
  replace (ingest n2r c2n body df st)
    with (fold_left (ingest_step n2r c2n body) (looped df) st)
    by (unfold ingest, looped; destruct (empty df); reflexivity).
  rewrite assoc_ingest_loop.
  generalize (assoc k (st_countries st)) as o.
  induction (looped df) as [| r rows IH]; intros o.
  - simpl. rewrite app_nil_r. reflexivity.
  - cbn [fold_left filter]. rewrite IH. destruct (belongs c2n k r); [ | reflexivity].
    cbn [records_at flat_map]. rewrite Hbody, <- app_assoc.
    destruct o as [c |]; [reflexivity | ]. rewrite Hfresh. reflexivity.
Qed.

Lemma flat_map_none {A B : Type} (l : list A) : flat_map (fun _ : A => @nil B) l = [].
Proof. induction l; simpl; auto. Qed.

Lemma flat_map_one {A B : Type} (g : A -> B) (l : list A) :
  flat_map (fun x => [g x]) l = map g l.
Proof. induction l; simpl; congruence. Qed.

Lemma flat_map_if {A B : Type} (p : B -> bool) (g : A -> B) (l : list A) :
  flat_map (fun x => if p (g x) then [g x] else []) l = filter p (map g l).
Proof.
  induction l as [| x l IH]; simpl; [reflexivity | ].
  rewrite IH. destruct (p (g x)); reflexivity.
Qed.

Lemma first_pass_field (fld : country -> list dict)
      (e1 e2 e3 e4 e5 e6 : row -> list dict) (xls : workbook) (k : string) :
  (forall r c, fld (lf_threshold_body r c) = (fld c ++ e1 r)%list) ->
  (forall r c, fld (lf_deadline_body r c) = (fld c ++ e2 r)%list) ->
  (forall r c, fld (mf_threshold_body r c) = (fld c ++ e3 r)%list) ->
  (forall r c, fld (mf_deadline_body r c) = (fld c ++ e4 r)%list) ->
  (forall r c, fld (form_body r c) = (fld c ++ e5 r)%list) ->
  (forall r c, fld (cbcr_body r c) = (fld c ++ e6 r)%list) ->
  (forall n2r c2n j, fld (fresh_country n2r c2n j) = []) ->
  records_at fld (assoc k (st_countries (first_pass_of xls)))
  = (flat_map e1 (rows_of xls k SheetNames.LF_THRESHOLD)
     ++ flat_map e2 (rows_of xls k SheetNames.LF_DEADLINES)
     ++ flat_map e3 (rows_of xls k SheetNames.MF_THRESHOLD)
     ++ flat_map e4 (rows_of xls k SheetNames.MF_DEADLINES)
     ++ flat_map e5 (rows_of xls k SheetNames.TP_FORMS)
     ++ flat_map e6 (rows_of xls k SheetNames.CBCR))%list.
Proof.
  intros B1 B2 B3 B4 B5 B6 Hfresh. unfold first_pass_of, first_pass, rows_of.
  rewrite (records_ingest fld e6) by auto.
  rewrite (records_ingest fld e5) by auto.
  rewrite (records_ingest fld e4) by auto.
  rewrite (records_ingest fld e3) by auto.
  rewrite (records_ingest fld e2) by auto.
  rewrite (records_ingest fld e1) by auto.
  simpl. rewrite <- !app_assoc. reflexivity.
Qed.

Ltac body_emits :=
  intros; unfold lf_threshold_body, lf_deadline_body, mf_threshold_body,
    mf_deadline_body, form_body, cbcr_body, threshold_record, deadline_record,
    form_record;
  repeat match goal with
         | |- context [if ?b then _ else _] => destruct b
         end;
  simpl; rewrite ?app_nil_r; reflexivity.

(** The record lists of a country after the six loops. *)
Lemma first_pass_records (xls : workbook) (k : string) :
  let o := assoc k (st_countries (first_pass_of xls)) in
  records_at lf_tpd_thresholds o
  = filter validate_threshold_data
           (map (threshold_record DocType.LF) (rows_of xls k SheetNames.LF_THRESHOLD))
  /\ records_at mf_thresholds o
     = filter validate_threshold_data
              (map (threshold_record DocType.MF) (rows_of xls k SheetNames.MF_THRESHOLD))
  /\ records_at lf_tpd_deadlines o
     = map (deadline_record DocType.LF) (rows_of xls k SheetNames.LF_DEADLINES)
  /\ records_at mf_deadlines o
     = map (deadline_record DocType.MF) (rows_of xls k SheetNames.MF_DEADLINES)
  /\ records_at tp_forms o = map form_record (rows_of xls k SheetNames.TP_FORMS).
Proof.
  cbv zeta. split; [ | split; [ | split; [ | split]]].
  - rewrite (first_pass_field lf_tpd_thresholds
               (fun r => if validate_threshold_data (threshold_record DocType.LF r)
                         then [threshold_record DocType.LF r] else [])
               (fun _ => []) (fun _ => []) (fun _ => []) (fun _ => []) (fun _ => []));
      try reflexivity; try body_emits.
    rewrite !flat_map_none, !app_nil_r. apply flat_map_if.
  - rewrite (first_pass_field mf_thresholds
               (fun _ => []) (fun _ => [])
               (fun r => if validate_threshold_data (threshold_record DocType.MF r)
                         then [threshold_record DocType.MF r] else [])
               (fun _ => []) (fun _ => []) (fun _ => []));
      try reflexivity; try body_emits.
    rewrite !flat_map_none, !app_nil_r. apply flat_map_if.
  - rewrite (first_pass_field lf_tpd_deadlines
               (fun _ => []) (fun r => [deadline_record DocType.LF r])
               (fun _ => []) (fun _ => []) (fun _ => []) (fun _ => []));
      try reflexivity; try body_emits.
    rewrite !flat_map_none, !app_nil_r. apply flat_map_one.
  - rewrite (first_pass_field mf_deadlines
               (fun _ => []) (fun _ => []) (fun _ => [])
               (fun r => [deadline_record DocType.MF r]) (fun _ => []) (fun _ => []));
      try reflexivity; try body_emits.
    rewrite !flat_map_none, !app_nil_r. apply flat_map_one.
  - rewrite (first_pass_field tp_forms
               (fun _ => []) (fun _ => []) (fun _ => []) (fun _ => [])
               (fun r => [form_record r]) (fun _ => []));
      try reflexivity; try body_emits.
    rewrite !flat_map_none, !app_nil_r. apply flat_map_one.
Qed.

(** X21. The records of a country of the compiled document are those of
    the rows of the sheets that belong to it, no row lost and none
    twice: its thresholds are the records of its rows of the threshold
    sheets that pass [validate_threshold_data], sorted by
    (group_id, seq); its deadlines and forms are the records of its rows
    of the deadline and form sheets, sorted likewise, each as packed or
    as [calculate_deadline_from_cit] returned it. *)
Theorem document_records_come_from_rows
        (xls : workbook) (path fye_ : string) (doc : compiled) (c : country) :
  compile_rules xls path fye_ = Done doc ->
  In c (countries doc) ->
  lf_tpd_thresholds c
  = sort_group
      (filter validate_threshold_data
              (map (threshold_record DocType.LF)
                   (rows_of xls (lower (name c)) SheetNames.LF_THRESHOLD)))
  /\ mf_thresholds c
     = sort_group
         (filter validate_threshold_data
                 (map (threshold_record DocType.MF)
                      (rows_of xls (lower (name c)) SheetNames.MF_THRESHOLD)))
  /\ Forall2 (resolved fye_)
             (sort_group (map (deadline_record DocType.LF)
                              (rows_of xls (lower (name c)) SheetNames.LF_DEADLINES)))
             (lf_tpd_deadlines c)
  /\ Forall2 (resolved fye_)
             (sort_group (map (deadline_record DocType.MF)
                              (rows_of xls (lower (name c)) SheetNames.MF_DEADLINES)))
             (mf_deadlines c)
  /\ Forall2 (resolved fye_)
             (sort_group (map form_record
                              (rows_of xls (lower (name c)) SheetNames.TP_FORMS)))
             (tp_forms c).
Proof.
  intros Hdoc Hc.
  destruct (document_country_origin _ _ _ _ _ Hdoc Hc) as (c0 & c1 & Hc0 & Hsame & Hcase).
  pose proof (first_pass_records xls (lower (name c))) as Hrec. cbv zeta in Hrec.
  rewrite Hc0 in Hrec. cbn [records_at] in Hrec.
  destruct Hrec as (R1 & R2 & R3 & R4 & R5).
  destruct (same_but_cit_fields _ _ Hsame) as (_ & _ & E1 & E2 & E3 & E4 & E5 & _).
  rewrite <- R1, <- R2, <- R3, <- R4, <- R5, <- E1, <- E2, <- E3, <- E4, <- E5.
  destruct Hcase as [-> | (_ & _ & Hen)].
  - simpl. repeat split; try reflexivity;
      apply Forall2_refl_on; intros d; left; reflexivity.
  - apply enhance_country_records in Hen.
    destruct Hen as (_ & _ & H1 & H2 & _ & H3 & H4 & H5 & _).
    simpl in H1, H2, H3, H4, H5. repeat split; assumption.
Qed.

End RecordsOfRows.

Lemma document_records_come_from_rows_witness :
  exists doc c,
    @Rules2.compile_rules sample_env sample_xls "Rule Tables.xlsx" "2024-12-31" = Done doc
    /\ nth_error (Rules2.countries doc) 2 = Some c
    /\ map (@token_of sample_env) (@rows_of sample_env sample_xls (lower (Rules2.name c))
                       Rules2.SheetNames.LF_DEADLINES) = ["Germany"; "Germany"]
    /\ Forall2 (@resolved sample_env "2024-12-31")
               (Rules2.sort_group
                  (map (@deadline_record sample_env Rules2.DocType.LF)
                       (@rows_of sample_env sample_xls (lower (Rules2.name c))
                          Rules2.SheetNames.LF_DEADLINES)))
               (Rules2.lf_tpd_deadlines c).
Proof.
  eexists. eexists. split; [vm_compute; reflexivity | ].
  split; [vm_compute; reflexivity | ]. split; [vm_compute; reflexivity | ].
  apply (@document_records_come_from_rows sample_env sample_xls "Rule Tables.xlsx"
           "2024-12-31" _ _ ltac:(vm_compute; reflexivity)
           ltac:(vm_compute; do 2 right; left; reflexivity)).
Defined.
